(** * Interactive table extraction pipeline: a shallow embedding

    The development follows [scripts/scraper3.py] (the click-to-capture
    pipeline with its tiered extraction and its link queue navigator),
    [scripts/scraper_tool.py] (the first click variant) and the in-page
    script of [scripts/scraper.py] (the hotkey variant).

    Python values are modelled by [PyVal], the operator console by a finite
    list of keyboard items, and every call that leaves the process (browser,
    pandas, the hosted backend, the file system) by a field of [World].
    Functions of the scripts keep their names. *)

From Stdlib Require Import ZArith List String Ascii Bool Lia DecimalString DecimalPos.
From stdpp Require Import base gmap strings list.
Import ListNotations.

Local Open Scope Z_scope.

Set Warnings "-register-all".

(** ** Python values *)

(** JSON-like values as they travel between the scripts and the backend.
    A float carries the text [str] renders for it: the scripts never
    compute with one. *)
Inductive PyVal : Type :=
| PNone
| PBool (b : bool)
| PInt (z : Z)
| PFloat (repr : string)
| PStr (s : string)
| PList (l : list PyVal)
| PDict (kvs : list (string * PyVal)).

(** Truth value of [if v:]. *)
Definition truthy (v : PyVal) : bool :=
  match v with
  | PNone => false
  | PBool b => b
  | PInt z => negb (z =? 0)
  | PFloat r => negb (String.eqb r "0.0" || String.eqb r "-0.0")
  | PStr s => negb (String.eqb s "")
  | PList l => match l with [] => false | _ => true end
  | PDict kvs => match kvs with [] => false | _ => true end
  end.

(** [isinstance(v, str)]. *)
Definition is_str (v : PyVal) : bool :=
  match v with PStr _ => true | _ => false end.

(** Exceptions the scripts can meet. [KeyboardInterrupt] is the only one
    that is not a subclass of [Exception]. *)
Inductive Exn : Type :=
| EOFError
| KeyboardInterrupt
| ValueError (msg : string)
| TypeError (msg : string)
| AttributeError (msg : string)
| RuntimeError (msg : string).

Definition is_Exception (e : Exn) : bool :=
  match e with KeyboardInterrupt => false | _ => true end.

Definition is_ValueError (e : Exn) : bool :=
  match e with ValueError _ => true | _ => false end.

Definition exn_text (e : Exn) : string :=
  match e with
  | EOFError => "EOF when reading a line"
  | KeyboardInterrupt => "KeyboardInterrupt"
  | ValueError m | TypeError m | AttributeError m | RuntimeError m => m
  end.

(** ** Strings: [strip], [lower], [int] *)

(** A text is kept as a string of bytes. The functions below are Python's on
    ASCII texts; what Python does with white space, digits and letters
    outside ASCII is not modelled. *)

(** ASCII white space as [str.strip] sees it. *)
Definition is_space (c : ascii) : bool :=
  let n := nat_of_ascii c in
  (((9 <=? n) && (n <=? 13)) || ((28 <=? n) && (n <=? 32)))%nat.

Fixpoint lstrip (s : string) : string :=
  match s with
  | String c r => if is_space c then lstrip r else s
  | EmptyString => EmptyString
  end.

Definition rstrip (s : string) : string := String.rev (lstrip (String.rev s)).

Definition strip (s : string) : string := rstrip (lstrip s).

Definition lower_ascii (c : ascii) : ascii :=
  let n := nat_of_ascii c in
  if ((65 <=? n) && (n <=? 90))%nat then ascii_of_nat (n + 32) else c.

Fixpoint lower (s : string) : string :=
  match s with
  | String c r => String (lower_ascii c) (lower r)
  | EmptyString => EmptyString
  end.

Definition digit_of (c : ascii) : option Z :=
  option_map Z.of_nat (Ascii.is_nat c).

(** The digit part of a decimal literal: digits, with single underscores
    allowed between two digits. *)
Fixpoint int_digits (s : string) (acc : Z) (after_digit : bool) : option Z :=
  match s with
  | EmptyString => if after_digit then Some acc else None
  | String c r =>
      match digit_of c with
      | Some d => int_digits r (10 * acc + d) true
      | None =>
          if Ascii.eqb c "_" && after_digit then int_digits r acc false
          else None
      end
  end.

(** [int(s)] for a text argument: [None] stands for [ValueError]. The limit
    of 4300 digits that [int] has by default is not modelled: the function
    is Python's on numerals within it. *)
Definition py_int (s : string) : option Z :=
  match strip s with
  | String "+" r => int_digits r 0 false
  | String "-" r => option_map Z.opp (int_digits r 0 false)
  | t => int_digits t 0 false
  end.

(** [str(z)] for an integer. *)
Definition str_of_Z (z : Z) : string := NilZero.string_of_int (Z.to_int z).

(** [pat in s] for two texts. *)
Fixpoint contains (pat s : string) : bool :=
  String.prefix pat s ||
  match s with
  | String _ r => contains pat r
  | EmptyString => false
  end.

(** [len(v)]: sized values only. *)
Definition py_len (v : PyVal) : option Z :=
  match v with
  | PStr s => Some (Z.of_nat (String.length s))
  | PList l => Some (Z.of_nat (length l))
  | PDict kvs => Some (Z.of_nat (length kvs))
  | _ => None
  end.

(** ** Links, data frames and what the outside world answers *)

(** A link object as the backend returns it: a dictionary. *)
Abbreviation Link := (gmap string PyVal).

(** [d.get(k)] and [d.get(k, default)] on a link object. *)
Definition link_get (l : Link) (k : string) : PyVal := default PNone (l !! k).
Definition link_get_or (l : Link) (k : string) (d : PyVal) : PyVal :=
  default d (l !! k).

(** [len(links)]. *)
Definition len {A} (l : list A) : Z := Z.of_nat (length l).

(** A cell of a pandas frame. A float cell carries the text [str] renders
    for it; no float arithmetic happens in the scripts. *)
Inductive Cell : Type :=
| CNaN
| CBool (b : bool)
| CInt (z : Z)
| CFloat (repr : string)
| CStr (s : string).

Record DataFrame : Type := mkFrame {
  columns : list string;
  rows : list (list Cell)
}.

(** A library or remote call that fails raises a subclass of [Exception]:
    either a [ValueError] or something else. *)
Inductive LibExn : Type :=
| LibValueError (msg : string)
| LibError (msg : string).

Definition exn_of_lib (e : LibExn) : Exn :=
  match e with
  | LibValueError m => ValueError m
  | LibError m => RuntimeError m
  end.

Inductive Outcome (A : Type) : Type :=
| Returns (a : A)
| Fails (e : LibExn).
Arguments Returns {A} a.
Arguments Fails {A} e.

(** The payload of the [procurementData:create] mutation. *)
Record Payload : Type := mkPayload {
  procurementUrlId : PyVal;
  state : PyVal;
  sourceUrl : PyVal;
  data : PyVal;
  rowCount : Z
}.

(** Everything outside the process. Each field answers one call of the
    scripts; a call the scripts do not guard is taken to succeed and has no
    field here. *)
Record World : Type := mkWorld {
  (** [os.getenv("VITE_CONVEX_URL") or os.getenv("CONVEX_URL") or ...] *)
  env_convex_url : option string;
  (** [client.query("procurementUrls:getApproved", {})] *)
  convex_query : Outcome (list Link);
  (** [client.mutation("procurementData:create", payload)] *)
  convex_mutation : Payload -> Outcome PyVal;
  (** [client.action("htmlParsingActions:parseHtmlIntelligently", ...)] *)
  convex_action : string -> PyVal -> Outcome PyVal;
  (** [browser.pages] is not empty after the launch *)
  browser_has_page : bool;
  (** [STEALTH_AVAILABLE] and [stealth_async(page)] *)
  stealth_available : bool;
  stealth_async : Outcome unit;
  (** [page.goto(url, wait_until=..., timeout=...)] *)
  page_goto : string -> string -> Outcome unit;
  (** [page.wait_for_load_state("networkidle")] *)
  page_networkidle : string -> Outcome unit;
  (** [page.title()] and [page.locator("table").count()] of the diagnostics *)
  page_tables : string -> Outcome Z;
  (** which verification system [check_for_verification] finds *)
  page_verification : string -> option string;
  (** [page.evaluate] of the detection diagnostics *)
  page_detection : string -> Outcome unit;
  (** [page.expose_function("returnHTML", on_selection)] *)
  page_expose : string -> Outcome unit;
  (** [page.evaluate(SELECTOR_JS)] *)
  page_inject : string -> Outcome unit;
  (** the markups with which the page calls [window.returnHTML], in order *)
  page_hook_calls : string -> list string;
  (** [pd.read_html(StringIO(html))] *)
  read_html : string -> Outcome (list DataFrame);
  (** opening and writing the debug file *)
  file_write : string -> Outcome unit;
  (** [datetime.now().strftime("%Y%m%d_%H%M%S")] *)
  now_stamp : string;
  (** [hashlib.md5(text.encode()).hexdigest()] *)
  md5_hexdigest : string -> string;
  (** [pd.DataFrame(v)]: whether pandas can build a frame from [v] *)
  pd_DataFrame : PyVal -> Outcome unit;
  (** [pd.DataFrame(v).head().to_markdown(index=False)]: whether the first
      rows of that frame can be rendered *)
  to_markdown : PyVal -> Outcome unit
}.

(** ** Observable events *)

Inductive Tier : Type := Structured | AIAssisted | ManualPaste.

(** Why an attempt of the manual fallback was recorded as failed. *)
Inductive Reason : Type :=
| NoTablesInPaste
| EmptyAfterCleaning
| UserRejected
| PandasParsingError (msg : string)
| UnexpectedError (msg : string).

(** An entry of the list [errors]: ["Attempt k: ..."] or
    ["Attempt k (AI): ..."]. *)
Inductive ErrEntry : Type :=
| AttemptError (attempt : nat) (why : Reason)
| AttemptAIError (attempt : nat) (msg : string).

Inductive Msg : Type :=
(* navigator *)
| NavigationOptions (total : Z) (cur : option Z)
| WhatNext (total cur : Z)
| LinkMenu (count : nat) (cur : option Z)
| LinkMenuUpTo (shown : nat) (cur : option Z)
| AlreadyLast
| AlreadyFirst
| NumberOutOfRange (total : Z)
| InvalidInput
| InvalidNumber
| Goodbye
(* backend *)
| ConvexUrlMissing
| Connecting (url : string)
| Fetching
| FoundLinks (n : Z)
| LoadedLinks (n : Z)
| NoApprovedLinks
| FetchError (msg : string)
| Uploading
| DataSaved (id : PyVal)
| SaveError (msg : string)
(* browser session *)
| NoUrl
| Processing (index total : Z) (url : string)
| UsingWaitStrategy (s : string)
| Navigating (url : string)
| CouldNotLoad (url msg : string)
| StealthApplied
| StealthFailed (msg : string)
| TablesFound (n : Z)
| DiagnosticError (msg : string)
| VerificationDetected (name : string)
| VerificationRequired (name : string)
| StepVerify
| SkippingLink
| ActivatingSelector
| ExposeFailed (msg : string)
| InjectFailed (msg : string)
| StepSelect
| ElementCaptured
| SelectionError (msg : string)
(* extraction *)
| ParsingDebug (chars : Z)
| NoTablesPandas
| FoundTablesDebug (n : Z)
| EmptyTable
| ParsedPandas (n : Z)
| CouldNotParse (msg : string)
| ParsingError (msg : string)
| DebugSaved (path : string)
| DebugSaveFailed (msg : string)
| AIAttempt
| AIParsed (n : PyVal)
| AINotes (notes : PyVal)
| AIFailed (msg : PyVal)
| AICallError (msg : string)
| ParsedRows (n : Z)
| SampleHeader
| DataSample (records : PyVal)
| AutoParseFailed
| CaptureErrorOccurred
| NoDataParsed
(* the first click variant *)
| Opening (url : string)
| ActionRequired
| NoStandardTables
| ExtractedSample (rows : list (list Cell))
| TotalRows (n : Z)
| PandasCouldNotParse
(* manual fallback *)
| ManualInstructions
| InputCancelled
| Received (chars : Z)
| AttemptBanner (attempt max_retries : nat)
| SkippingManual
| AttemptFailed (why : Reason)
| FoundTables (n : Z)
| ParsedManual (n : Z)
| PreviewHeader
| Preview (records : PyVal)
| TryDifferentHtml
| AttemptingAI
| AIAlsoFailed (msg : string)
| ErrorSummary (errs : list ErrEntry)
| ParsedRowsManual (n : Z).

Inductive PromptKind : Type :=
| EnterChoice
| EnterLinkNumber
| ContinueOrSkip
| PasteLine
| TryAgain
| LooksCorrect
| PasteManually
| NextSiteOrQuit.

Inductive Event : Type :=
| Print (m : Msg)
| Prompt (p : PromptKind)
| ConvexConnect (url : string)
| ConvexQuery
| ConvexMutation (p : Payload)
| ConvexAction (html : string) (url : PyVal)
| NewPage
| StealthPatch
| PageGoto (url wait_until : string)
| PageClose
| ExposeFunction (name : string)
| InjectSelector
| AwaitCapture
| PandasRead (t : Tier) (html : string)
| DebugWrite (path html : string)
| LaunchBrowser
| CloseBrowser.

(** ** The operator console and the state of a run *)

(** What the operator does at an [input()]: types a line, or presses
    Ctrl-C. The end of the list is the end of standard input. *)
Inductive Key : Type :=
| Line (s : string)
| CtrlC.

Record State : Type := mkState {
  console : list Key;          (** what the operator will still type *)
  out : list Event;            (** what has been observed so far *)
  client : option string;      (** the global [client]: [Some url] once built *)
  errors : list ErrEntry       (** the list [errors] of the manual fallback *)
}.

Inductive Res (A : Type) : Type :=
| Ok (a : A)
| Raise (e : Exn)
| Hang.                        (** an [await] that is never resumed *)
Arguments Ok {A} a.
Arguments Raise {A} e.
Arguments Hang {A}.

(** A computation of the scripts: it may read the console, emit events,
    change the globals, return, raise, or wait forever. The state survives
    an exception, as Python's does. *)
Definition Py (A : Type) : Type := State -> Res A * State.

Definition ret {A} (a : A) : Py A := fun st => (Ok a, st).

Definition bind {A B} (m : Py A) (k : A -> Py B) : Py B :=
  fun st =>
    match m st with
    | (Ok a, st') => k a st'
    | (Raise e, st') => (Raise e, st')
    | (Hang, st') => (Hang, st')
    end.

Definition raise {A} (e : Exn) : Py A := fun st => (Raise e, st).

Definition hang {A} : Py A := fun st => (Hang, st).

(** [try: body except ...: handler]. [handler e] is [None] when no
    [except] clause matches [e]. *)
Definition try_except {A} (body : Py A) (handler : Exn -> option (Py A)) : Py A :=
  fun st =>
    match body st with
    | (Raise e, st') =>
        match handler e with
        | Some h => h st'
        | None => (Raise e, st')
        end
    | r => r
    end.

(** [except Exception as e:] *)
Definition except_Exception {A} (h : Exn -> Py A) (e : Exn) : option (Py A) :=
  if is_Exception e then Some (h e) else None.

Declare Scope py_scope.
Delimit Scope py_scope with py.
Notation "x <- m ;; k" := (bind m (fun x => k))
  (at level 20, m at level 99, k at level 200) : py_scope.
Notation "m ;; k" := (bind m (fun _ => k))
  (at level 100, k at level 200, right associativity) : py_scope.
Local Open Scope py_scope.

Definition emit (e : Event) : Py unit :=
  fun st => (Ok tt, mkState (console st) (out st ++ [e]) (client st) (errors st)).

Definition print (m : Msg) : Py unit := emit (Print m).

(** [input(prompt)] *)
Definition input (p : PromptKind) : Py string :=
  fun st =>
    let st1 := mkState (console st) (out st ++ [Prompt p]) (client st) (errors st) in
    match console st with
    | [] => (Raise EOFError, st1)
    | CtrlC :: rest =>
        (Raise KeyboardInterrupt,
         mkState rest (out st1) (client st1) (errors st1))
    | Line s :: rest =>
        (Ok s, mkState rest (out st1) (client st1) (errors st1))
    end.

(** A call into the world that may fail. *)
Definition call {A} (o : Outcome A) : Py A :=
  match o with
  | Returns a => ret a
  | Fails e => raise (exn_of_lib e)
  end.

(** Runs a loop that is written by recursion over the console. *)
Definition on_console {A}
    (f : list Key -> Res A * list Key * list Event) : Py A :=
  fun st =>
    let '(r, con, tr) := f (console st) in
    (r, mkState con (out st ++ tr) (client st) (errors st)).

(** ** Link queue navigator *)

(** What a navigator menu returns: [("quit", None)] or [("goto", k)]. *)
Inductive NavAction : Type :=
| Quit
| Goto (k : Z).

(** The double quote, as a text. *)
Definition dquote : string := String (ascii_of_nat 34) EmptyString.

(** [url[:50] + "..." if len(url) > 50 else url] in [display_link_menu]:
    the exception it raises, if any. A value without [len] fails at once; a
    list or a dictionary of more than 50 items fails when it is cut and
    joined to the dots (for the dictionary Python 3.11 raises [TypeError] on
    the slice). *)
Definition display_url_error (url : PyVal) : option Exn :=
  match url with
  | PStr _ => None
  | PList l =>
      if 50 <? Z.of_nat (length l)
      then Some (TypeError ("can only concatenate list (not " +:+ dquote +:+
                            "str" +:+ dquote +:+ ") to list"))
      else None
  | PDict kvs =>
      if 50 <? Z.of_nat (length kvs)
      then Some (TypeError "unhashable type: 'slice'")
      else None
  | PNone => Some (TypeError "object of type 'NoneType' has no len()")
  | PBool _ => Some (TypeError "object of type 'bool' has no len()")
  | PInt _ => Some (TypeError "object of type 'int' has no len()")
  | PFloat _ => Some (TypeError "object of type 'float' has no len()")
  end.

(** The [for i, link in enumerate(links)] loop of [display_link_menu]: how
    many rows it prints, and the exception that ends it, if any. *)
Fixpoint listed_rows (links : list Link) : nat * option Exn :=
  match links with
  | [] => (O, None)
  | link :: rest =>
      match display_url_error (link_get_or link "procurementLink" (PStr "N/A")) with
      | Some e => (O, Some e)
      | None => let '(k, r) := listed_rows rest in (S k, r)
      end
  end.

(** What [display_link_menu] prints and the exception it raises, if any: the
    whole menu, or its head and the rows before the one that fails. *)
Definition link_menu (links : list Link) (current_index : option Z)
  : list Event * option Exn :=
  match listed_rows links with
  | (_, None) => ([Print (LinkMenu (length links) current_index)], None)
  | (k, Some e) => ([Print (LinkMenuUpTo k current_index)], Some e)
  end.

(** [display_link_menu(links, current_index)] *)
Definition display_link_menu (links : list Link) (current_index : option Z)
  : Py unit :=
  fun st =>
    let '(shown, failure) := link_menu links current_index in
    (match failure with
     | None => Ok tt
     | Some e => Raise e
     end,
     mkState (console st) (out st ++ shown) (client st) (errors st)).

(** One prompt of a menu answered by a rejected line: the events of this
    round, then the next round at the same position. *)
Definition again {A} (round : list Event)
    (next : Res A * list Key * list Event) : Res A * list Key * list Event :=
  let '(r, con, tr) := next in (r, con, round ++ tr).

(** The [while True] loop of [get_user_selection], by recursion over what
    the operator types. *)
Fixpoint user_selection_loop (links : list Link) (current_index : option Z)
    (con : list Key) : Res NavAction * list Key * list Event :=
  let total := len links in
  let menu := [Print (NavigationOptions total current_index); Prompt EnterChoice] in
  match con with
  | [] => (Raise EOFError, [], menu)
  | CtrlC :: rest => (Raise KeyboardInterrupt, rest, menu)
  | Line l :: rest =>
      let choice := lower (strip l) in
      let retry w := again (menu ++ w) (user_selection_loop links current_index rest) in
      if String.eqb choice "q" then (Ok Quit, rest, menu)
      else if String.eqb choice "l" then
        match link_menu links current_index with
        | (shown, None) => retry shown
        | (shown, Some e) => (Raise e, rest, menu ++ shown)
        end
      else if String.eqb choice "n" then
        match current_index with
        | None => (Ok (Goto 0), rest, menu)
        | Some c =>
            if c <? total - 1 then (Ok (Goto (c + 1)), rest, menu)
            else retry [Print AlreadyLast]
        end
      else if String.eqb choice "p" then
        match current_index with
        | None => retry [Print AlreadyFirst]
        | Some c =>
            if c =? 0 then retry [Print AlreadyFirst]
            else (Ok (Goto (c - 1)), rest, menu)
        end
      else
        match py_int choice with
        | Some num =>
            if (1 <=? num) && (num <=? total) then (Ok (Goto (num - 1)), rest, menu)
            else retry [Print (NumberOutOfRange total)]
        | None => retry [Print InvalidInput]
        end
  end.

Definition get_user_selection (links : list Link) (current_index : option Z)
  : Py NavAction :=
  on_console (user_selection_loop links current_index).

(** The [while True] loop of [get_post_scrape_action]. The choice [j] reads
    a second line. *)
Fixpoint post_scrape_loop (links : list Link) (current_index : Z)
    (con : list Key) : Res NavAction * list Key * list Event :=
  let total := len links in
  let menu := [Print (WhatNext total current_index); Prompt EnterChoice] in
  match con with
  | [] => (Raise EOFError, [], menu)
  | CtrlC :: rest => (Raise KeyboardInterrupt, rest, menu)
  | Line l :: rest =>
      let choice := lower (strip l) in
      let retry w := again (menu ++ w) (post_scrape_loop links current_index rest) in
      if String.eqb choice "q" then (Ok Quit, rest, menu)
      else if String.eqb choice "l" then
        match link_menu links (Some current_index) with
        | (shown, None) => retry shown
        | (shown, Some e) => (Raise e, rest, menu ++ shown)
        end
      else if String.eqb choice "n" then
        if current_index <? total - 1 then (Ok (Goto (current_index + 1)), rest, menu)
        else retry [Print AlreadyLast]
      else if String.eqb choice "p" then
        if 0 <? current_index then (Ok (Goto (current_index - 1)), rest, menu)
        else retry [Print AlreadyFirst]
      else if String.eqb choice "r" then (Ok (Goto current_index), rest, menu)
      else if String.eqb choice "j" then
        let ask := menu ++ [Prompt EnterLinkNumber] in
        match rest with
        | [] => (Raise EOFError, [], ask)
        | CtrlC :: rest' => (Raise KeyboardInterrupt, rest', ask)
        | Line l' :: rest' =>
            let retry' w :=
              again (ask ++ w) (post_scrape_loop links current_index rest') in
            match py_int (strip l') with
            | Some num =>
                if (1 <=? num) && (num <=? total)
                then (Ok (Goto (num - 1)), rest', ask)
                else retry' [Print (NumberOutOfRange total)]
            | None => retry' [Print InvalidNumber]
            end
        end
      else
        match py_int choice with
        | Some num =>
            if (1 <=? num) && (num <=? total) then (Ok (Goto (num - 1)), rest, menu)
            else retry [Print (NumberOutOfRange total)]
        | None => retry [Print InvalidInput]
        end
  end.

Definition get_post_scrape_action (links : list Link) (current_index : Z)
  : Py NavAction :=
  on_console (post_scrape_loop links current_index).


(** ** The capture future *)

(** The [asyncio] future a page's capture hook resolves. *)
Inductive Future : Type :=
| Pending
| Finished (result : string)
| Cancelled.

(** [future.done()] *)
Definition done (fut : Future) : bool :=
  match fut with Pending => false | _ => true end.

(** [future.set_result(r)]: an error on a future that is already done. *)
Definition set_result (r : string) (fut : Future) : Res unit * Future :=
  match fut with
  | Pending => (Ok tt, Finished r)
  | _ => (Raise (RuntimeError "InvalidStateError"), fut)
  end.

(** The hook exposed to the page as [window.returnHTML]. *)
Definition on_selection (html_content : string) (fut : Future) : Res unit * Future :=
  if negb (done fut) then set_result html_content fut else (Ok tt, fut).

(** The page calls the hook with these markups, one after the other. *)
Definition deliver (calls : list string) (fut : Future) : Future :=
  fold_left (fun f html => snd (on_selection html f)) calls fut.

(** [await future]: the result once the future is finished; a future nobody
    resolves is awaited forever. *)
Definition await (fut : Future) : Py string :=
  match fut with
  | Finished r => ret r
  | Pending => hang
  | Cancelled => raise KeyboardInterrupt
  end.

(** ** The pandas part of the structured tier *)

Definition is_nan (c : Cell) : bool :=
  match c with CNaN => true | _ => false end.

Definition cell_at (r : list Cell) (j : nat) : Cell := List.nth j r CNaN.

(** [df.dropna(how="all")]: rows whose cells are all missing go. *)
Definition dropna_rows (df : DataFrame) : DataFrame :=
  mkFrame (columns df)
          (List.filter (fun r => negb (forallb is_nan r)) (rows df)).

Definition column_all_nan (rs : list (list Cell)) (j : nat) : bool :=
  forallb (fun r => is_nan (cell_at r j)) rs.

Definition kept_columns (df : DataFrame) : list nat :=
  List.filter (fun j => negb (column_all_nan (rows df) j))
              (seq 0 (length (columns df))).

(** [df.dropna(axis=1, how="all")]: columns that are missing in every row go. *)
Definition dropna_columns (df : DataFrame) : DataFrame :=
  let keep := kept_columns df in
  mkFrame (map (fun j => List.nth j (columns df) EmptyString) keep)
          (map (fun r => map (cell_at r) keep) (rows df)).

(** [df.empty] *)
Definition df_empty (df : DataFrame) : bool :=
  match columns df, rows df with
  | [], _ => true
  | _, [] => true
  | _, _ => false
  end.

(** [df.fillna("")] *)
Definition fillna (df : DataFrame) : DataFrame :=
  mkFrame (columns df)
          (map (map (fun c => if is_nan c then CStr "" else c)) (rows df)).

(** [str(c)] for a cell. *)
Definition cell_str (c : Cell) : string :=
  match c with
  | CNaN => "nan"
  | CBool true => "True"
  | CBool false => "False"
  | CInt z => str_of_Z z
  | CFloat r => r
  | CStr s => s
  end.

(** [for col in df.columns: df[col] = df[col].astype(str)] *)
Definition astype_str (df : DataFrame) : DataFrame :=
  mkFrame (columns df) (map (map (fun c => CStr (cell_str c))) (rows df)).

Definition cell_value (c : Cell) : PyVal :=
  match c with
  | CNaN => PFloat "nan"
  | CBool b => PBool b
  | CInt z => PInt z
  | CFloat r => PFloat r
  | CStr s => PStr s
  end.

(** [d[k] = v] on a dictionary kept as an ordered list of items. *)
Fixpoint dict_set (k : string) (v : PyVal) (d : list (string * PyVal))
  : list (string * PyVal) :=
  match d with
  | [] => [(k, v)]
  | (k', v') :: r =>
      if String.eqb k k' then (k', v) :: r else (k', v') :: dict_set k v r
  end.

Definition dict_of_items (items : list (string * PyVal)) : list (string * PyVal) :=
  fold_left (fun d kv => dict_set (fst kv) (snd kv) d) items [].

(** [df.to_dict(orient="records")] *)
Definition to_dict_records (df : DataFrame) : PyVal :=
  PList (map (fun r => PDict (dict_of_items (combine (columns df) (map cell_value r))))
             (rows df)).

(** The cleaning and the normalisation both pandas tiers apply to the first
    table. *)
Definition clean (df : DataFrame) : DataFrame := dropna_columns (dropna_rows df).
Definition normalize (df : DataFrame) : DataFrame := astype_str (fillna df).

(** ** The hosted backend *)

Definition set_client (c : option string) : Py unit :=
  fun st => (Ok tt, mkState (console st) (out st) c (errors st)).

(** [init_convex_client()] *)
Definition init_convex_client (w : World) : Py unit :=
  fun st =>
    match client st with
    | Some _ => (Ok tt, st)
    | None =>
        match env_convex_url w with
        | Some (String c r) =>
            let url := String c r in
            (print (Connecting url);;
             emit (ConvexConnect url);;
             set_client (Some url)) st
        | _ =>
            (print ConvexUrlMissing;;
             raise (ValueError "CONVEX_URL not configured")) st
        end
    end.

(** [d.get(k)] and [d.get(k, default)] on a value the backend returned:
    an [AttributeError] unless it is a dictionary. *)
Fixpoint assoc (k : string) (kvs : list (string * PyVal)) : option PyVal :=
  match kvs with
  | [] => None
  | (k', v) :: r => if String.eqb k k' then Some v else assoc k r
  end.

Definition py_get_or (v : PyVal) (k : string) (d : PyVal) : Py PyVal :=
  match v with
  | PDict kvs => ret (default d (assoc k kvs))
  | _ => raise (AttributeError "object has no attribute 'get'")
  end.

Definition py_get (v : PyVal) (k : string) : Py PyVal := py_get_or v k PNone.

(** [len(v)] as a computation: a [TypeError] on a value without length. *)
Definition py_len_of (v : PyVal) : Py Z :=
  match py_len v with
  | Some n => ret n
  | None => raise (TypeError "object has no len()")
  end.

(** [source_url] as the backend receives it. *)
Definition url_value (source_url : option string) : PyVal :=
  match source_url with
  | Some u => PStr u
  | None => PNone
  end.

(** [parse_with_ai_agent(html_content, source_url)] *)
Definition parse_with_ai_agent (w : World) (html_content : string)
    (source_url : option string) : Py PyVal :=
  init_convex_client w;;
  print AIAttempt;;
  try_except
    (emit (ConvexAction html_content (url_value source_url));;
     result <- call (convex_action w html_content (url_value source_url));;
     success <- py_get result "success";;
     found <- py_get result "data";;
     if truthy success && truthy found then
       let records := found in
       n <- py_len_of records;;
       shown <- py_get_or result "rowCount" (PInt n);;
       print (AIParsed shown);;
       notes <- py_get result "notes";;
       (if truthy notes then print (AINotes notes) else ret tt);;
       ret records
     else
       error_msg <- py_get_or result "error" (PStr "Unknown error");;
       print (AIFailed error_msg);;
       ret PNone)
    (except_Exception (fun e =>
       print (AICallError (exn_text e));;
       ret PNone)).

(** ** The debug artifact *)

Definition debug_filename (w : World) (source_url : option string) : string :=
  let timestamp := now_stamp w in
  let url_hash := String.substring 0 8 (md5_hexdigest w (default EmptyString source_url)) in
  "parse_failure_" +:+ timestamp +:+ "_" +:+ url_hash +:+ ".html".

(** [save_debug_html(html_content, source_url)] *)
Definition save_debug_html (w : World) (html_content : string)
    (source_url : option string) : Py (option string) :=
  let filepath := "debug_html/" +:+ debug_filename w source_url in
  try_except
    (call (file_write w filepath);;
     emit (DebugWrite filepath html_content);;
     print (DebugSaved filepath);;
     ret (Some filepath))
    (except_Exception (fun e =>
       print (DebugSaveFailed (exn_text e));;
       ret None)).

(** ** The automatic tiers *)

(** [parse_html_to_records(html_content, source_url)] *)
Definition parse_html_to_records (w : World) (html_content : string)
    (source_url : option string) : Py PyVal :=
  let fall_back :=
    save_debug_html w html_content source_url;;
    parse_with_ai_agent w html_content source_url in
  print (ParsingDebug (Z.of_nat (String.length html_content)));;
  try_except
    (emit (PandasRead Structured html_content);;
     dfs <- call (read_html w html_content);;
     match dfs with
     | [] =>
         print NoTablesPandas;;
         fall_back
     | first :: _ =>
         print (FoundTablesDebug (len dfs));;
         let main_df := clean first in
         if df_empty main_df then
           print EmptyTable;;
           fall_back
         else
           let records := to_dict_records (normalize main_df) in
           print (ParsedPandas (len (rows main_df)));;
           ret records
     end)
    (fun e =>
       if is_ValueError e then
         Some (print (CouldNotParse (exn_text e));; fall_back)
       else if is_Exception e then
         Some (print (ParsingError (exn_text e));; fall_back)
       else None).

(** ** The manual-paste tier *)

Definition newline : string := String (ascii_of_nat 10) EmptyString.

(** The [while True] loop of [get_manual_html_input]: [None] when the
    function returns [None] from inside the loop, [Some lines] when the loop
    is left by [break]. *)
Fixpoint manual_input_loop (lines : list string) (empty_line_count : nat)
    (con : list Key) : Res (option (list string)) * list Key * list Event :=
  match con with
  | [] => (Ok (Some lines), [], [])
  | CtrlC :: rest => (Ok None, rest, [Print InputCancelled])
  | Line line :: rest =>
      if String.eqb (lower (strip line)) "skip" && (length lines =? 0)%nat
      then (Ok None, rest, [])
      else if String.eqb line "" then
        if (2 <=? empty_line_count + 1)%nat then (Ok (Some lines), rest, [])
        else manual_input_loop (lines ++ [line]) (empty_line_count + 1) rest
      else manual_input_loop (lines ++ [line]) 0 rest
  end.

(** [get_manual_html_input()] *)
Definition get_manual_html_input : Py (option string) :=
  print ManualInstructions;;
  pasted <- on_console (manual_input_loop [] 0);;
  match pasted with
  | None => ret None
  | Some lines =>
      let html_content := strip (String.concat newline lines) in
      if String.eqb html_content "" then ret None
      else
        print (Received (Z.of_nat (String.length html_content)));;
        ret (Some html_content)
  end.

(** How one turn of a [for] loop ends. *)
Inductive Control (A : Type) : Type :=
| Continue
| Break
| Return (a : A).
Arguments Continue {A}.
Arguments Break {A}.
Arguments Return {A} a.

(** [errors.append(entry)] and [errors = []] *)
Definition record_error (entry : ErrEntry) : Py unit :=
  fun st => (Ok tt, mkState (console st) (out st) (client st) (errors st ++ [entry])).

Definition clear_errors : Py unit :=
  fun st => (Ok tt, mkState (console st) (out st) (client st) []).

Definition get_errors : Py (list ErrEntry) := fun st => (Ok (errors st), st).

(** [if attempt < max_retries: retry = input(...); if retry != "y": break] *)
Definition ask_retry {A} (attempt max_retries : nat) : Py (Control A) :=
  if (attempt <? max_retries)%nat then
    retry <- input TryAgain;;
    if String.eqb (lower (strip retry)) "y" then ret Continue else ret Break
  else ret Continue.

(** [records[:5]] *)
Definition first_rows (n : nat) (records : PyVal) : PyVal :=
  match records with
  | PList l => PList (take n l)
  | v => v
  end.

(** One turn of the [for attempt in range(1, max_retries + 1)] loop, after
    its banner. *)
Definition manual_turn (w : World) (source_url : option string)
    (attempt max_retries : nat) : Py (Control PyVal) :=
  html_content <- get_manual_html_input;;
  match html_content with
  | None =>
      print SkippingManual;;
      ret (Return PNone)
  | Some html =>
      try_except
        (emit (PandasRead ManualPaste html);;
         dfs <- call (read_html w html);;
         match dfs with
         | [] =>
             record_error (AttemptError attempt NoTablesInPaste);;
             print (AttemptFailed NoTablesInPaste);;
             ask_retry attempt max_retries
         | first :: _ =>
             print (FoundTables (len dfs));;
             let main_df := clean first in
             if df_empty main_df then
               record_error (AttemptError attempt EmptyAfterCleaning);;
               print (AttemptFailed EmptyAfterCleaning);;
               ask_retry attempt max_retries
             else
               let records := to_dict_records (normalize main_df) in
               print (ParsedManual (len (rows main_df)));;
               print PreviewHeader;;
               call (pd_DataFrame w (first_rows 5 records));;
               call (to_markdown w (first_rows 5 records));;
               print (Preview (first_rows 5 records));;
               confirm <- input LooksCorrect;;
               if String.eqb (lower (strip confirm)) "y" then ret (Return records)
               else
                 record_error (AttemptError attempt UserRejected);;
                 (if (attempt <? max_retries)%nat then print TryDifferentHtml
                  else ret tt);;
                 ret Continue
         end)
        (fun e =>
           if is_ValueError e then
             Some
               (let why := PandasParsingError (exn_text e) in
                record_error (AttemptError attempt why);;
                print (AttemptFailed why);;
                print AttemptingAI;;
                found <- try_except
                           (result <- parse_with_ai_agent w html source_url;;
                            if truthy result then ret (Some result) else ret None)
                           (except_Exception (fun ai_error =>
                              record_error (AttemptAIError attempt (exn_text ai_error));;
                              print (AIAlsoFailed (exn_text ai_error));;
                              ret None));;
                match found with
                | Some result => ret (Return result)
                | None => ask_retry attempt max_retries
                end)
           else if is_Exception e then
             Some
               (let why := UnexpectedError (exn_text e) in
                record_error (AttemptError attempt why);;
                print (AttemptFailed why);;
                ask_retry attempt max_retries)
           else None)
  end.

(** One turn of the loop. *)
Definition manual_attempt (w : World) (source_url : option string)
    (attempt max_retries : nat) : Py (Control PyVal) :=
  print (AttemptBanner attempt max_retries);;
  manual_turn w source_url attempt max_retries.

(** The code after the loop: the summary of what went wrong. *)
Definition manual_summary : Py PyVal :=
  errs <- get_errors;;
  print (ErrorSummary errs);;
  ret PNone.

(** The loop itself: [remaining] turns are left, the next one is [attempt]. *)
Fixpoint manual_loop (w : World) (source_url : option string) (max_retries : nat)
    (remaining attempt : nat) : Py PyVal :=
  match remaining with
  | O => manual_summary
  | S remaining' =>
      c <- manual_attempt w source_url attempt max_retries;;
      match c with
      | Continue => manual_loop w source_url max_retries remaining' (S attempt)
      | Break => manual_summary
      | Return v => ret v
      end
  end.

(** [manual_html_fallback(source_url, max_retries)] *)
Definition manual_html_fallback (w : World) (source_url : option string)
    (max_retries : nat) : Py PyVal :=
  clear_errors;;
  manual_loop w source_url max_retries max_retries 1.

(** ** The persistence sink *)

(** [save_procurement_data_to_convex(link_obj, parsed_data)] *)
Definition save_procurement_data_to_convex (w : World) (link_obj : Link)
    (parsed_data : PyVal) : Py PyVal :=
  init_convex_client w;;
  try_except
    (n <- py_len_of parsed_data;;
     let payload :=
       mkPayload (link_get link_obj "_id")
                 (link_get_or link_obj "state" (PStr "Unknown"))
                 (link_get_or link_obj "procurementLink" (PStr ""))
                 parsed_data n in
     print Uploading;;
     emit (ConvexMutation payload);;
     result <- call (convex_mutation w payload);;
     print (DataSaved result);;
     ret result)
    (except_Exception (fun e =>
       print (SaveError (exn_text e));;
       ret PNone)).

(** ** The browser session and one link *)

(** [LINK_WAIT_STRATEGIES] *)
Definition LINK_WAIT_STRATEGIES : list (string * string) :=
  [("opengov", "networkidle")].

Fixpoint first_strategy (url_lower : string) (table : list (string * string))
  : option string :=
  match table with
  | [] => None
  | (pattern, strategy) :: r =>
      if contains pattern url_lower then Some strategy
      else first_strategy url_lower r
  end.

(** [get_wait_strategy(url)]: [url.lower()] needs a text. *)
Definition get_wait_strategy (url : PyVal) : Py (option string) :=
  match url with
  | PStr u => ret (first_strategy (lower u) LINK_WAIT_STRATEGIES)
  | _ => raise (AttributeError "object has no attribute 'lower'")
  end.

(** The text of a URL that went through [get_wait_strategy]. *)
Definition url_text (url : PyVal) : string :=
  match url with
  | PStr u => u
  | _ => EmptyString
  end.

(** [apply_stealth(page)] *)
Definition apply_stealth (w : World) : Py unit :=
  if stealth_available w then
    try_except
      (emit StealthPatch;;
       call (stealth_async w);;
       print StealthApplied)
      (except_Exception (fun e => print (StealthFailed (exn_text e))))
  else ret tt.

(** [check_for_verification(page)] *)
Definition check_for_verification (w : World) (url : string) : Py (option string) :=
  match page_verification w url with
  | Some name => print (VerificationDetected name);; ret (Some name)
  | None => ret None
  end.

(** [diagnose_detection(page)] *)
Definition diagnose_detection (w : World) (url : string) : Py unit :=
  try_except
    (call (page_detection w url))
    (except_Exception (fun e => print (DiagnosticError (exn_text e)))).

(** The three lines that follow a successful parse at any tier:
    [save_procurement_data_to_convex(...); await page.close(); return True]. *)
Definition store_and_close (w : World) (link_obj : Link) (parsed_data : PyVal)
  : Py bool :=
  save_procurement_data_to_convex w link_obj parsed_data;;
  emit PageClose;;
  ret true.

(** [manual_choice = input(...)] and what follows it in both branches of
    [process_link]: [Some true] when the manual tier stored data, [None]
    when the function goes on to its closing lines. *)
Definition offer_manual (w : World) (link_obj : Link) (url : string)
  : Py (option bool) :=
  manual_choice <- input PasteManually;;
  if String.eqb (lower (strip manual_choice)) "y" then
    parsed_data <- manual_html_fallback w (Some url) 3;;
    if truthy parsed_data then
      n <- py_len_of parsed_data;;
      print (ParsedRowsManual n);;
      b <- store_and_close w link_obj parsed_data;;
      ret (Some b)
    else ret None
  else ret None.

(** The last [try] of [process_link]: the capture is awaited and the tiers
    run on it. Building the frame of the sample and rendering it may fail,
    inside the [try]; closing the page is taken to succeed. *)
Definition capture_and_extract (w : World) (link_obj : Link) (u : string)
  : Py bool :=
  try_except
    (emit AwaitCapture;;
     html_data <- await (deliver (page_hook_calls w u) Pending);;
     print ElementCaptured;;
     parsed_data <- parse_html_to_records w html_data (Some u);;
     if truthy parsed_data then
       n <- py_len_of parsed_data;;
       print (ParsedRows n);;
       call (pd_DataFrame w parsed_data);;
       print SampleHeader;;
       call (to_markdown w parsed_data);;
       print (DataSample parsed_data);;
       store_and_close w link_obj parsed_data
     else
       print AutoParseFailed;;
       stored <- offer_manual w link_obj u;;
       match stored with
       | Some b => ret b
       | None =>
           print NoDataParsed;;
           emit PageClose;;
           ret false
       end)
    (except_Exception (fun e =>
       print (SelectionError (exn_text e));;
       print CaptureErrorOccurred;;
       stored <- offer_manual w link_obj u;;
       match stored with
       | Some b => ret b
       | None =>
           emit PageClose;;
           ret false
       end)).

(** From the fresh page to the installed selector: [true] when the page is
    ready for the capture, [false] when the link was given up and the page
    closed. *)
Definition open_session (w : World) (u : string) (wait_strategy : option string)
  : Py bool :=
  emit NewPage;;
  apply_stealth w;;
  loaded <- try_except
              (print (Navigating u);;
               emit (PageGoto u (default "domcontentloaded" wait_strategy));;
               call (page_goto w u (default "domcontentloaded" wait_strategy));;
               try_except (call (page_networkidle w u))
                          (except_Exception (fun _ => ret tt));;
               ret true)
              (except_Exception (fun e =>
                 print (CouldNotLoad u (exn_text e));;
                 emit PageClose;;
                 ret false));;
  if negb loaded then ret false
  else
    try_except (n <- call (page_tables w u);; print (TablesFound n))
               (except_Exception (fun e => print (DiagnosticError (exn_text e))));;
    verification_type <- check_for_verification w u;;
    (match verification_type with
     | Some name => print (VerificationRequired name)
     | None => ret tt
     end);;
    diagnose_detection w u;;
    print StepVerify;;
    skip_choice <- input ContinueOrSkip;;
    if String.eqb (lower (strip skip_choice)) "s" then
      print SkippingLink;;
      emit PageClose;;
      ret false
    else
      try_except (n <- call (page_tables w u);; print (TablesFound n))
                 (except_Exception (fun _ => ret tt));;
      print ActivatingSelector;;
      exposed <- try_except
                   (emit (ExposeFunction "returnHTML");;
                    call (page_expose w u);;
                    ret true)
                   (except_Exception (fun e =>
                      print (ExposeFailed (exn_text e));;
                      emit PageClose;;
                      ret false));;
      if negb exposed then ret false
      else
        injected <- try_except
                      (emit InjectSelector;;
                       call (page_inject w u);;
                       ret true)
                      (except_Exception (fun e =>
                         print (InjectFailed (exn_text e));;
                         emit PageClose;;
                         ret false));;
        if negb injected then ret false
        else
          print StepSelect;;
          ret true.

(** [process_link(browser, link_obj, index, total)] of [scraper3.py] *)
Definition process_link (w : World) (link_obj : Link) (index total : Z) : Py bool :=
  let url := link_get link_obj "procurementLink" in
  if negb (truthy url) then
    print NoUrl;;
    ret false
  else
    let u := url_text url in
    print (Processing index total u);;
    wait_strategy <- get_wait_strategy url;;
    (match wait_strategy with
     | Some s => print (UsingWaitStrategy s)
     | None => ret tt
     end);;
    ready <- open_session w u wait_strategy;;
    if ready then capture_and_extract w link_obj u else ret false.

(** ** The main loop *)

(** [links[i]]: Python indexing, negative indices count from the end. *)
Definition py_index {A} (l : list A) (i : Z) : option A :=
  if (0 <=? i) then l !! Z.to_nat i
  else if (- len l <=? i) then l !! Z.to_nat (len l + i)
  else None.

(** One turn of the [while True] loop of [main]: the link at the current
    position is processed, then the navigator asks what to do. *)
Definition main_turn (w : World) (links : list Link) (current_index : Z)
  : Py NavAction :=
  match py_index links current_index with
  | None => raise (RuntimeError "IndexError: list index out of range")
  | Some link =>
      process_link w link current_index (len links);;
      get_post_scrape_action links current_index
  end.

(** The loop, with a bound on its turns: [None] when the bound is reached. *)
Fixpoint main_loop (w : World) (links : list Link) (turns : nat)
    (current_index : Z) : Py (option unit) :=
  match turns with
  | O => ret None
  | S turns' =>
      action <- main_turn w links current_index;;
      match action with
      | Quit => print Goodbye;; ret (Some tt)
      | Goto new_index => main_loop w links turns' new_index
      end
  end.

(** [get_links_from_convex()] *)
Definition get_links_from_convex (w : World) : Py (list Link) :=
  init_convex_client w;;
  print Fetching;;
  emit ConvexQuery;;
  links <- call (convex_query w);;
  print (FoundLinks (len links));;
  ret links.

(** [main()]: the exit code. Every turn of the loop reads the console at
    least once, so one turn more than the console is long is enough. *)
Definition main (w : World) : Py (option Z) :=
  fetched <- try_except
               (links <- get_links_from_convex w;;
                print (LoadedLinks (len links));;
                match links with
                | [] => print NoApprovedLinks;; ret (inl 0)
                | _ => ret (inr links)
                end)
               (except_Exception (fun e =>
                  print (FetchError (exn_text e));;
                  ret (inl 1)));;
  match fetched with
  | inl code => ret (Some code)
  | inr links =>
      display_link_menu links None;;
      action <- get_user_selection links None;;
      match action with
      | Quit => print Goodbye;; ret (Some 0)
      | Goto current_index =>
          emit LaunchBrowser;;
          (if browser_has_page w then apply_stealth w else ret tt);;
          finished <- (fun st =>
                         main_loop w links (S (length (console st)))
                                   current_index st);;
          match finished with
          | Some _ => emit CloseBrowser;; ret (Some 0)
          | None => ret None
          end
      end
  end.

(** ** The first click variant, [scraper_tool.py] *)

Module ScraperTool.

(** [try: body finally: cleanup] *)
Definition try_finally {A} (body : Py A) (cleanup : Py unit) : Py A :=
  fun st =>
    match body st with
    | (Ok a, st') => (cleanup;; ret a) st'
    | (Raise e, st') => (cleanup;; raise e) st'
    | (Hang, st') => (Hang, st')
    end.

(** [parse_html_generic(html_content)] *)
Definition parse_html_generic (w : World) (html_content : string) : Py unit :=
  try_except
    (dfs <- call (read_html w html_content);;
     match dfs with
     | [] => print NoStandardTables
     | first :: _ =>
         let main_df := clean first in
         print (ExtractedSample (take 5 (rows main_df)));;
         print (TotalRows (len (rows main_df)))
     end)
    (fun e =>
       if is_ValueError e then Some (print PandasCouldNotParse)
       else if is_Exception e then Some (print (ParsingError (exn_text e)))
       else None).

(** [process_link(context, link_obj)]: it returns nothing. *)
Definition process_link (w : World) (link_obj : Link) : Py unit :=
  let url := link_get link_obj "procurementLink" in
  if negb (truthy url) then ret tt
  else
    let u := url_text url in
    print (Opening u);;
    emit NewPage;;
    loaded <- try_except
                (emit (PageGoto u "domcontentloaded");;
                 (if is_str url then call (page_goto w u "domcontentloaded")
                  else raise (TypeError "url: expected string"));;
                 ret true)
                (except_Exception (fun e =>
                   print (CouldNotLoad u (exn_text e));;
                   emit PageClose;;
                   ret false));;
    if negb loaded then ret tt
    else
      emit (ExposeFunction "returnHTML");;
      call (page_expose w u);;
      print ActionRequired;;
      emit InjectSelector;;
      call (page_inject w u);;
      try_finally
        (try_except
           (emit AwaitCapture;;
            html_data <- await (deliver (page_hook_calls w u) Pending);;
            print ElementCaptured;;
            parse_html_generic w html_data)
           (except_Exception (fun e => print (SelectionError (exn_text e)))))
        (emit PageClose).

(** The [for link in links] loop of [main]. *)
Fixpoint visit_links (w : World) (links : list Link) : Py unit :=
  match links with
  | [] => ret tt
  | link :: rest =>
      process_link w link;;
      cont <- input NextSiteOrQuit;;
      if String.eqb (lower cont) "q" then ret tt
      else visit_links w rest
  end.

End ScraperTool.

(** ** The in-page script of the hotkey variant, [scraper.py] *)

Module Hotkey.

(** DOM elements are named by numbers; what the script asks the document
    is answered by a [Dom]. *)
Record Dom : Type := mkDom {
  in_banner : nat -> bool;            (** [target === banner || banner.contains(target)] *)
  closest_table : nat -> option nat;  (** [target.closest('table')] *)
  outerHTML : nat -> string
}.

Inductive Background : Type := Purple | Red | Green.

Inductive BannerText : Type :=
| HoverHint           (** "Element Selector Active — Hover over the table ..." *)
| NoElementWarning    (** "No element highlighted! Hover over an element first." *)
| CapturedNotice.     (** "Element captured! Processing..." *)

Record Banner : Type := mkBanner {
  background : Background;
  text : BannerText;
  attached : bool
}.

(** The callbacks the script leaves with [setTimeout]. *)
Inductive Timer : Type :=
| RevertBanner        (** after 2000 ms *)
| RemoveBanner.       (** after 1500 ms *)

(** The variables of the closure of [SELECTOR_JS] and what it did to the
    page. *)
Record Page : Type := mkPage {
  isActive : bool;
  lastElement : option nat;
  mouseover_installed : bool;
  keydown_installed : bool;
  banner : Banner;
  highlighted : list nat;       (** elements carrying [playwright-highlight] *)
  timers : list Timer;          (** pending [setTimeout] callbacks *)
  sent : list string;           (** calls of [window.returnHTML], in order *)
  prevented : nat               (** events whose default was cancelled *)
}.

Record KeyEvent : Type := mkKeyEvent {
  ctrlKey : bool;
  altKey : bool;
  key : string
}.

(** The page right after [SELECTOR_JS] ran. *)
Definition injected : Page :=
  mkPage true None true true (mkBanner Purple HoverHint true) [] [] [] 0.

Definition remove_class (e : nat) (l : list nat) : list nat :=
  List.filter (fun x => negb (x =? e)%nat) l.

(** [mouseOverHandler(event)] *)
Definition mouseOverHandler (d : Dom) (target : nat) (p : Page) : Page :=
  if negb (isActive p) then p
  else if in_banner d target then p
  else
    let cleared :=
      match lastElement p with
      | Some e => remove_class e (highlighted p)
      | None => highlighted p
      end in
    mkPage (isActive p) (Some target) (mouseover_installed p) (keydown_installed p)
           (banner p) (target :: remove_class target cleared) (timers p) (sent p)
           (prevented p).

(** The test of the handler: Ctrl+Alt+S, in either case. *)
Definition is_trigger (ev : KeyEvent) : bool :=
  ctrlKey ev && altKey ev && String.eqb (lower (key ev)) "s".

(** [keydownHandler(event)] *)
Definition keydownHandler (d : Dom) (ev : KeyEvent) (p : Page) : Page :=
  if negb (isActive p) then p
  else if is_trigger ev then
    match lastElement p with
    | None =>
        mkPage (isActive p) (lastElement p) (mouseover_installed p)
               (keydown_installed p)
               (mkBanner Red NoElementWarning (attached (banner p)))
               (highlighted p) (timers p ++ [RevertBanner]) (sent p)
               (S (prevented p))
    | Some target =>
        let tableObj := default target (closest_table d target) in
        mkPage false (lastElement p) false false
               (mkBanner Green CapturedNotice (attached (banner p)))
               (remove_class target (highlighted p))
               (timers p ++ [RemoveBanner])
               (sent p ++ [outerHTML d tableObj])
               (S (prevented p))
    end
  else p.

(** The document delivers an event to a handler only while it is installed. *)
Definition keydown (d : Dom) (ev : KeyEvent) (p : Page) : Page :=
  if keydown_installed p then keydownHandler d ev p else p.

Definition mouseover (d : Dom) (target : nat) (p : Page) : Page :=
  if mouseover_installed p then mouseOverHandler d target p else p.

Definition timer_eqb (a b : Timer) : bool :=
  match a, b with
  | RevertBanner, RevertBanner | RemoveBanner, RemoveBanner => true
  | _, _ => false
  end.

Fixpoint remove_first (t : Timer) (l : list Timer) : list Timer :=
  match l with
  | [] => []
  | x :: r => if timer_eqb t x then r else x :: remove_first t r
  end.

(** A pending timer fires: its callback runs and it is no longer pending. *)
Definition fire (t : Timer) (p : Page) : Page :=
  let b := banner p in
  let b' :=
    match t with
    | RevertBanner => mkBanner Purple HoverHint (attached b)
    | RemoveBanner => mkBanner (background b) (text b) false
    end in
  mkPage (isActive p) (lastElement p) (mouseover_installed p) (keydown_installed p)
         b' (highlighted p) (remove_first t (timers p)) (sent p) (prevented p).

End Hotkey.
(** * Statements *)

(** ** Statements about the navigator *)

(** A queue position is undefined, or an index into the links. *)
Definition valid_position (links : list Link) (cur : option Z) : Prop :=
  match cur with
  | None => True
  | Some c => 0 <= c < len links
  end.

(** The exception [display_link_menu] raises on these links, if any. *)
Definition listing_failure (links : list Link) : option Exn :=
  snd (listed_rows links).

(** What a menu may answer: a position of the queue, [quit], the exception
    of a console that was closed or interrupted, or the exception of a
    listing that cannot show one of the links. *)
Definition nav_result_ok (links : list Link) (r : Res NavAction) : Prop :=
  match r with
  | Ok (Goto k) => 0 <= k < len links
  | Ok Quit => True
  | Raise e =>
      e = EOFError \/ e = KeyboardInterrupt \/ listing_failure links = Some e
  | Hang => False
  end.

(** Texts on which the model's [strip], [lower] and [int] are Python's:
    ASCII characters only, and no more digits than [int] accepts. *)
Fixpoint all_chars (f : ascii -> bool) (s : string) : bool :=
  match s with
  | String c r => f c && all_chars f r
  | EmptyString => true
  end.

Definition is_ascii (c : ascii) : bool := (nat_of_ascii c <? 128)%nat.

Definition is_digit (c : ascii) : bool :=
  match digit_of c with Some _ => true | None => false end.

Fixpoint count_digits (s : string) : nat :=
  match s with
  | String c r => (if is_digit c then 1 else 0) + count_digits r
  | EmptyString => 0
  end.

Definition plain_line (l : string) : bool :=
  all_chars is_ascii l && (count_digits l <=? 4300)%nat.

Definition plain_key (k : Key) : bool :=
  match k with Line l => plain_line l | CtrlC => true end.

(** A console whose lines are all ASCII texts within the digits [int]
    accepts: on these the model's [strip], [lower] and [py_int] are Python's. *)
Definition plain_console (con : list Key) : bool := forallb plain_key con.

(** The state after one rejected round: the line is consumed, the events of
    the round are out, nothing else has moved. *)
Definition after_round (st : State) (rest : list Key) (round : list Event) : State :=
  mkState rest (out st ++ round) (client st) (errors st).

(** The choices [get_user_selection] rejects, with the warning it prints. *)
Inductive rejected_selection (links : list Link) (cur : option Z)
  : string -> Msg -> Prop :=
| rs_next_at_last :
    cur = Some (len links - 1) -> rejected_selection links cur "n" AlreadyLast
| rs_previous_undefined :
    cur = None -> rejected_selection links cur "p" AlreadyFirst
| rs_previous_at_first :
    cur = Some 0 -> rejected_selection links cur "p" AlreadyFirst
| rs_out_of_range choice num :
    py_int choice = Some num -> ~ (1 <= num <= len links) ->
    rejected_selection links cur choice (NumberOutOfRange (len links))
| rs_malformed choice :
    py_int choice = None ->
    choice <> "q" -> choice <> "l" -> choice <> "n" -> choice <> "p" ->
    rejected_selection links cur choice InvalidInput.

(** The one-line choices [get_post_scrape_action] rejects. *)
Inductive rejected_action (links : list Link) (cur : Z)
  : string -> Msg -> Prop :=
| ra_next_at_last :
    cur = len links - 1 -> rejected_action links cur "n" AlreadyLast
| ra_previous_at_first :
    cur = 0 -> rejected_action links cur "p" AlreadyFirst
| ra_out_of_range choice num :
    py_int choice = Some num -> ~ (1 <= num <= len links) ->
    rejected_action links cur choice (NumberOutOfRange (len links))
| ra_malformed choice :
    py_int choice = None ->
    choice <> "q" -> choice <> "l" -> choice <> "n" -> choice <> "p" ->
    choice <> "r" -> choice <> "j" ->
    rejected_action links cur choice InvalidInput.

(** The numbers the [j] dialogue rejects. *)
Inductive rejected_jump (links : list Link) : string -> Msg -> Prop :=
| rj_out_of_range text num :
    py_int text = Some num -> ~ (1 <= num <= len links) ->
    rejected_jump links text (NumberOutOfRange (len links))
| rj_malformed text :
    py_int text = None -> rejected_jump links text InvalidNumber.


(** ** Frames: what a computation may do to the state *)

(** [frame foot E st st']: from [st] to [st'] only events of the footprint
    [foot] were emitted, the console was only read, the global client was
    only initialised, and the list [errors] moved along [E]. *)
Definition frame (foot : Event -> bool) (E : relation (list ErrEntry))
    (st st' : State) : Prop :=
  (exists tr, out st' = out st ++ tr /\ Forall (fun e => foot e = true) tr) /\
  console st' `suffix_of` console st /\
  (client st' = client st \/ client st = None) /\
  E (errors st) (errors st').

Definition keeps (foot : Event -> bool) (E : relation (list ErrEntry))
    {A} (m : Py A) : Prop :=
  forall st, frame foot E st (snd (m st)).

(** The loops written over the console: they only read it. *)
Definition reads (foot : Event -> bool) {A}
    (f : list Key -> Res A * list Key * list Event) : Prop :=
  forall con,
    snd (fst (f con)) `suffix_of` con /\
    Forall (fun e => foot e = true) (snd (f con)).

(** The list [errors] may become anything. *)
Definition any_errors : relation (list ErrEntry) := fun _ _ => True.

(** Footprints: the events each part of the pipeline may emit. *)
Definition nav_events (e : Event) : bool :=
  match e with
  | Print (NavigationOptions _ _ | WhatNext _ _ | LinkMenu _ _
          | LinkMenuUpTo _ _ | AlreadyLast
          | AlreadyFirst | NumberOutOfRange _ | InvalidInput | InvalidNumber)
  | Prompt (EnterChoice | EnterLinkNumber) => true
  | _ => false
  end.

Definition paste_events (e : Event) : bool :=
  match e with
  | Print (ManualInstructions | InputCancelled | Received _) => true
  | _ => false
  end.

Definition connect_events (e : Event) : bool :=
  match e with
  | Print (ConvexUrlMissing | Connecting _) | ConvexConnect _ => true
  | _ => false
  end.

Definition ai_events (e : Event) : bool :=
  connect_events e ||
  match e with
  | Print (AIAttempt | AIParsed _ | AINotes _ | AIFailed _ | AICallError _)
  | ConvexAction _ _ => true
  | _ => false
  end.

Definition debug_events (e : Event) : bool :=
  match e with
  | Print (DebugSaved _ | DebugSaveFailed _) | DebugWrite _ _ => true
  | _ => false
  end.

(** What follows the structured read in the automatic tiers. *)
Definition after_read_events (e : Event) : bool :=
  ai_events e || debug_events e ||
  match e with
  | Print (NoTablesPandas | FoundTablesDebug _ | EmptyTable | ParsedPandas _
          | CouldNotParse _ | ParsingError _) => true
  | _ => false
  end.

(** What the two automatic tiers may emit. *)
Definition auto_events (e : Event) : bool :=
  after_read_events e ||
  match e with
  | Print (ParsingDebug _) | PandasRead Structured _ => true
  | _ => false
  end.

(** What storing a batch and closing the page may emit. *)
Definition sink_events (e : Event) : bool :=
  connect_events e ||
  match e with
  | Print (Uploading | DataSaved _ | SaveError _) | ConvexMutation _
  | PageClose => true
  | _ => false
  end.

(** What a turn of the manual tier may emit after its banner. *)
Definition turn_events (e : Event) : bool :=
  ai_events e || paste_events e ||
  match e with
  | Print (SkippingManual | AttemptFailed _ | FoundTables _ | ParsedManual _
          | PreviewHeader | Preview _ | TryDifferentHtml | AttemptingAI
          | AIAlsoFailed _)
  | Prompt (TryAgain | LooksCorrect)
  | PandasRead ManualPaste _ => true
  | _ => false
  end.

(** What the manual tier may emit. *)
Definition manual_events (e : Event) : bool :=
  turn_events e ||
  match e with
  | Print (AttemptBanner _ _ | ErrorSummary _) => true
  | _ => false
  end.

(** What may follow the automatic tiers: the manual tier, the sink, the
    closing of the page. *)
Definition late_events (e : Event) : bool :=
  manual_events e || sink_events e ||
  match e with
  | Print (ParsedRows _ | SampleHeader | DataSample _ | AutoParseFailed
          | NoDataParsed
          | SelectionError _ | CaptureErrorOccurred | ParsedRowsManual _)
  | Prompt PasteManually => true
  | _ => false
  end.

(** What opening the session may emit. *)
Definition session_events (e : Event) : bool :=
  match e with
  | Print (Processing _ _ _ | UsingWaitStrategy _ | Navigating _
          | CouldNotLoad _ _ | StealthApplied | StealthFailed _ | TablesFound _
          | DiagnosticError _ | VerificationDetected _ | VerificationRequired _
          | StepVerify | SkippingLink | ActivatingSelector | ExposeFailed _
          | InjectFailed _ | StepSelect | NoUrl)
  | Prompt ContinueOrSkip
  | NewPage | StealthPatch | PageGoto _ _ | PageClose
  | ExposeFunction _ | InjectSelector => true
  | _ => false
  end.

Definition any_event (e : Event) : bool := true.

(** ** Statements about the capture hook *)

(** The same world, except for what the pages send to the hook. *)
Definition with_hook_calls (w : World) (calls : string -> list string) : World :=
  mkWorld (env_convex_url w) (convex_query w) (convex_mutation w) (convex_action w)
          (browser_has_page w) (stealth_available w) (stealth_async w)
          (page_goto w) (page_networkidle w) (page_tables w) (page_verification w)
          (page_detection w) (page_expose w) (page_inject w) calls
          (read_html w) (file_write w) (now_stamp w) (md5_hexdigest w)
          (pd_DataFrame w) (to_markdown w).

(** ** Statements about skipped links *)

(** The field [procurementLink] is missing, or holds nothing usable
    ([None], the empty text). *)
Definition has_no_url (link : Link) : Prop :=
  truthy (link_get link "procurementLink") = false.

(** What [apply_stealth] leaves in the trace. *)
Definition stealth_trace (w : World) : list Event :=
  if stealth_available w then
    match stealth_async w with
    | Returns _ => [StealthPatch; Print StealthApplied]
    | Fails e => [StealthPatch; Print (StealthFailed (exn_text (exn_of_lib e)))]
    end
  else [].

Definition wait_of (u : string) : option string :=
  first_strategy (lower u) LINK_WAIT_STRATEGIES.

Definition wait_until (u : string) : string :=
  default "domcontentloaded" (wait_of u).

(** The whole trace of a link whose navigation fails with [e]. *)
Definition failed_navigation_trace (w : World) (index total : Z) (u : string)
    (e : LibExn) : list Event :=
  [Print (Processing index total u)] ++
  match wait_of u with
  | Some s => [Print (UsingWaitStrategy s)]
  | None => []
  end ++
  [NewPage] ++ stealth_trace w ++
  [Print (Navigating u); PageGoto u (wait_until u);
   Print (CouldNotLoad u (exn_text (exn_of_lib e))); PageClose].

(** ** Statements about failures of remote calls *)

(** The exceptions of a console that was closed or interrupted. *)
Definition console_exn (e : Exn) : Prop := e = EOFError \/ e = KeyboardInterrupt.

(** [safe Q m]: started with the backend client initialised, [m] keeps it
    initialised, and it either returns a value that satisfies [Q], or waits
    for a capture, or raises an exception of the console. No failure of a
    library or remote call comes out of it. *)
Definition safe {A} (Q : A -> Prop) (m : Py A) : Prop :=
  forall st,
    is_Some (client st) ->
    is_Some (client (snd (m st))) /\
    match fst (m st) with
    | Ok a => Q a
    | Raise e => console_exn e
    | Hang => True
    end.

(** [sound Q m]: as [safe Q m], except that [m] may raise anything. *)
Definition sound {A} (Q : A -> Prop) (m : Py A) : Prop :=
  forall st,
    is_Some (client st) ->
    is_Some (client (snd (m st))) /\
    match fst (m st) with
    | Ok a => Q a
    | _ => True
    end.

(** A value on which [len] works whenever it is truthy. *)
Definition sized (v : PyVal) : Prop := truthy v = true -> is_Some (py_len v).

Definition anything {A} (a : A) : Prop := True.

(** The URL of the link is a text, or the link has none. *)
Definition text_or_no_url (link : Link) : Prop :=
  has_no_url link \/ is_str (link_get link "procurementLink") = true.

(** The payload [save_procurement_data_to_convex] builds. *)
Definition payload_of (link_obj : Link) (parsed_data : PyVal) (n : Z) : Payload :=
  mkPayload (link_get link_obj "_id")
            (link_get_or link_obj "state" (PStr "Unknown"))
            (link_get_or link_obj "procurementLink" (PStr ""))
            parsed_data n.

(** What a failed write to the sink leaves in the trace. *)
Definition failed_save_trace (link_obj : Link) (parsed_data : PyVal) (n : Z)
    (e : LibExn) : list Event :=
  [Print Uploading; ConvexMutation (payload_of link_obj parsed_data n);
   Print (SaveError (exn_text (exn_of_lib e)))].

(** What a failed call of the AI parser leaves in the trace. *)
Definition failed_ai_trace (html : string) (url : option string) (e : LibExn)
  : list Event :=
  [Print AIAttempt; ConvexAction html (url_value url);
   Print (AICallError (exn_text (exn_of_lib e)))].

(** ** Statements about the tiers *)

(** What the structured tier makes of a markup: the records, or [None]. *)
Definition structured_yield (w : World) (html : string) : PyVal :=
  match read_html w html with
  | Returns (first :: _) =>
      if df_empty (clean first) then PNone
      else to_dict_records (normalize (clean first))
  | _ => PNone
  end.

(** What the AI tier makes of a markup once the client is there: the field
    [data] of the answer as it came, or [None]. *)
Definition ai_yield (w : World) (html : string) (url : option string) : PyVal :=
  match convex_action w html (url_value url) with
  | Returns (PDict kvs) =>
      let success := default PNone (assoc "success" kvs) in
      let found := default PNone (assoc "data" kvs) in
      if truthy success && truthy found then
        match py_len found with
        | Some _ => found
        | None => PNone
        end
      else PNone
  | _ => PNone
  end.

(** What the two automatic tiers make of a markup. *)
Definition auto_yield (w : World) (html : string) (url : option string) : PyVal :=
  if truthy (structured_yield w html) then structured_yield w html
  else ai_yield w html url.

(** Every cell of every record is a text. *)
Definition string_records (v : PyVal) : bool :=
  match v with
  | PList records =>
      forallb (fun r =>
                 match r with
                 | PDict items => forallb (fun kv => is_str (snd kv)) items
                 | _ => false
                 end) records
  | _ => false
  end.

(** What normalisation makes of one cell. *)
Definition norm_cell (c : Cell) : Cell :=
  CStr (cell_str (if is_nan c then CStr "" else c)).

(** The file the debug artifact goes to. *)
Definition debug_path (w : World) (source_url : option string) : string :=
  "debug_html/" +:+ debug_filename w source_url.

(** What [save_debug_html] leaves in the trace. *)
Definition debug_trace (w : World) (html : string) (source_url : option string)
  : list Event :=
  match file_write w (debug_path w source_url) with
  | Returns _ =>
      [DebugWrite (debug_path w source_url) html;
       Print (DebugSaved (debug_path w source_url))]
  | Fails e => [Print (DebugSaveFailed (exn_text (exn_of_lib e)))]
  end.

(** The trace of a structured tier that succeeds. *)
Definition structured_trace (w : World) (html : string) : list Event :=
  match read_html w html with
  | Returns (first :: rest) =>
      [Print (ParsingDebug (Z.of_nat (String.length html)));
       PandasRead Structured html;
       Print (FoundTablesDebug (len (first :: rest)));
       Print (ParsedPandas (len (rows (clean first))))]
  | _ => []
  end.

(** How the structured tier reports that it found nothing. *)
Definition report_events (e : Event) : bool :=
  match e with
  | Print (NoTablesPandas | FoundTablesDebug _ | EmptyTable | CouldNotParse _
          | ParsingError _) => true
  | _ => false
  end.

(** ** A concrete session, for the examples *)

Definition texas_link : Link :=
  {[ "_id" := PStr "k17"; "state" := PStr "Texas";
     "procurementLink" := PStr "https://tx.example/bids" ]}.

Definition opengov_link : Link :=
  {[ "_id" := PStr "k18"; "state" := PStr "Ohio";
     "procurementLink" := PStr "https://procurement.opengov.com/portal/oh" ]}.

Definition bare_link : Link := {[ "_id" := PStr "k19"; "state" := PStr "Utah" ]}.

Definition sample_links : list Link := [texas_link; opengov_link; bare_link].

Definition table_html : string :=
  "<table><tr><th>State</th><th>Amount</th></tr><tr><td>TX</td><td>100</td></tr></table>".

Definition div_html : string := "<div>Open bids: none</div>".

(** The frame pandas reads from [table_html]: a text column, a number
    column, and a column and a row that are entirely missing. *)
Definition table_frame : DataFrame :=
  mkFrame ["State"; "Amount"; "Unnamed: 2"]
          [[CStr "TX"; CFloat "100.0"; CNaN]; [CNaN; CNaN; CNaN]; [CStr "OK"; CNaN; CNaN]].

Definition sample_read_html (html : string) : Outcome (list DataFrame) :=
  if String.eqb html table_html then Returns [table_frame]
  else Fails (LibValueError "No tables found").

(** An answer of the AI parser with a number in a cell. *)
Definition ai_answer : PyVal :=
  PDict [("success", PBool true);
         ("data", PList [PDict [("State", PStr "TX"); ("Amount", PInt 100)]]);
         ("rowCount", PInt 1)].

(** A session in which everything works; the pages send [div_html], which
    holds no table, and the AI parser answers [ai_answer]. *)
Definition sample_world : World :=
  mkWorld (Some "https://demo.convex.cloud")
          (Returns sample_links)
          (fun _ => Returns (PStr "doc42"))
          (fun _ _ => Returns ai_answer)
          false false (Returns tt)
          (fun _ _ => Returns tt) (fun _ => Returns tt) (fun _ => Returns 0)
          (fun _ => None) (fun _ => Returns tt)
          (fun _ => Returns tt) (fun _ => Returns tt)
          (fun _ => [div_html; table_html])
          sample_read_html
          (fun _ => Returns tt)
          "20260102_030405"
          (fun text => if String.eqb text "" then "d41d8cd98f00b204e9800998ecf8427e"
                       else if String.eqb text "https://tx.example/bids"
                            then "5f1a7c0e93b24d86a1c2e3f405162738"
                            else "9b2e4d6f8a0c1e3f5a7b9c0d2e4f6a8b")
          (fun _ => Returns tt) (fun _ => Returns tt).

(** The same session with a sink that refuses every write, an AI parser
    that is down, and sites that do not load. *)
Definition failing_world : World :=
  mkWorld (Some "https://demo.convex.cloud")
          (Returns sample_links)
          (fun _ => Fails (LibError "503 Service Unavailable"))
          (fun _ _ => Fails (LibError "action timed out"))
          false true (Fails (LibError "stealth: no page"))
          (fun _ _ => Fails (LibError "Timeout 60000ms exceeded"))
          (fun _ => Returns tt) (fun _ => Returns 0)
          (fun _ => None) (fun _ => Returns tt)
          (fun _ => Returns tt) (fun _ => Returns tt)
          (fun _ => [table_html])
          sample_read_html
          (fun _ => Returns tt)
          "20260102_030405"
          (fun _ => "9b2e4d6f8a0c1e3f5a7b9c0d2e4f6a8b")
          (fun _ => Returns tt) (fun _ => Returns tt).

(** The session of [sample_world] with an AI parser whose answer carries one
    record that is not in a list; pandas builds no frame from it. *)
Definition scalar_answer : PyVal :=
  PDict [("success", PBool true); ("data", PDict [("a", PInt 1)])].

Definition scalar_world : World :=
  mkWorld (Some "https://demo.convex.cloud")
          (Returns sample_links)
          (fun _ => Returns (PStr "doc42"))
          (fun _ _ => Returns scalar_answer)
          false false (Returns tt)
          (fun _ _ => Returns tt) (fun _ => Returns tt) (fun _ => Returns 0)
          (fun _ => None) (fun _ => Returns tt)
          (fun _ => Returns tt) (fun _ => Returns tt)
          (fun _ => [div_html])
          sample_read_html
          (fun _ => Returns tt)
          "20260102_030405"
          (fun _ => "9b2e4d6f8a0c1e3f5a7b9c0d2e4f6a8b")
          (fun v => match v with
                    | PList _ => Returns tt
                    | _ => Fails (LibValueError
                             "If using all scalar values, you must pass an index")
                    end)
          (fun _ => Returns tt).

(** A state in which [main] has fetched the links: the client is there. *)
Definition ready_state (typed : list Key) : State :=
  mkState typed [] (Some "https://demo.convex.cloud") [].

(** A state before anything ran. *)
Definition fresh_state (typed : list Key) : State := mkState typed [] None [].

(** ** Statements about what reaches the sink *)

(** A value a tier handed over: nothing, records whose cells are all
    texts, or the field [data] of an answer of the AI parser as it came. *)
Definition from_tier (w : World) (url : option string) (v : PyVal) : Prop :=
  truthy v = true ->
  string_records v = true \/ exists html, v = ai_yield w html url.

(** The batches sent to the sink and the debug files written, as a trace
    shows them. *)
Definition mutations (tr : list Event) : list Payload :=
  omap (fun e => match e with ConvexMutation p => Some p | _ => None end) tr.

Definition debug_writes (tr : list Event) : list (string * string) :=
  omap (fun e => match e with DebugWrite path html => Some (path, html) | _ => None end)
       tr.

(** A batch as [process_link] hands it to the sink for [link]: it is filed
    under the link, its [rowCount] is the length of its data, and its data
    is, as it was yielded, the non-empty result of a tier: records whose
    cells are all texts, or the field [data] of an answer of the AI parser
    for the URL of the link. *)
Definition tier_batch (w : World) (link : Link) (p : Payload) : Prop :=
  p = payload_of link (data p) (rowCount p) /\
  py_len (data p) = Some (rowCount p) /\
  truthy (data p) = true /\
  (string_records (data p) = true \/
   exists html,
     data p = ai_yield w html (Some (url_text (link_get link "procurementLink")))).

(** Events that write nothing to the sink. *)
Definition no_write (e : Event) : bool :=
  match e with
  | ConvexMutation _ => false
  | _ => true
  end.

(** [hands_over w link Q m]: started with the client there, [m] keeps it,
    answers within [Q], and every batch it writes to the sink is a
    [tier_batch]. *)
Definition hands_over (w : World) (link : Link) {A} (Q : A -> Prop) (m : Py A)
  : Prop :=
  forall st,
    is_Some (client st) ->
    is_Some (client (snd (m st))) /\
    match fst (m st) with
    | Ok a => Q a
    | _ => True
    end /\
    exists tr,
      out (snd (m st)) = out st ++ tr /\
      Forall (tier_batch w link) (mutations tr).

(** A link whose URL is [None]: the listing cannot show it. *)
Definition null_link : Link :=
  {[ "_id" := PStr "k20"; "state" := PStr "Iowa"; "procurementLink" := PNone ]}.

(** The rows [ai_answer] carries. *)
Definition ai_rows : PyVal :=
  PList [PDict [("State", PStr "TX"); ("Amount", PInt 100)]].

(** A page for the examples of the hotkey variant: element 0 is the banner,
    element 7 is a cell of the table 3. *)
Definition sample_dom : Hotkey.Dom :=
  Hotkey.mkDom (fun e => (e =? 0)%nat)
               (fun e => if (e =? 7)%nat then Some 3%nat else None)
               (fun e => if (e =? 3)%nat then table_html else div_html).

Definition ctrl_alt_s : Hotkey.KeyEvent := Hotkey.mkKeyEvent true true "S".

(** ** Statements about the manual tier *)

Definition is_ready (st : State) : bool :=
  match client st with Some _ => true | None => false end.

(** What one failed turn adds to [errors]: one reason; or two, the second
    from an AI call that itself raised, which takes a client that was never
    initialised. *)
Definition turn_errors (k : nat) (ready : bool) (es es' : list ErrEntry) : Prop :=
  (exists why, es' = es ++ [AttemptError k why]) \/
  (ready = false /\
   exists why msg, es' = es ++ [AttemptError k why; AttemptAIError k msg]).

(** How a turn may end. *)
Definition turn_ok (k max_retries : nat) (st : State)
    (r : Res (Control PyVal)) (st' : State) : Prop :=
  match r with
  | Ok Continue => turn_errors k (is_ready st) (errors st) (errors st')
  | Ok Break =>
      turn_errors k (is_ready st) (errors st) (errors st') /\
      (k < max_retries)%nat /\
      last (out st') = Some (Prompt TryAgain)
  | Ok (Return v) =>
      (v = PNone /\ last (out st') = Some (Print SkippingManual) /\
       errors st' = errors st) \/
      truthy v = true
  | Raise _ | Hang => True
  end.

(** The attempts a trace announces and the summaries it prints. *)
Definition banner_of (e : Event) : option nat :=
  match e with
  | Print (AttemptBanner attempt _) => Some attempt
  | _ => None
  end.

Definition summary_of (e : Event) : option (list ErrEntry) :=
  match e with
  | Print (ErrorSummary errs) => Some errs
  | _ => None
  end.

Definition banners (tr : list Event) : list nat := omap banner_of tr.
Definition summaries (tr : list Event) : list (list ErrEntry) := omap summary_of tr.

(** [itemised ai first n errs]: the list [errs] holds the reasons of the [n]
    attempts [first], [first + 1], ... in order, one ["Attempt k: ..."] entry
    for each, followed by an ["Attempt k (AI): ..."] entry only where [ai]
    allows it. *)
Fixpoint itemised (ai : bool) (first n : nat) (errs : list ErrEntry) : bool :=
  match n, errs with
  | O, [] => true
  | S n', AttemptError k _ :: rest =>
      Nat.eqb k first &&
      (itemised ai (S first) n' rest ||
       match rest with
       | AttemptAIError k' _ :: rest' =>
           ai && Nat.eqb k' first && itemised ai (S first) n' rest'
       | _ => false
       end)
  | _, _ => false
  end.

(** How a run of the manual tier ends: [n] attempts were announced out of
    [remaining], starting at [first], the list held [before], the run emitted
    [tr] and ended in [r]. *)
Definition fallback_outcome (ai : bool) (first remaining n : nat)
    (before : list ErrEntry) (tr : list Event) (r : Res PyVal) : Prop :=
  match r with
  | Ok v =>
      (truthy v = true /\ summaries tr = []) \/
      (v = PNone /\ last tr = Some (Print SkippingManual) /\ summaries tr = []) \/
      (v = PNone /\
       exists reasons pre,
         tr = pre ++ [Print (ErrorSummary (before ++ reasons))] /\
         summaries pre = [] /\
         itemised ai first n reasons = true /\
         (n = remaining \/ last pre = Some (Prompt TryAgain)))
  | Raise _ | Hang => True
  end.

(** A machine on which no Convex URL is configured; pandas reads as in the
    other sessions. *)
Definition offline_world : World :=
  mkWorld None
          (Fails (LibError "not connected"))
          (fun _ => Fails (LibError "not connected"))
          (fun _ _ => Fails (LibError "not connected"))
          false false (Returns tt)
          (fun _ _ => Returns tt) (fun _ => Returns tt) (fun _ => Returns 0)
          (fun _ => None) (fun _ => Returns tt)
          (fun _ => Returns tt) (fun _ => Returns tt)
          (fun _ => [div_html])
          sample_read_html
          (fun _ => Returns tt)
          "20260102_030405"
          (fun _ => "9b2e4d6f8a0c1e3f5a7b9c0d2e4f6a8b")
          (fun _ => Returns tt) (fun _ => Returns tt).

(** What the operator types to paste [html]: its line and two empty ones. *)
Definition paste (html : string) : list Key := [Line html; Line ""; Line ""].

(** ** Statements about the order of the tiers *)

(** The markups the structured tier read and the calls of the AI parser, as
    a trace shows them. *)
Definition structured_reads (tr : list Event) : list string :=
  omap (fun e => match e with PandasRead Structured html => Some html | _ => None end)
       tr.

Definition ai_calls (tr : list Event) : list (string * PyVal) :=
  omap (fun e => match e with ConvexAction html url => Some (html, url) | _ => None end)
       tr.

(** The events only the manual tier emits: its offer, the banner of an
    attempt, the read of a paste, and its two questions. *)
Definition manual_tier_event (e : Event) : bool :=
  match e with
  | Prompt (PasteManually | TryAgain | LooksCorrect)
  | Print (AttemptBanner _ _)
  | PandasRead ManualPaste _ => true
  | _ => false
  end.

(** What the capture of [h] starts: the read of the structured tier, then
    [t], then [post]. *)
Definition capture_round (h : string) (t post : list Event) : list Event :=
  [AwaitCapture; Print ElementCaptured;
   Print (ParsingDebug (Z.of_nat (String.length h)));
   PandasRead Structured h] ++ t ++ post.

(** The sample of [v] is printed: pandas builds the frame and renders it. *)
Definition sample_printed (w : World) (v : PyVal) : Prop :=
  pd_DataFrame w v = Returns tt /\ to_markdown w v = Returns tt.

(** [tier_order w u rest]: the part [rest] of a trace that begins where the
    capture is awaited on the page of [u] runs the tiers in order. Nothing
    was captured and [rest] stops at the wait; or the markup [h] was
    captured, the structured tier read it first and only once, the AI
    parser was called next, once, on [h], exactly when the structured tier
    yielded no rows, no question was asked meanwhile, and the manual tier
    came last, only when both automatic tiers had yielded no rows or the
    sample of their rows could not be printed. *)
Definition tier_order (w : World) (u : string) (rest : list Event) : Prop :=
  match head (page_hook_calls w u) with
  | None => rest = [AwaitCapture]
  | Some h =>
      exists t post,
        rest = capture_round h t post /\
        Forall (fun e => after_read_events e = true) t /\
        ai_calls t =
          (if truthy (structured_yield w h) then [] else [(h, PStr u)]) /\
        Forall (fun e => late_events e = true) post /\
        structured_reads (t ++ post) = [] /\
        (truthy (auto_yield w h (Some u)) = true ->
         sample_printed w (auto_yield w h (Some u)) ->
         Forall (fun e => manual_tier_event e = false) post)
  end.

(** * Further statements *)

(** ** Pages and uploads of one link *)

Definition is_new_page (e : Event) : bool :=
  match e with NewPage => true | _ => false end.

Definition is_page_close (e : Event) : bool :=
  match e with PageClose => true | _ => false end.

(** How many events of a trace satisfy [p]. *)
Definition tally (p : Event -> bool) (tr : list Event) : nat :=
  length (List.filter p tr).

(** The pages a trace opens and closes. *)
Definition opened (tr : list Event) : nat := tally is_new_page tr.
Definition closed (tr : list Event) : nat := tally is_page_close tr.

(** Events that neither open nor close a page nor write to the sink. *)
Definition quiet_event (e : Event) : bool :=
  match e with
  | NewPage | PageClose | ConvexMutation _ => false
  | _ => true
  end.

(** The trace holds one write to the sink: a batch that is not empty, filed
    under the link's id, state and URL, with its true number of rows. *)
Definition uploads_batch (link : Link) (tr : list Event) : Prop :=
  exists v n,
    mutations tr = [payload_of link v n] /\ truthy v = true /\ py_len v = Some n.

(** The ledger of a part of [process_link] that ends in [r]: [stored] tells
    whether [r] reports stored data. Data was stored exactly when the answer
    says so, and then the page was closed; otherwise the page was closed
    [closes] times. *)
Definition ledger {A} (stored : A -> bool) (closes : A -> nat) (link : Link)
    (r : Res A) (tr : list Event) : Prop :=
  match r with
  | Ok a =>
      if stored a then closed tr = 1%nat /\ uploads_batch link tr
      else closed tr = closes a /\ mutations tr = []
  | Raise _ | Hang => closed tr = 0%nat /\ mutations tr = []
  end.

(** A trace that opens and closes no page and writes nothing to the sink. *)
Definition silent (tr : list Event) : Prop :=
  opened tr = 0%nat /\ closed tr = 0%nat /\ mutations tr = [].

(** What [offer_manual] answers when the manual tier stored data. *)
Definition stored_by_offer (o : option bool) : bool := default false o.

(** ** Statements about [main] *)

(** A menu's answer that stays inside the queue. *)
Definition in_queue (links : list Link) (a : NavAction) : Prop :=
  match a with
  | Goto k => 0 <= k < len links
  | Quit => True
  end.

(** The first [try] of [main]: the exit code when it returns at once, or
    the links. *)
Definition fetch_links (w : World) : Py (Z + list Link) :=
  try_except
    (links <- get_links_from_convex w;;
     print (LoadedLinks (len links));;
     match links with
     | [] => print NoApprovedLinks;; ret (inl 0)
     | _ => ret (inr links)
     end)
    (except_Exception (fun e =>
       print (FetchError (exn_text e));;
       ret (inl 1))).

(** What [main] does once it has the links. *)
Definition run_session (w : World) (links : list Link) : Py (option Z) :=
  display_link_menu links None;;
  action <- get_user_selection links None;;
  match action with
  | Quit => print Goodbye;; ret (Some 0)
  | Goto current_index =>
      emit LaunchBrowser;;
      (if browser_has_page w then apply_stealth w else ret tt);;
      finished <- (fun st =>
                     main_loop w links (S (length (console st)))
                               current_index st);;
      match finished with
      | Some _ => emit CloseBrowser;; ret (Some 0)
      | None => ret None
      end
  end.

(** The field [procurementLink] of the link is absent, or holds a text. *)
Definition url_absent_or_text (link : Link) : Prop :=
  link !! "procurementLink" = None \/
  is_str (link_get link "procurementLink") = true.

(** Every link the backend returns has a text for its URL, or no such
    field: then the menus can show every link. *)
Definition queue_of_text_urls (w : World) : Prop :=
  forall links, convex_query w = Returns links -> Forall url_absent_or_text links.

(** ** Statements about the backend's configuration *)

(** No URL of the backend is configured: the variables are unset or empty. *)
Definition unconfigured (w : World) : Prop :=
  env_convex_url w = None \/ env_convex_url w = Some EmptyString.

(** The state in which [init_convex_client] gives up. *)
Definition gave_up (st : State) : Res unit * State :=
  (Raise (ValueError "CONVEX_URL not configured"),
   after_round st (console st) [Print ConvexUrlMissing]).

(** ** Statements about the pasted text *)

(** Texts and consoles of ASCII characters only: on these the model's
    [strip] and [lower] are Python's, and the length of a text is the
    number of its bytes. *)
Definition ascii_text (s : string) : bool := all_chars is_ascii s.

Definition ascii_key (k : Key) : bool :=
  match k with Line l => ascii_text l | CtrlC => true end.

Definition ascii_console (con : list Key) : bool := forallb ascii_key con.

(** The text does not begin with white space. *)
Definition clean_head (s : string) : Prop :=
  match s with
  | String c _ => is_space c = false
  | EmptyString => True
  end.

(** What the operator types to paste the lines [ls]: the lines, then two
    empty lines. *)
Definition paste_lines (ls : list string) : list Key :=
  map Line ls ++ [Line ""; Line ""].

(** The text [get_manual_html_input] makes of the lines [ls]. *)
Definition pasted_text (ls : list string) : string :=
  strip (String.concat newline (ls ++ [""])).

(** The first pasted line is not the word that skips the link. *)
Definition starts_with_content (ls : list string) : Prop :=
  match ls with
  | l :: _ => lower (strip l) <> "skip"
  | [] => True
  end.

(** ** Statements about the first click variant *)

Definition is_next_prompt (e : Event) : bool :=
  match e with Prompt NextSiteOrQuit => true | _ => false end.

(** The exceptions that escape [process_link] of the first variant: the
    failures of [page.expose_function] and of [page.evaluate], which it
    calls outside any [try]. *)
Definition selector_failure (w : World) (u : string) (e : Exn) : Prop :=
  exists le, e = exn_of_lib le /\
             (page_expose w u = Fails le \/ page_inject w u = Fails le).

(** ** Statements about the in-page script of the hotkey variant *)

(** What can happen on the page after the script ran: the mouse enters an
    element, a key goes down, a pending timer fires. *)
Inductive DomEvent : Type :=
| MouseOver (target : nat)
| KeyDown (ev : Hotkey.KeyEvent)
| TimerFires (t : Hotkey.Timer).

Definition dispatch (d : Hotkey.Dom) (e : DomEvent) (p : Hotkey.Page) : Hotkey.Page :=
  match e with
  | MouseOver target => Hotkey.mouseover d target p
  | KeyDown ev => Hotkey.keydown d ev p
  | TimerFires t =>
      if existsb (Hotkey.timer_eqb t) (Hotkey.timers p) then Hotkey.fire t p else p
  end.

(** The page after a sequence of events. *)
Definition play (d : Hotkey.Dom) (events : list DomEvent) (p : Hotkey.Page)
  : Hotkey.Page :=
  fold_left (fun q e => dispatch d e q) events p.

(** What the script keeps true of the page. While the selector is active
    both listeners are installed, nothing was sent, and the one highlighted
    element, if any, is the element last hovered, which is outside the
    banner. Once it is inactive both listeners are gone, nothing is
    highlighted, and the one markup sent is that of the element last
    hovered or of its closest table. *)
Definition selector_invariant (d : Hotkey.Dom) (p : Hotkey.Page) : Prop :=
  (forall e, Hotkey.lastElement p = Some e -> Hotkey.in_banner d e = false) /\
  if Hotkey.isActive p then
    Hotkey.mouseover_installed p = true /\
    Hotkey.keydown_installed p = true /\
    Hotkey.sent p = [] /\
    Hotkey.highlighted p = option_list (Hotkey.lastElement p)
  else
    Hotkey.mouseover_installed p = false /\
    Hotkey.keydown_installed p = false /\
    Hotkey.highlighted p = [] /\
    exists e,
      Hotkey.lastElement p = Some e /\
      Hotkey.sent p =
        [Hotkey.outerHTML d (default e (Hotkey.closest_table d e))].

(** Once both listeners are gone only timers still act on the page, and they
    touch the banner alone. *)
Definition same_selection (p q : Hotkey.Page) : Prop :=
  Hotkey.isActive q = Hotkey.isActive p /\
  Hotkey.lastElement q = Hotkey.lastElement p /\
  Hotkey.mouseover_installed q = Hotkey.mouseover_installed p /\
  Hotkey.keydown_installed q = Hotkey.keydown_installed p /\
  Hotkey.highlighted q = Hotkey.highlighted p /\
  Hotkey.sent q = Hotkey.sent p /\
  Hotkey.prevented q = Hotkey.prevented p.


(** ** The in-page script of the first click variant, [scraper_tool.py] *)
Module ClickScript.

(** The variable of the closure of [SELECTOR_JS] and what it did to the
    page. *)
Record Page : Type := mkPage {
  lastElement : option nat;
  mouseover_installed : bool;
  click_installed : bool;
  highlighted : list nat;       (** elements carrying [playwright-highlight] *)
  sent : list string;           (** calls of [window.returnHTML], in order *)
  prevented : nat               (** clicks whose default was cancelled *)
}.

(** The page right after [SELECTOR_JS] ran. *)
Definition injected : Page := mkPage None true true [] [] 0.

(** [if (lastElement) lastElement.classList.remove('playwright-highlight')] *)
Definition unmark_last (p : Page) : list nat :=
  match lastElement p with
  | Some e => Hotkey.remove_class e (highlighted p)
  | None => highlighted p
  end.

(** [mouseOverHandler(event)] *)
Definition mouseOverHandler (target : nat) (p : Page) : Page :=
  mkPage (Some target) (mouseover_installed p) (click_installed p)
         (target :: Hotkey.remove_class target (unmark_last p))
         (sent p) (prevented p).

(** [clickHandler(event)] *)
Definition clickHandler (d : Hotkey.Dom) (target : nat) (p : Page) : Page :=
  let tableObj := default target (Hotkey.closest_table d target) in
  mkPage (lastElement p) false false (unmark_last p)
         (sent p ++ [Hotkey.outerHTML d tableObj])
         (S (prevented p)).

(** The document delivers an event to a handler only while it is installed. *)
Definition mouseover (target : nat) (p : Page) : Page :=
  if mouseover_installed p then mouseOverHandler target p else p.

Definition click (d : Hotkey.Dom) (target : nat) (p : Page) : Page :=
  if click_installed p then clickHandler d target p else p.

Inductive DomEvent : Type :=
| MouseOver (target : nat)
| Click (target : nat).

Definition dispatch (d : Hotkey.Dom) (e : DomEvent) (p : Page) : Page :=
  match e with
  | MouseOver target => mouseover target p
  | Click target => click d target p
  end.

(** The page after a sequence of events. *)
Definition play (d : Hotkey.Dom) (events : list DomEvent) (p : Page) : Page :=
  fold_left (fun q e => dispatch d e q) events p.

(** The element of the first click of a sequence of events, and the element
    the mouse entered last before it. *)
Fixpoint first_click (events : list DomEvent) : option nat :=
  match events with
  | [] => None
  | Click target :: _ => Some target
  | MouseOver _ :: rest => first_click rest
  end.

Fixpoint hovered (events : list DomEvent) (last : option nat) : option nat :=
  match events with
  | [] => last
  | Click _ :: _ => last
  | MouseOver target :: rest => hovered rest (Some target)
  end.

End ClickScript.


(** ** Statements about the cleaning of the first table *)

(** A frame as pandas builds it: every row has one cell for each column. *)
Definition rectangular (df : DataFrame) : Prop :=
  List.Forall (fun r => length r = length (columns df)) (rows df).

(** A row or a column with nothing but missing cells. *)
Definition blank_row (r : list Cell) : bool := forallb is_nan r.
Definition blank_column (df : DataFrame) (j : nat) : bool :=
  column_all_nan (rows df) j.


(** ** Statements about numbers typed at the menus *)

(** Texts made of white space only. *)
Definition blank (s : string) : bool := all_chars is_space s.

(** The line the operator types for the link shown as number [n]: the
    decimal numeral, with any white space around it. *)
Definition typed_number (before : string) (n : Z) (after : string) : string :=
  (before +:+ str_of_Z n +:+ after)%string.

(** The value of a numeral read from the left, as [int] accumulates it. *)
Fixpoint uint_value (u : Decimal.uint) (acc : Z) : Z :=
  match u with
  | Decimal.Nil => acc
  | Decimal.D0 r => uint_value r (10 * acc + 0)
  | Decimal.D1 r => uint_value r (10 * acc + 1)
  | Decimal.D2 r => uint_value r (10 * acc + 2)
  | Decimal.D3 r => uint_value r (10 * acc + 3)
  | Decimal.D4 r => uint_value r (10 * acc + 4)
  | Decimal.D5 r => uint_value r (10 * acc + 5)
  | Decimal.D6 r => uint_value r (10 * acc + 6)
  | Decimal.D7 r => uint_value r (10 * acc + 7)
  | Decimal.D8 r => uint_value r (10 * acc + 8)
  | Decimal.D9 r => uint_value r (10 * acc + 9)
  end.


(** ** Statements about the pages of a session *)

(** [balanced m]: over a run of [m] no page is closed that was not opened,
    at most one page is left open, and none when [m] returns. *)
Definition balanced {A} (m : Py A) : Prop :=
  forall st r st',
    m st = (r, st') ->
    exists tr,
      out st' = out st ++ tr /\
      (closed tr <= opened tr <= closed tr + 1)%nat /\
      (forall a, r = Ok a -> closed tr = opened tr).


(** ** Statements about the backend client *)

(** Connections to the backend in a trace. *)
Definition is_connect (e : Event) : bool :=
  match e with ConvexConnect _ => true | _ => false end.

Definition connects (tr : list Event) : nat := tally is_connect tr.

(** What a run may do to the global [client]: it leaves it as it is and does
    not connect, or there was none and it built one with one connection. *)
Definition client_step (st st' : State) (tr : list Event) : Prop :=
  (client st' = client st /\ connects tr = 0%nat) \/
  (client st = None /\ is_Some (client st') /\ connects tr = 1%nat).

Definition connects_once {A} (m : Py A) : Prop :=
  forall st,
    exists tr, out (snd (m st)) = out st ++ tr /\ client_step st (snd (m st)) tr.


(** ** The rest of the first click variant, [scraper_tool.py] *)
Module ScraperToolMain.

(** [get_links_from_convex()] of [scraper_tool.py]: the client is built in
    place when there is none. *)
Definition get_links_from_convex (w : World) : Py (list Link) :=
  (fun st =>
     match client st with
     | Some _ => (Ok tt, st)
     | None =>
         match env_convex_url w with
         | Some (String c r) =>
             let convex_url := String c r in
             (print (Connecting convex_url);;
              emit (ConvexConnect convex_url);;
              set_client (Some convex_url)) st
         | _ =>
             (print ConvexUrlMissing;;
              raise (ValueError "CONVEX_URL not configured")) st
         end
     end);;
  print Fetching;;
  emit ConvexQuery;;
  links <- call (convex_query w);;
  print (FoundLinks (len links));;
  ret links.

(** [main()]: what it returns, [None] for the bare [return]. *)
Definition main (w : World) : Py (option Z) :=
  fetched <- try_except
               (links <- get_links_from_convex w;;
                print (LoadedLinks (len links));;
                match links with
                | [] => print NoApprovedLinks;; ret (inl None)
                | _ => ret (inr links)
                end)
               (except_Exception (fun e =>
                  print (FetchError (exn_text e));;
                  ret (inl (Some 1))));;
  match fetched with
  | inl code => ret code
  | inr links =>
      emit LaunchBrowser;;
      ScraperTool.visit_links w links;;
      emit CloseBrowser;;
      ret (Some 0)
  end.

(** [sys.exit(exit_code if exit_code else 0)] *)
Definition exit_status (exit_code : option Z) : Z :=
  match exit_code with
  | Some c => if c =? 0 then 0 else c
  | None => 0
  end.

End ScraperToolMain.

(** An exception that leaves the loop of the first click variant: the
    console was closed or interrupted at the prompt, or the selector could
    not be set up on the page of one of the links. *)
Definition click_loop_failure (w : World) (links : list Link) (e : Exn) : Prop :=
  console_exn e \/
  exists link,
    In link links /\
    selector_failure w (url_text (link_get link "procurementLink")) e.

(** * Proofs *)

(** ** The navigator *)

Lemma again_result {A} round (next : Res A * list Key * list Event) :
  fst (fst (again round next)) = fst (fst next).
Proof. destruct next as [[r c] t]. reflexivity. Qed.

Lemma on_console_result {A} (f : list Key -> Res A * list Key * list Event) st :
  fst (on_console f st) = fst (fst (f (console st))).
Proof.
  unfold on_console. destruct (f (console st)) as [[r c] t]. reflexivity.
Qed.

Lemma on_console_again {A} (f : list Key -> Res A * list Key * list Event)
    st rest round :
  f (console st) = again round (f rest) ->
  on_console f st = on_console f (after_round st rest round).
Proof.
  intros Hf. unfold on_console, after_round. rewrite Hf. simpl.
  destruct (f rest) as [[r c] t]. simpl. by rewrite app_assoc.
Qed.

Lemma range_check_true num total :
  (1 <=? num) && (num <=? total) = true <-> 1 <= num <= total.
Proof. rewrite andb_true_iff, !Z.leb_le. tauto. Qed.

Lemma range_check_false num total :
  ~ (1 <= num <= total) -> (1 <=? num) && (num <=? total) = false.
Proof.
  intros H. destruct ((1 <=? num) && (num <=? total)) eqn:E; [|done].
  apply range_check_true in E. contradiction.
Qed.

Lemma link_menu_failure links cur :
  snd (link_menu links cur) = listing_failure links.
Proof.
  unfold link_menu, listing_failure.
  by destruct (listed_rows links) as [k [e|]].
Qed.

Ltac list_links :=
  match goal with
  | |- context [link_menu ?l ?c] =>
      let H := fresh "Hlist" in
      pose proof (link_menu_failure l c) as H;
      destruct (link_menu l c) as [? [?|]]; simpl in H
  end.

Lemma user_selection_loop_range links cur con :
  1 <= len links -> valid_position links cur ->
  nav_result_ok links (fst (fst (user_selection_loop links cur con))).
Proof.
  intros Hn Hcur. induction con as [|k rest IH]; [simpl; auto|].
  destruct k as [l|]; [|simpl; auto].
  cbn [user_selection_loop]. set (choice := lower (strip l)).
  repeat (match goal with
          | |- context [String.eqb ?a ?b] => destruct (String.eqb a b)
          | |- context [link_menu _ _] => list_links
          | |- context [py_int ?a] => destruct (py_int a) eqn:?
          | |- context [(1 <=? ?a) && (?a <=? ?b)] =>
              destruct ((1 <=? a) && (a <=? b)) eqn:?Hr;
              [apply range_check_true in Hr|]
          | |- context [match cur with _ => _ end] => destruct cur
          | |- context [?a <? ?b] => destruct (Z.ltb_spec a b)
          | |- context [?a =? ?b] => destruct (Z.eqb_spec a b)
          end; try rewrite again_result; try exact IH);
    simpl in *; try lia; auto.
Qed.

Lemma post_scrape_loop_range links cur :
  1 <= len links -> 0 <= cur < len links ->
  forall con, nav_result_ok links (fst (fst (post_scrape_loop links cur con))).
Proof.
  intros Hn Hcur con.
  assert (H : forall n con, (length con <= n)%nat ->
    nav_result_ok links (fst (fst (post_scrape_loop links cur con)))).
  { clear con. induction n as [|n IH]; intros con Hl.
    - destruct con; [simpl; auto | simpl in Hl; lia].
    - destruct con as [|k rest]; [simpl; auto|].
      destruct k as [l|]; [|simpl; auto].
      assert (IH1 := IH rest ltac:(simpl in Hl; lia)).
      cbn [post_scrape_loop]. set (choice := lower (strip l)).
      repeat (match goal with
          | |- context [String.eqb ?a ?b] => destruct (String.eqb a b)
          | |- context [link_menu _ _] => list_links
          | |- context [match rest with _ => _ end] =>
              destruct rest as [|[l'|] rest']
          | |- context [py_int ?a] => destruct (py_int a) eqn:?
          | |- context [(1 <=? ?a) && (?a <=? ?b)] =>
              destruct ((1 <=? a) && (a <=? b)) eqn:?Hr;
              [apply range_check_true in Hr|]
          | |- context [?a <? ?b] => destruct (Z.ltb_spec a b)
          end; try rewrite again_result; try exact IH1);
        simpl in *; try lia; auto;
        apply IH; simpl in Hl; lia. }
  apply (H (length con)). lia.
Qed.

Ltac not_a_number H :=
  match goal with
  | |- context [String.eqb ?c ?k] =>
      destruct (String.eqb_spec c k) as [->|_];
      [vm_compute in H; discriminate H|]
  end.

Lemma user_selection_rejects links cur l rest w :
  rejected_selection links cur (lower (strip l)) w ->
  user_selection_loop links cur (Line l :: rest) =
  again [Print (NavigationOptions (len links) cur); Prompt EnterChoice; Print w]
        (user_selection_loop links cur rest).
Proof.
  intros H. cbn [user_selection_loop].
  remember (lower (strip l)) as choice eqn:E. clear E.
  destruct H as [Hc | Hc | Hc | ch num Hi Hr | ch Hi Hq Hl Hn Hp]; subst.
  - simpl. by rewrite Z.ltb_irrefl.
  - reflexivity.
  - reflexivity.
  - repeat not_a_number Hi. rewrite Hi, (range_check_false _ _ Hr). reflexivity.
  - apply String.eqb_neq in Hq, Hl, Hn, Hp.
    rewrite Hq, Hl, Hn, Hp, Hi. reflexivity.
Qed.

Lemma post_scrape_rejects links cur l rest w :
  rejected_action links cur (lower (strip l)) w ->
  post_scrape_loop links cur (Line l :: rest) =
  again [Print (WhatNext (len links) cur); Prompt EnterChoice; Print w]
        (post_scrape_loop links cur rest).
Proof.
  intros H. cbn [post_scrape_loop].
  remember (lower (strip l)) as choice eqn:E. clear E.
  destruct H as [Hc | Hc | ch num Hi Hr | ch Hi Hq Hl Hn Hp Hr Hj]; subst.
  - simpl. by rewrite Z.ltb_irrefl.
  - reflexivity.
  - repeat not_a_number Hi. rewrite Hi, (range_check_false _ _ Hr). reflexivity.
  - apply String.eqb_neq in Hq, Hl, Hn, Hp, Hr, Hj.
    rewrite Hq, Hl, Hn, Hp, Hr, Hj, Hi. reflexivity.
Qed.

Lemma post_scrape_jump_rejects links cur l l' rest w :
  lower (strip l) = "j" ->
  rejected_jump links (strip l') w ->
  post_scrape_loop links cur (Line l :: Line l' :: rest) =
  again [Print (WhatNext (len links) cur); Prompt EnterChoice;
         Prompt EnterLinkNumber; Print w]
        (post_scrape_loop links cur rest).
Proof.
  intros Hj H. cbn [post_scrape_loop]. rewrite Hj. simpl String.eqb. cbv iota.
  destruct H as [t num Hi Hr | t Hi].
  - rewrite Hi, (range_check_false _ _ Hr). reflexivity.
  - rewrite Hi. reflexivity.
Qed.

Lemma listing_raises_in_selection links cur l rest e :
  lower (strip l) = "l" -> listing_failure links = Some e ->
  fst (fst (user_selection_loop links cur (Line l :: rest))) = Raise e.
Proof.
  intros Hl He. cbn [user_selection_loop]. rewrite Hl. simpl String.eqb. cbv iota.
  pose proof (link_menu_failure links cur) as H. rewrite He in H.
  destruct (link_menu links cur) as [shown [e'|]]; cbn [fst snd] in *; congruence.
Qed.

Lemma listing_raises_in_action links cur l rest e :
  lower (strip l) = "l" -> listing_failure links = Some e ->
  fst (fst (post_scrape_loop links cur (Line l :: rest))) = Raise e.
Proof.
  intros Hl He. cbn [post_scrape_loop]. rewrite Hl. simpl String.eqb. cbv iota.
  pose proof (link_menu_failure links (Some cur)) as H. rewrite He in H.
  destruct (link_menu links (Some cur)) as [shown [e'|]]; cbn [fst snd] in *; congruence.
Qed.


(** ** Frames *)

Section Frames.
Context (foot : Event -> bool) (E : relation (list ErrEntry)) `{!PreOrder E}.

Lemma frame_refl st : frame foot E st st.
Proof.
  repeat split; [exists []; by rewrite app_nil_r | done | by left | done].
Qed.

Lemma frame_trans st1 st2 st3 :
  frame foot E st1 st2 -> frame foot E st2 st3 -> frame foot E st1 st3.
Proof.
  intros ([t1 [H1 F1]] & C1 & K1 & E1) ([t2 [H2 F2]] & C2 & K2 & E2).
  repeat split.
  - exists (t1 ++ t2). rewrite H2, H1, app_assoc. split; [done|].
    by apply Forall_app.
  - by etrans.
  - destruct K1 as [K1|K1]; [|by right].
    destruct K2 as [K2|K2]; [left; congruence | right; congruence].
  - by etrans.
Qed.

Lemma keeps_ret {A} (a : A) : keeps foot E (ret a).
Proof. intros st. apply frame_refl. Qed.

Lemma keeps_raise {A} e : keeps foot E (@raise A e).
Proof. intros st. apply frame_refl. Qed.

Lemma keeps_hang {A} : keeps foot E (@hang A).
Proof. intros st. apply frame_refl. Qed.

Lemma keeps_bind {A B} (m : Py A) (k : A -> Py B) :
  keeps foot E m -> (forall a, keeps foot E (k a)) -> keeps foot E (bind m k).
Proof.
  intros Hm Hk st. unfold bind. specialize (Hm st).
  destruct (m st) as [[a|e|] st1]; simpl in *; [|done..].
  eapply frame_trans; [exact Hm | apply Hk].
Qed.

Lemma keeps_try_except {A} (body : Py A) handler :
  keeps foot E body ->
  (forall e h, handler e = Some h -> keeps foot E h) ->
  keeps foot E (try_except body handler).
Proof.
  intros Hb Hh st. unfold try_except. specialize (Hb st).
  destruct (body st) as [[a|e|] st1]; simpl in *; [done| |done].
  destruct (handler e) as [h|] eqn:He; [|done].
  eapply frame_trans; [exact Hb | by eapply Hh].
Qed.

Lemma keeps_except_Exception {A} (h : Exn -> Py A) e h' :
  (forall e, keeps foot E (h e)) ->
  except_Exception h e = Some h' -> keeps foot E h'.
Proof.
  unfold except_Exception. intros Hh H.
  destruct (is_Exception e); [|done]. injection H as <-. apply Hh.
Qed.

Lemma keeps_emit e : foot e = true -> keeps foot E (emit e).
Proof.
  intros He st. repeat split; simpl; [|done|by left|done].
  exists [e]. split; [done|]. by constructor.
Qed.

Lemma keeps_print m : foot (Print m) = true -> keeps foot E (print m).
Proof. apply keeps_emit. Qed.

Lemma keeps_input p : foot (Prompt p) = true -> keeps foot E (input p).
Proof.
  intros Hp st. unfold input.
  destruct (console st) as [|[l|] rest] eqn:Hc; simpl;
    (repeat split; simpl;
     [exists [Prompt p]; split; [done | by constructor]
     | rewrite ?Hc; try done; by apply suffix_cons_r
     | by left | done]).
Qed.

Lemma keeps_call {A} (o : Outcome A) : keeps foot E (call o).
Proof. destruct o; [apply keeps_ret | apply keeps_raise]. Qed.

Lemma keeps_on_console {A} (f : list Key -> Res A * list Key * list Event) :
  reads foot f -> keeps foot E (on_console f).
Proof.
  intros Hf st. unfold on_console. destruct (Hf (console st)) as [Hs Ht].
  destruct (f (console st)) as [[r con] tr]. simpl in *.
  repeat split; simpl; [by exists tr | done | by left | done].
Qed.

Lemma keeps_get_errors : keeps foot E get_errors.
Proof. intros st. apply frame_refl. Qed.
End Frames.

Lemma frame_weaken (foot foot' : Event -> bool) (E E' : relation (list ErrEntry))
    st st' :
  (forall e, foot e = true -> foot' e = true) ->
  (forall a b, E a b -> E' a b) ->
  frame foot E st st' -> frame foot' E' st st'.
Proof.
  intros Hf HE ([t [H F]] & C & K & Er). repeat split; [|done|done|by apply HE].
  exists t. split; [done|]. eapply Forall_impl; [exact F | done].
Qed.

Lemma keeps_weaken (foot foot' : Event -> bool) (E E' : relation (list ErrEntry))
    {A} (m : Py A) :
  (forall e, foot e = true -> foot' e = true) ->
  (forall a b, E a b -> E' a b) ->
  keeps foot E m -> keeps foot' E' m.
Proof. intros Hf HE Hm st. eapply frame_weaken; [done | done | apply Hm]. Qed.

#[local] Instance any_errors_preorder : PreOrder any_errors.
Proof. by split. Qed.

Ltac foot_incl :=
  let e := fresh "e" in
  let He := fresh "He" in
  intros e He; destruct e;
  repeat match goal with
         | m : Msg |- _ => destruct m
         | p : PromptKind |- _ => destruct p
         | t : Tier |- _ => destruct t
         end;
  try done.

Ltac errs_incl :=
  first [ by intros ? ? ->
        | done
        | by intros ? ? [? ->]; apply prefix_app_r
        | by intros ].

Ltac kapply l := apply l; try exact _.

Ltac keeps_step :=
  match goal with
  | H : except_Exception _ _ = Some ?h |- keeps _ _ ?h =>
      eapply keeps_except_Exception; [..|exact H]; try exact _; clear H; intros ?; cbv beta
  | H : (if is_ValueError ?e then _ else _) = Some ?h |- keeps _ _ ?h =>
      destruct (is_ValueError e), (is_Exception e); simplify_eq
  | |- keeps _ _ (bind _ _) => kapply keeps_bind; [|intros ?]
  | |- keeps _ _ (ret _) => kapply keeps_ret
  | |- keeps _ _ (raise _) => kapply keeps_raise
  | |- keeps _ _ hang => kapply keeps_hang
  | |- keeps _ _ (try_except _ _) =>
      kapply keeps_try_except; [|intros ? ? ?; cbv beta in *]
  | |- keeps _ _ (print _) => kapply keeps_print; reflexivity
  | |- keeps _ _ (emit _) => kapply keeps_emit; reflexivity
  | |- keeps _ _ (input _) => kapply keeps_input; reflexivity
  | |- keeps _ _ (call _) => kapply keeps_call
  | |- keeps _ _ get_errors => kapply keeps_get_errors
  | |- keeps _ _ (match ?x with _ => _ end) => destruct x
  | |- keeps _ _ (if ?x then _ else _) => destruct x
  end.

Ltac keeps_from foot_small lem :=
  eapply (keeps_weaken foot_small); [| |kapply lem]; [foot_incl | errs_incl].

Lemma again_reads {A} foot round (next : Res A * list Key * list Event) k rest :
  Forall (fun e => foot e = true) round ->
  snd (fst next) `suffix_of` rest /\ Forall (fun e => foot e = true) (snd next) ->
  snd (fst (again round next)) `suffix_of` (k :: rest) /\
  Forall (fun e => foot e = true) (snd (again round next)).
Proof.
  destruct next as [[r c] t]. simpl. intros Hr [Hs Ht]. split.
  - by apply suffix_cons_r.
  - by apply Forall_app.
Qed.

Ltac reads_leaf :=
  simpl; split;
  [ first [ done | by apply suffix_cons_r | by do 2 apply suffix_cons_r ]
  | repeat constructor; try assumption ].

Lemma link_menu_events links cur :
  Forall (fun e => nav_events e = true) (fst (link_menu links cur)).
Proof.
  unfold link_menu. destruct (listed_rows links) as [k [e|]]; by repeat constructor.
Qed.

Lemma user_selection_loop_reads links cur :
  reads nav_events (user_selection_loop links cur).
Proof.
  intros con. induction con as [|[l|] rest IH]; [reads_leaf| |reads_leaf].
  assert (Hm := link_menu_events links cur).
  cbn [user_selection_loop]. set (choice := lower (strip l)).
  destruct (link_menu links cur) as [shown failure]. simpl in Hm.
  repeat (match goal with
          | |- context [String.eqb ?a ?b] => destruct (String.eqb a b)
          | |- context [match failure with _ => _ end] => destruct failure
          | |- context [py_int ?a] => destruct (py_int a)
          | |- context [(1 <=? ?a) && (?a <=? ?b)] =>
              destruct ((1 <=? a) && (a <=? b))
          | |- context [match cur with _ => _ end] => destruct cur
          | |- context [?a <? ?b] => destruct (a <? b)
          | |- context [?a =? ?b] => destruct (a =? b)
          end);
    first [ apply again_reads; [repeat constructor; try assumption | exact IH]
          | reads_leaf ].
Qed.

Lemma post_scrape_loop_reads links cur :
  reads nav_events (post_scrape_loop links cur).
Proof.
  intros con.
  assert (H : forall n con, (length con <= n)%nat ->
    snd (fst (post_scrape_loop links cur con)) `suffix_of` con /\
    Forall (fun e => nav_events e = true)
           (snd (post_scrape_loop links cur con))).
  { clear con. induction n as [|n IH]; intros con Hl.
    - destruct con; [reads_leaf | simpl in Hl; lia].
    - destruct con as [|[l|] rest]; [reads_leaf| |reads_leaf].
      assert (IH1 := IH rest ltac:(simpl in Hl; lia)).
      assert (Hm := link_menu_events links (Some cur)).
      cbn [post_scrape_loop]. set (choice := lower (strip l)).
      destruct (link_menu links (Some cur)) as [shown failure]. simpl in Hm.
      repeat (match goal with
          | |- context [String.eqb ?a ?b] => destruct (String.eqb a b)
          | |- context [match failure with _ => _ end] => destruct failure
          | |- context [match rest with _ => _ end] =>
              destruct rest as [|[l'|] rest']
          | |- context [py_int ?a] => destruct (py_int a)
          | |- context [(1 <=? ?a) && (?a <=? ?b)] =>
              destruct ((1 <=? a) && (a <=? b))
          | |- context [?a <? ?b] => destruct (a <? b)
          end);
        first [ apply again_reads; [repeat constructor; try assumption | exact IH1]
              | reads_leaf
              | idtac ].
      all: assert (IH2 := IH rest' ltac:(simpl in Hl; lia)).
      all: destruct (post_scrape_loop links cur rest') as [[r c] t];
        simpl in *; destruct IH2 as [Hs Ht]; split;
        [ by do 2 apply suffix_cons_r | repeat constructor; done ]. }
  apply (H (length con)). lia.
Qed.

Lemma manual_input_loop_reads lines n :
  reads paste_events (manual_input_loop lines n).
Proof.
  intros con. revert lines n.
  induction con as [|[l|] rest IH]; intros lines n; [reads_leaf| |reads_leaf].
  cbn [manual_input_loop].
  repeat (match goal with
          | |- context [if ?c then _ else _] => destruct c
          end);
    first [ reads_leaf
          | destruct (IH (lines ++ [l]) (n + 1)%nat) as [Hs Ht];
            split; [by apply suffix_cons_r | done]
          | destruct (IH (lines ++ [l]) 0%nat) as [Hs Ht];
            split; [by apply suffix_cons_r | done] ].
Qed.

Section Keeps.
Context (E : relation (list ErrEntry)) `{!PreOrder E}.

Lemma get_user_selection_keeps links cur :
  keeps nav_events E (get_user_selection links cur).
Proof. kapply keeps_on_console. apply user_selection_loop_reads. Qed.

Lemma get_post_scrape_action_keeps links cur :
  keeps nav_events E (get_post_scrape_action links cur).
Proof. kapply keeps_on_console. apply post_scrape_loop_reads. Qed.

Lemma get_manual_html_input_keeps :
  keeps paste_events E get_manual_html_input.
Proof.
  unfold get_manual_html_input. repeat keeps_step.
  kapply keeps_on_console. apply manual_input_loop_reads.
Qed.

Lemma init_convex_client_keeps w : keeps connect_events E (init_convex_client w).
Proof.
  intros st. unfold init_convex_client.
  destruct (client st) eqn:Hc; [apply frame_refl; done|].
  destruct (env_convex_url w) as [[|c r]|]; simpl;
    (repeat split; simpl; [|done|by right|done]);
    eexists; (split; [by rewrite <- ?app_assoc | repeat constructor]).
Qed.

Lemma py_get_or_keeps foot v k d : keeps foot E (py_get_or v k d).
Proof. unfold py_get_or. destruct v; repeat keeps_step. Qed.

Lemma py_len_of_keeps foot v : keeps foot E (py_len_of v).
Proof. unfold py_len_of. repeat keeps_step. Qed.

Lemma parse_with_ai_agent_keeps w html url :
  keeps ai_events E (parse_with_ai_agent w html url).
Proof.
  unfold parse_with_ai_agent, py_get.
  repeat first [ keeps_from connect_events init_convex_client_keeps
               | kapply py_get_or_keeps
               | kapply py_len_of_keeps
               | keeps_step ].
Qed.
End Keeps.

Ltac keeps_auto lemmas :=
  repeat first [ lemmas | keeps_step ].


Section KeepsTiers.
Context (E : relation (list ErrEntry)) `{!PreOrder E}.

Lemma save_debug_html_keeps w html url :
  keeps debug_events E (save_debug_html w html url).
Proof. unfold save_debug_html. repeat keeps_step. Qed.

Lemma parse_html_to_records_keeps w html url :
  keeps auto_events E (parse_html_to_records w html url).
Proof.
  unfold parse_html_to_records.
  repeat first
    [ keeps_from debug_events (save_debug_html_keeps w html url)
    | keeps_from ai_events (parse_with_ai_agent_keeps eq w html url)
    | keeps_step ].
Qed.

Lemma save_procurement_data_to_convex_keeps w link v :
  keeps sink_events E (save_procurement_data_to_convex w link v).
Proof.
  unfold save_procurement_data_to_convex.
  repeat first
    [ keeps_from connect_events (init_convex_client_keeps eq w)
    | kapply py_len_of_keeps
    | keeps_step ].
Qed.

Lemma store_and_close_keeps w link v :
  keeps sink_events E (store_and_close w link v).
Proof.
  unfold store_and_close.
  repeat first [ kapply save_procurement_data_to_convex_keeps | keeps_step ].
Qed.
End KeepsTiers.

Lemma record_error_keeps foot entry :
  keeps foot prefix (record_error entry).
Proof.
  intros st. repeat split; simpl;
    [exists []; by rewrite app_nil_r | done | by left | by apply prefix_app_r].
Qed.

Lemma ask_retry_keeps {A} attempt max_retries :
  keeps turn_events prefix (@ask_retry A attempt max_retries).
Proof. unfold ask_retry. repeat keeps_step. Qed.

Lemma manual_turn_keeps w url attempt max_retries :
  keeps turn_events prefix (manual_turn w url attempt max_retries).
Proof.
  unfold manual_turn.
  repeat first
    [ keeps_from paste_events (get_manual_html_input_keeps eq)
    | keeps_from ai_events (parse_with_ai_agent_keeps eq w)
    | kapply (@ask_retry_keeps PyVal)
    | kapply record_error_keeps
    | keeps_step ].
Qed.

Lemma manual_attempt_keeps w url attempt max_retries :
  keeps manual_events prefix (manual_attempt w url attempt max_retries).
Proof.
  unfold manual_attempt. keeps_step; [keeps_step|].
  keeps_from turn_events manual_turn_keeps.
Qed.

Lemma manual_summary_keeps : keeps manual_events prefix manual_summary.
Proof. unfold manual_summary. repeat keeps_step. Qed.

Lemma manual_loop_keeps w url max_retries remaining attempt :
  keeps manual_events prefix (manual_loop w url max_retries remaining attempt).
Proof.
  revert attempt. induction remaining as [|r IH]; intros attempt; simpl.
  - apply manual_summary_keeps.
  - repeat first [ kapply manual_attempt_keeps | kapply manual_summary_keeps
                 | apply IH | keeps_step ].
Qed.

Lemma manual_html_fallback_keeps w url max_retries :
  keeps manual_events any_errors (manual_html_fallback w url max_retries).
Proof.
  unfold manual_html_fallback. kapply keeps_bind.
  - intros st. repeat split; simpl; [exists []; by rewrite app_nil_r|done|by left].
  - intros _. eapply keeps_weaken; [done | | apply manual_loop_keeps]. done.
Qed.

Section KeepsLink.
Context (E : relation (list ErrEntry)) `{!PreOrder E}.

Lemma get_wait_strategy_keeps foot url : keeps foot E (get_wait_strategy url).
Proof. unfold get_wait_strategy. repeat keeps_step. Qed.

Lemma apply_stealth_keeps w : keeps session_events E (apply_stealth w).
Proof. unfold apply_stealth. repeat keeps_step. Qed.

Lemma check_for_verification_keeps w u :
  keeps session_events E (check_for_verification w u).
Proof. unfold check_for_verification. repeat keeps_step. Qed.

Lemma diagnose_detection_keeps w u :
  keeps session_events E (diagnose_detection w u).
Proof. unfold diagnose_detection. repeat keeps_step. Qed.

Lemma open_session_keeps w u wait :
  keeps session_events E (open_session w u wait).
Proof.
  unfold open_session.
  repeat first [ kapply apply_stealth_keeps
               | kapply check_for_verification_keeps
               | kapply diagnose_detection_keeps
               | keeps_step ].
Qed.
End KeepsLink.

Lemma offer_manual_keeps w link u :
  keeps late_events any_errors (offer_manual w link u).
Proof.
  unfold offer_manual.
  repeat first
    [ keeps_from manual_events (manual_html_fallback_keeps w (Some u) 3)
    | keeps_from sink_events (store_and_close_keeps any_errors w link)
    | kapply py_len_of_keeps
    | keeps_step ].
Qed.

Lemma await_keeps foot E `{!PreOrder E} fut : keeps foot E (await fut).
Proof. unfold await. repeat keeps_step. Qed.

Lemma capture_and_extract_keeps w link u :
  keeps any_event any_errors (capture_and_extract w link u).
Proof.
  unfold capture_and_extract.
  repeat first
    [ keeps_from late_events (offer_manual_keeps w link u)
    | keeps_from auto_events (parse_html_to_records_keeps any_errors w)
    | keeps_from sink_events (store_and_close_keeps any_errors w link)
    | kapply py_len_of_keeps
    | kapply await_keeps
    | keeps_step ].
Qed.

Lemma process_link_keeps w link index total :
  keeps any_event any_errors (process_link w link index total).
Proof.
  unfold process_link.
  repeat first
    [ keeps_from session_events (open_session_keeps any_errors w)
    | kapply capture_and_extract_keeps
    | kapply get_wait_strategy_keeps
    | keeps_step ].
Qed.

Lemma main_turn_keeps w links cur :
  keeps any_event any_errors (main_turn w links cur).
Proof.
  unfold main_turn.
  repeat first
    [ keeps_from nav_events (get_post_scrape_action_keeps any_errors links cur)
    | kapply process_link_keeps
    | keeps_step ].
Qed.

(** ** The main loop ends within its bound *)

Lemma again_console {A} round (next : Res A * list Key * list Event) :
  snd (fst (again round next)) = snd (fst next).
Proof. destruct next as [[r c] t]. reflexivity. Qed.

Lemma post_scrape_loop_first links cur k rest :
  snd (fst (post_scrape_loop links cur (k :: rest))) `suffix_of` rest.
Proof.
  destruct k as [l|]; [|simpl; done].
  cbn [post_scrape_loop]. set (choice := lower (strip l)).
  repeat (match goal with
      | |- context [String.eqb ?a ?b] => destruct (String.eqb a b)
      | |- context [link_menu _ _] => list_links
      | |- context [match rest with _ => _ end] =>
          destruct rest as [|[l'|] rest']
      | |- context [py_int ?a] => destruct (py_int a)
      | |- context [(1 <=? ?a) && (?a <=? ?b)] =>
          destruct ((1 <=? a) && (a <=? b))
      | |- context [?a <? ?b] => destruct (a <? b)
      end);
    rewrite ?again_console;
    first [ done
          | by apply suffix_cons_r
          | apply post_scrape_loop_reads
          | apply suffix_cons_r, post_scrape_loop_reads ].
Qed.

Lemma post_scrape_loop_consumes links cur con a :
  fst (fst (post_scrape_loop links cur con)) = Ok a ->
  (length (snd (fst (post_scrape_loop links cur con))) < length con)%nat.
Proof.
  intros Hr. destruct con as [|k rest]; [simpl in *; done|].
  assert (Hl := suffix_length _ _ (post_scrape_loop_first links cur k rest)).
  change (length (k :: rest)) with (S (length rest)). lia.
Qed.

Lemma get_post_scrape_action_consumes links cur st a :
  fst (get_post_scrape_action links cur st) = Ok a ->
  (length (console (snd (get_post_scrape_action links cur st)))
   < length (console st))%nat.
Proof.
  unfold get_post_scrape_action, on_console. intros Hr.
  assert (H := post_scrape_loop_consumes links cur (console st) a).
  destruct (post_scrape_loop links cur (console st)) as [[r con] tr].
  simpl in *. by apply H.
Qed.

Lemma main_turn_consumes w links cur st a :
  fst (main_turn w links cur st) = Ok a ->
  (length (console (snd (main_turn w links cur st))) < length (console st))%nat.
Proof.
  unfold main_turn. destruct (py_index links cur) as [link|]; [|done].
  unfold bind.
  assert (Hp := process_link_keeps w link cur (len links) st).
  destruct (process_link w link cur (len links) st) as [[b|e|] st1]; [|done..].
  destruct Hp as (_ & Hs & _). apply suffix_length in Hs. simpl in Hs.
  intros Hr. apply get_post_scrape_action_consumes in Hr. lia.
Qed.

Lemma main_loop_within_bound w links turns :
  forall cur st,
    (length (console st) < turns)%nat ->
    fst (main_loop w links turns cur st) <> Ok None.
Proof.
  induction turns as [|n IH]; intros cur st Hl; [lia|].
  cbn [main_loop]. unfold bind.
  assert (Hc := main_turn_consumes w links cur st).
  destruct (main_turn w links cur st) as [[[|k]|e|] st1]; simpl in *; try done.
  apply IH. specialize (Hc _ eq_refl). lia.
Qed.

#[local] Arguments main_loop : simpl never.

(** [main] always comes to an answer: the bound on the turns of its loop is
    never reached. *)
Lemma main_bound_is_enough w st : fst (main w st) <> Ok None.
Proof.
  unfold main, bind.
  destruct (try_except _ _ st) as [[[code|links]|e|] st1]; simpl; try done.
  destruct (display_link_menu links None st1) as [[[]|e|] st2]; simpl; try done.
  destruct (get_user_selection links None _) as [[[|k]|e|] st3]; simpl; try done.
  destruct ((if browser_has_page w then apply_stealth w else ret tt) _)
    as [[?|?|] st5]; simpl; try done.
  assert (H := main_loop_within_bound w links (S (length (console st5))) k st5
                 ltac:(lia)).
  destruct (main_loop w links (S (length (console st5))) k st5)
    as [[[?|]|e|] st6]; simpl in *; try done.
Qed.

(** ** The capture hook *)

Lemma on_selection_done html fut :
  done fut = true -> on_selection html fut = (Ok tt, fut).
Proof. unfold on_selection. by intros ->. Qed.

Lemma deliver_done calls fut : done fut = true -> deliver calls fut = fut.
Proof.
  intros Hd. unfold deliver. induction calls as [|h r IH]; [done|].
  simpl. by rewrite on_selection_done.
Qed.

Lemma deliver_first calls :
  deliver calls Pending =
  match head calls with
  | Some h => Finished h
  | None => Pending
  end.
Proof. destruct calls as [|h r]; [done|]. by apply (deliver_done r (Finished h)). Qed.

Lemma capture_and_extract_hooks w calls calls' link u :
  head (calls u) = head (calls' u) ->
  capture_and_extract (with_hook_calls w calls) link u =
  capture_and_extract (with_hook_calls w calls') link u.
Proof.
  intros Hh. unfold capture_and_extract. cbn [page_hook_calls with_hook_calls].
  rewrite !deliver_first, Hh. reflexivity.
Qed.

(** C2. The hook never fails; once the future is resolved a further call
    with any markup leaves it as it is; a page that calls the hook several
    times resolves the future with the first markup; and the pipeline of
    either script behaves the same whatever the page sends after its first
    call. *)
Theorem capture_hook_resolves_once :
  (forall html fut, fst (on_selection html fut) = Ok tt) /\
  (forall first second fut,
     snd (on_selection second (snd (on_selection first fut))) =
     snd (on_selection first fut)) /\
  (forall first more, deliver (first :: more) Pending = Finished first) /\
  (forall w calls calls' link index total,
     (forall u, head (calls u) = head (calls' u)) ->
     process_link (with_hook_calls w calls) link index total =
     process_link (with_hook_calls w calls') link index total) /\
  (forall w calls calls' link,
     (forall u, head (calls u) = head (calls' u)) ->
     ScraperTool.process_link (with_hook_calls w calls) link =
     ScraperTool.process_link (with_hook_calls w calls') link).
Proof.
  repeat split.
  - intros html [|r|]; reflexivity.
  - intros first second [|r|]; reflexivity.
  - intros first more. by rewrite deliver_first.
  - intros w calls calls' link index total Hh. unfold process_link.
    destruct (negb (truthy (link_get link "procurementLink"))); [done|].
    cbv zeta.
    rewrite (capture_and_extract_hooks w calls calls' link _ (Hh _)).
    reflexivity.
  - intros w calls calls' link Hh. unfold ScraperTool.process_link.
    cbn [page_hook_calls with_hook_calls].
    rewrite !deliver_first, Hh. reflexivity.
Qed.

(** ** Links that are skipped *)

Lemma missing_or_empty_has_no_url (link : Link) :
  link !! "procurementLink" = None \/ link !! "procurementLink" = Some (PStr "") ->
  has_no_url link.
Proof. unfold has_no_url, link_get. by intros [-> | ->]. Qed.

Lemma state_eta st : mkState (console st) (out st) (client st) (errors st) = st.
Proof. by destruct st. Qed.

(** C10. For a link whose [procurementLink] is missing or empty,
    [process_link] of [scraper3.py] prints its warning and returns [False]
    at once: no page is opened, no capture awaited, nothing is sent to the
    sink; [process_link] of [scraper_tool.py] returns at once and does
    nothing at all; and in both scripts the loop goes on to its menu. *)
Theorem link_without_url_is_skipped (w : World) (link : Link) :
  has_no_url link ->
  (forall index total st,
     process_link w link index total st =
     (Ok false, after_round st (console st) [Print NoUrl])) /\
  (forall st, ScraperTool.process_link w link st = (Ok tt, st)) /\
  (forall links cur st,
     py_index links cur = Some link ->
     main_turn w links cur st =
     get_post_scrape_action links cur (after_round st (console st) [Print NoUrl])) /\
  (forall rest st,
     ScraperTool.visit_links w (link :: rest) st =
     (cont <- input NextSiteOrQuit;;
      if String.eqb (lower cont) "q" then ret tt
      else ScraperTool.visit_links w rest) st).
Proof.
  unfold has_no_url. intros Hu.
  assert (Hp : forall index total st,
     process_link w link index total st =
     (Ok false, after_round st (console st) [Print NoUrl])).
  { intros. unfold process_link. rewrite Hu. reflexivity. }
  assert (Ht : forall st, ScraperTool.process_link w link st = (Ok tt, st)).
  { intros. unfold ScraperTool.process_link. rewrite Hu. reflexivity. }
  repeat split; [done | done | |].
  - intros links cur st Hl. unfold main_turn, bind. by rewrite Hl, Hp.
  - intros rest st. cbn [ScraperTool.visit_links]. unfold bind at 1.
    by rewrite Ht.
Qed.

Ltac run :=
  unfold try_except, bind, print, emit, ret, raise, hang, call, except_Exception;
  simpl.

Lemma apply_stealth_run w st :
  apply_stealth w st = (Ok tt, after_round st (console st) (stealth_trace w)).
Proof.
  unfold apply_stealth, stealth_trace, after_round.
  destruct (stealth_available w); [|by rewrite app_nil_r, state_eta].
  destruct (stealth_async w) as [[]|[m|m]]; run; by rewrite <- !app_assoc.
Qed.

Lemma is_Exception_lib e : is_Exception (exn_of_lib e) = true.
Proof. by destruct e. Qed.

Lemma ret_bind {A B} (a : A) (k : A -> Py B) st : bind (ret a) k st = k a st.
Proof. reflexivity. Qed.

(** [process_link] on a link whose URL is a text that is not empty. *)
Lemma process_link_text w link u index total :
  link_get link "procurementLink" = PStr u ->
  u <> "" ->
  process_link w link index total =
  (print (Processing index total u);;
   match wait_of u with
   | Some s => print (UsingWaitStrategy s)
   | None => ret tt
   end;;
   ready <- open_session w u (wait_of u);;
   if ready then capture_and_extract w link u else ret false).
Proof.
  intros Hu Hne. unfold process_link. rewrite Hu. unfold truthy.
  apply String.eqb_neq in Hne. rewrite Hne. reflexivity.
Qed.

Lemma open_session_navigation_fails w u e st :
  page_goto w u (wait_until u) = Fails e ->
  open_session w u (wait_of u) st =
  (Ok false,
   after_round st (console st)
     ([NewPage] ++ stealth_trace w ++
      [Print (Navigating u); PageGoto u (wait_until u);
       Print (CouldNotLoad u (exn_text (exn_of_lib e))); PageClose])).
Proof.
  intros Hg. unfold open_session. fold (wait_until u).
  run. rewrite apply_stealth_run. simpl. rewrite Hg. simpl.
  rewrite is_Exception_lib. unfold after_round. simpl.
  by rewrite <- !app_assoc.
Qed.

(** C7. When the navigation to a link's URL fails, [process_link] reports
    it, closes the page it opened and returns [False] without reading the
    console, awaiting a capture or writing to the sink; the turn of the main
    loop goes on to the navigator's menu at the same position. *)
Theorem navigation_failure_skips_link (w : World) (link : Link) (u : string)
    (e : LibExn) :
  link_get link "procurementLink" = PStr u ->
  u <> "" ->
  page_goto w u (wait_until u) = Fails e ->
  (forall index total st,
     process_link w link index total st =
     (Ok false,
      after_round st (console st) (failed_navigation_trace w index total u e))) /\
  (forall links cur st,
     py_index links cur = Some link ->
     main_turn w links cur st =
     get_post_scrape_action links cur
       (after_round st (console st)
          (failed_navigation_trace w cur (len links) u e))).
Proof.
  intros Hu Hne Hg.
  assert (Hp : forall index total st,
     process_link w link index total st =
     (Ok false,
      after_round st (console st) (failed_navigation_trace w index total u e))).
  { intros. rewrite (process_link_text w link u index total Hu Hne).
    unfold failed_navigation_trace.
    assert (Ho := fun st => open_session_navigation_fails w u e st Hg).
    destruct (wait_of u) as [s|]; run; rewrite Ho; unfold after_round; simpl;
      by rewrite <- !app_assoc. }
  split; [done|].
  intros links cur st Hl. unfold main_turn, bind at 1. by rewrite Hl, Hp.
Qed.

(** ** No failure of a remote call escapes *)

Ltac keeps_any_from lem :=
  eapply keeps_weaken; [| |kapply lem]; [by intros | by intros].

Ltac keeps_any :=
  repeat first
    [ keeps_any_from (get_user_selection_keeps eq)
    | keeps_any_from (get_post_scrape_action_keeps eq)
    | keeps_any_from (get_manual_html_input_keeps eq)
    | keeps_any_from (init_convex_client_keeps eq)
    | keeps_any_from (py_get_or_keeps eq)
    | keeps_any_from (py_len_of_keeps eq)
    | keeps_any_from (parse_with_ai_agent_keeps eq)
    | keeps_any_from (save_debug_html_keeps eq)
    | keeps_any_from (parse_html_to_records_keeps eq)
    | keeps_any_from (save_procurement_data_to_convex_keeps eq)
    | keeps_any_from (store_and_close_keeps eq)
    | keeps_any_from record_error_keeps
    | keeps_any_from (@ask_retry_keeps PyVal)
    | keeps_any_from manual_attempt_keeps
    | keeps_any_from manual_html_fallback_keeps
    | keeps_any_from (get_wait_strategy_keeps eq)
    | keeps_any_from (apply_stealth_keeps eq)
    | keeps_any_from (check_for_verification_keeps eq)
    | keeps_any_from (diagnose_detection_keeps eq)
    | keeps_any_from (open_session_keeps eq)
    | keeps_any_from offer_manual_keeps
    | keeps_any_from (await_keeps any_event eq)
    | keeps_any_from capture_and_extract_keeps
    | keeps_any_from process_link_keeps
    | keeps_step ].

Lemma frame_client foot E st st' :
  frame foot E st st' -> is_Some (client st) -> is_Some (client st').
Proof.
  intros (_ & _ & [H|H] & _) Hc; [by rewrite H | rewrite H in Hc; by destruct Hc].
Qed.

Lemma safe_weaken {A} (Q Q' : A -> Prop) m :
  (forall a, Q a -> Q' a) -> safe Q m -> safe Q' m.
Proof.
  intros HQ Hm st Hc. destruct (Hm st Hc) as [H1 H2]. split; [done|].
  destruct (fst (m st)); auto.
Qed.

Lemma safe_ret {A} (Q : A -> Prop) a : Q a -> safe Q (ret a).
Proof. intros Ha st Hc. by split. Qed.

Lemma safe_hang {A} (Q : A -> Prop) : safe Q hang.
Proof. intros st Hc. by split. Qed.

Lemma safe_bind {A B} (Q : A -> Prop) (Q' : B -> Prop) m k :
  safe Q m -> (forall a, Q a -> safe Q' (k a)) -> safe Q' (bind m k).
Proof.
  intros Hm Hk st Hc. unfold bind. destruct (Hm st Hc) as [H1 H2].
  destruct (m st) as [[a|e|] st1]; simpl in *; [|done..].
  by apply Hk.
Qed.

Lemma safe_emit e : safe anything (emit e).
Proof. intros st Hc. by split. Qed.

Lemma safe_print m : safe anything (print m).
Proof. apply safe_emit. Qed.

Lemma safe_input p : safe anything (input p).
Proof.
  intros st Hc. unfold input.
  destruct (console st) as [|[l|] rest]; simpl; split; try done;
    [by left | by right].
Qed.

Lemma safe_sound {A} (Q : A -> Prop) m : safe Q m -> sound Q m.
Proof.
  intros Hm st Hc. destruct (Hm st Hc) as [H1 H2]. split; [done|].
  by destruct (fst (m st)).
Qed.

Lemma sound_weaken {A} (Q Q' : A -> Prop) m :
  (forall a, Q a -> Q' a) -> sound Q m -> sound Q' m.
Proof.
  intros HQ Hm st Hc. destruct (Hm st Hc) as [H1 H2]. split; [done|].
  destruct (fst (m st)); auto.
Qed.

Lemma sound_ret {A} (Q : A -> Prop) a : Q a -> sound Q (ret a).
Proof. intros Ha st Hc. by split. Qed.

Lemma sound_raise {A} (Q : A -> Prop) e : sound Q (raise e).
Proof. intros st Hc. by split. Qed.

Lemma sound_call {A} (o : Outcome A) : sound anything (call o).
Proof. intros st Hc. by destruct o. Qed.

Lemma sound_bind {A B} (Q : A -> Prop) (Q' : B -> Prop) m k :
  sound Q m -> (forall a, Q a -> sound Q' (k a)) -> sound Q' (bind m k).
Proof.
  intros Hm Hk st Hc. unfold bind. destruct (Hm st Hc) as [H1 H2].
  destruct (m st) as [[a|e|] st1]; simpl in *; [|done..].
  by apply Hk.
Qed.

Lemma sound_try_except {A} (Q : A -> Prop) body handler :
  sound Q body ->
  (forall e h, handler e = Some h -> sound Q h) ->
  sound Q (try_except body handler).
Proof.
  intros Hb Hh st Hc. unfold try_except. destruct (Hb st Hc) as [H1 H2].
  destruct (body st) as [[a|e|] st1]; simpl in *; [done| |done].
  destruct (handler e) as [h|] eqn:He; [by apply (Hh e h)|done].
Qed.

(** A [try] whose clauses catch every [Exception]. *)
Lemma safe_try_except {A} (Q : A -> Prop) body handler :
  sound Q body ->
  (forall e, is_Exception e = true -> is_Some (handler e)) ->
  (forall e h, handler e = Some h -> safe Q h) ->
  safe Q (try_except body handler).
Proof.
  intros Hb Hall Hh st Hc. unfold try_except. destruct (Hb st Hc) as [H1 H2].
  destruct (body st) as [[a|e|] st1]; simpl in *; [done| |done].
  destruct (handler e) as [h|] eqn:He; [by apply (Hh e h)|].
  split; [done|]. destruct (is_Exception e) eqn:Hx.
  - apply Hall in Hx. rewrite He in Hx. by destruct Hx.
  - destruct e; try done. by right.
Qed.

Lemma except_Exception_total {A} (h : Exn -> Py A) e :
  is_Exception e = true -> is_Some (except_Exception h e).
Proof. unfold except_Exception. by intros ->. Qed.

Lemma safe_except_Exception {A} (Q : A -> Prop) (h : Exn -> Py A) e h' :
  (forall e, safe Q (h e)) -> except_Exception h e = Some h' -> safe Q h'.
Proof.
  unfold except_Exception. intros Hh H.
  destruct (is_Exception e); [|done]. injection H as <-. apply Hh.
Qed.

Lemma sound_except_Exception {A} (Q : A -> Prop) (h : Exn -> Py A) e h' :
  (forall e, sound Q (h e)) -> except_Exception h e = Some h' -> sound Q h'.
Proof.
  unfold except_Exception. intros Hh H.
  destruct (is_Exception e); [|done]. injection H as <-. apply Hh.
Qed.

Lemma safe_on_console {A} (Q : A -> Prop)
    (f : list Key -> Res A * list Key * list Event) :
  (forall con, match fst (fst (f con)) with
               | Ok a => Q a
               | Raise e => console_exn e
               | Hang => True
               end) ->
  safe Q (on_console f).
Proof.
  intros Hf st Hc. unfold on_console. specialize (Hf (console st)).
  destruct (f (console st)) as [[r con] tr]. by split.
Qed.

Lemma safe_init_convex_client w : safe anything (init_convex_client w).
Proof.
  intros st Hc. unfold init_convex_client.
  destruct (client st) eqn:Hcl; simpl; [by rewrite Hcl | by destruct Hc].
Qed.

Lemma safe_py_len_of v :
  is_Some (py_len v) -> safe (fun n => py_len v = Some n) (py_len_of v).
Proof. intros [n Hn] st Hc. unfold py_len_of. rewrite Hn. by split. Qed.

Lemma sound_py_len_of v : sound (fun n => py_len v = Some n) (py_len_of v).
Proof. intros st Hc. unfold py_len_of. by destruct (py_len v). Qed.

Lemma sound_py_get_or v k d : sound anything (py_get_or v k d).
Proof. intros st Hc. unfold py_get_or. by destruct v. Qed.

Lemma safe_record_error entry : safe anything (record_error entry).
Proof. intros st Hc. by split. Qed.

Lemma safe_get_errors : safe anything get_errors.
Proof. intros st Hc. by split. Qed.

Lemma safe_await fut : fut <> Cancelled -> safe anything (await fut).
Proof. intros Hf st Hc. by destruct fut. Qed.

Ltac safe_step :=
  match goal with
  | H : except_Exception _ _ = Some ?h |- safe _ ?h =>
      eapply safe_except_Exception; [|exact H]; clear H; intros ?; cbv beta
  | H : except_Exception _ _ = Some ?h |- sound _ ?h =>
      eapply sound_except_Exception; [|exact H]; clear H; intros ?; cbv beta
  | H : (if is_ValueError ?e then _ else _) = Some ?h |- _ =>
      destruct (is_ValueError e), (is_Exception e); simplify_eq
  | |- is_Some (except_Exception _ _) => by apply except_Exception_total
  | |- is_Some (if is_ValueError ?e then _ else _) =>
      destruct (is_ValueError e); [done|];
      match goal with H : is_Exception _ = true |- _ => by rewrite H end
  | |- safe _ (bind _ _) => eapply safe_bind; [|intros ? ?]
  | |- sound _ (bind _ _) => eapply sound_bind; [|intros ? ?]
  | |- safe _ (ret _) => apply safe_ret
  | |- sound _ (ret _) => apply sound_ret
  | |- safe _ hang => apply safe_hang
  | |- sound _ hang => apply safe_sound, safe_hang
  | |- sound _ (raise _) => apply sound_raise
  | |- safe _ (try_except _ _) =>
      eapply safe_try_except; [|intros ? ?|intros ? ? ?; cbv beta in *]
  | |- sound _ (try_except _ _) =>
      eapply sound_try_except; [|intros ? ? ?; cbv beta in *]
  | |- safe _ (print _) => apply safe_print
  | |- safe _ (emit _) => apply safe_emit
  | |- safe _ (input _) => apply safe_input
  | |- safe _ get_errors => apply safe_get_errors
  | |- safe _ (record_error _) => apply safe_record_error
  | |- sound _ (call _) => apply sound_call
  | |- sound _ (py_len_of _) => apply sound_py_len_of
  | |- sound _ (py_get_or _ _ _) => apply sound_py_get_or
  | |- sound _ (py_get _ _) => apply sound_py_get_or
  | |- sound _ (print _) => apply safe_sound, safe_print
  | |- sound _ (emit _) => apply safe_sound, safe_emit
  | |- sound _ (input _) => apply safe_sound, safe_input
  | |- sound _ (record_error _) => apply safe_sound, safe_record_error
  | |- safe _ (match ?x with _ => _ end) => destruct x eqn:?
  | |- sound _ (match ?x with _ => _ end) => destruct x eqn:?
  | |- safe _ (if ?x then _ else _) => destruct x eqn:?
  | |- sound _ (if ?x then _ else _) => destruct x eqn:?
  | |- anything _ => exact I
  | |- ?Q ?a =>
      is_evar Q; let T := type of a in unify Q (@anything T); exact I
  end.

Lemma sized_None : sized PNone.
Proof. intros H. discriminate H. Qed.

Lemma safe_parse_with_ai_agent w html url :
  safe sized (parse_with_ai_agent w html url).
Proof.
  unfold parse_with_ai_agent.
  eapply safe_bind; [apply safe_init_convex_client|intros _ _].
  repeat safe_step; try apply sized_None.
  all: intros _; simpl in *; eauto.
Qed.

Lemma safe_save_debug_html w html url :
  safe anything (save_debug_html w html url).
Proof. unfold save_debug_html. repeat safe_step. Qed.

Lemma sized_records df : sized (to_dict_records df).
Proof. intros _. simpl. eauto. Qed.

Lemma safe_parse_html_to_records w html url :
  safe sized (parse_html_to_records w html url).
Proof.
  unfold parse_html_to_records.
  repeat first
    [ apply safe_save_debug_html | apply safe_parse_with_ai_agent
    | apply safe_sound, safe_save_debug_html
    | apply safe_sound, safe_parse_with_ai_agent
    | apply sized_records
    | safe_step ].
Qed.

Lemma safe_save_procurement_data_to_convex w link v :
  safe anything (save_procurement_data_to_convex w link v).
Proof.
  unfold save_procurement_data_to_convex.
  eapply safe_bind; [apply safe_init_convex_client|intros _ _].
  repeat safe_step.
Qed.

Lemma safe_store_and_close w link v : safe anything (store_and_close w link v).
Proof.
  unfold store_and_close.
  repeat first [ apply safe_save_procurement_data_to_convex | safe_step ].
Qed.

Lemma safe_manual_input_loop lines n con :
  match fst (fst (manual_input_loop lines n con)) with
  | Ok a => anything a
  | Raise e => console_exn e
  | Hang => True
  end.
Proof.
  revert lines n. induction con as [|[l|] rest IH]; intros lines n; try done.
  cbn [manual_input_loop].
  repeat (match goal with
          | |- context [if ?c then _ else _] => destruct c
          end); try done; apply IH.
Qed.

Lemma safe_get_manual_html_input : safe anything get_manual_html_input.
Proof.
  unfold get_manual_html_input.
  repeat first [ apply safe_on_console, safe_manual_input_loop | safe_step ].
Qed.

Lemma safe_ask_retry {A} (Q : Control A -> Prop) attempt max_retries :
  Q Continue -> Q Break -> safe Q (ask_retry attempt max_retries).
Proof. intros Hc Hb. unfold ask_retry. repeat safe_step; done. Qed.

(** What a turn of the manual loop may hand back. *)
Lemma safe_manual_attempt w url attempt max_retries :
  safe (fun c => match c with Return v => sized v | _ => True end)
       (manual_attempt w url attempt max_retries).
Proof.
  unfold manual_attempt, manual_turn.
  repeat first
    [ apply safe_get_manual_html_input
    | apply safe_sound, safe_parse_with_ai_agent
    | apply safe_ask_retry; done
    | apply safe_sound, safe_ask_retry; done
    | apply sized_None
    | apply sized_records
    | match goal with
      | |- safe _ (bind (try_except (bind (parse_with_ai_agent _ _ _) _) _) _) =>
          eapply (safe_bind
                    (fun o => match o with Some r => sized r | None => True end));
          [|intros ? ?]
      end
    | safe_step ].
  all: try done.
Qed.

Lemma safe_manual_summary : safe sized manual_summary.
Proof. unfold manual_summary. repeat safe_step. apply sized_None. Qed.

Lemma safe_manual_loop w url max_retries remaining attempt :
  safe sized (manual_loop w url max_retries remaining attempt).
Proof.
  revert attempt. induction remaining as [|r IH]; intros attempt; simpl.
  - apply safe_manual_summary.
  - eapply safe_bind; [apply safe_manual_attempt|].
    intros [| |v] Hv; [apply IH | apply safe_manual_summary | by apply safe_ret].
Qed.

Lemma safe_manual_html_fallback w url max_retries :
  safe sized (manual_html_fallback w url max_retries).
Proof.
  unfold manual_html_fallback.
  eapply (safe_bind anything); [by intros st Hc|intros _ _].
  apply safe_manual_loop.
Qed.

Lemma safe_offer_manual w link u : safe anything (offer_manual w link u).
Proof.
  unfold offer_manual.
  repeat first
    [ apply safe_manual_html_fallback
    | apply safe_store_and_close
    | match goal with
      | Hs : sized ?v, Ht : truthy ?v = true |- safe _ (py_len_of ?v) =>
          apply safe_py_len_of, Hs, Ht
      end
    | safe_step ].
Qed.

Lemma deliver_not_cancelled calls : deliver calls Pending <> Cancelled.
Proof. rewrite deliver_first. by destruct (head calls). Qed.

Lemma safe_capture_and_extract w link u :
  safe anything (capture_and_extract w link u).
Proof.
  unfold capture_and_extract.
  repeat first
    [ apply safe_offer_manual
    | apply safe_sound, safe_offer_manual
    | apply safe_sound, safe_store_and_close
    | apply safe_sound, safe_parse_html_to_records
    | apply safe_sound, safe_await, deliver_not_cancelled
    | safe_step ].
Qed.

Lemma safe_apply_stealth w : safe anything (apply_stealth w).
Proof. unfold apply_stealth. repeat safe_step. Qed.

Lemma safe_check_for_verification w u :
  safe anything (check_for_verification w u).
Proof. unfold check_for_verification. repeat safe_step. Qed.

Lemma safe_diagnose_detection w u : safe anything (diagnose_detection w u).
Proof. unfold diagnose_detection. repeat safe_step. Qed.

Lemma safe_open_session w u wait : safe anything (open_session w u wait).
Proof.
  unfold open_session.
  repeat first
    [ apply safe_apply_stealth
    | apply safe_check_for_verification
    | apply safe_diagnose_detection
    | safe_step ].
Qed.

(** With the client initialised and a URL that is a text (or none at all),
    whatever the browser, pandas, the backend and the file system answer,
    [process_link] returns, or waits for the capture, or is ended by the
    console: no failure of theirs comes out of it. *)
Lemma safe_process_link w link index total :
  text_or_no_url link -> safe anything (process_link w link index total).
Proof.
  intros Hu. unfold process_link, text_or_no_url, has_no_url in *.
  destruct (truthy (link_get link "procurementLink")) eqn:Ht; simpl.
  - destruct Hu as [Hu|Hu]; [done|].
    destruct (link_get link "procurementLink") eqn:Hl; try done.
    unfold get_wait_strategy.
    repeat first
      [ apply safe_open_session | apply safe_capture_and_extract | safe_step ].
  - repeat safe_step.
Qed.

Lemma post_scrape_loop_raises links cur con :
  match fst (fst (post_scrape_loop links cur con)) with
  | Raise e => console_exn e \/ listing_failure links = Some e
  | Hang => False
  | Ok _ => True
  end.
Proof.
  assert (H : forall n con, (length con <= n)%nat ->
    match fst (fst (post_scrape_loop links cur con)) with
    | Raise e => console_exn e \/ listing_failure links = Some e
    | Hang => False
    | Ok _ => True
    end).
  { clear con. induction n as [|n IH]; intros con Hl.
    - destruct con; [by left; left | simpl in Hl; lia].
    - destruct con as [|[l|] rest]; [by left; left| |by left; right].
      assert (IH1 := IH rest ltac:(simpl in Hl; lia)).
      cbn [post_scrape_loop]. set (choice := lower (strip l)).
      repeat (match goal with
          | |- context [String.eqb ?a ?b] => destruct (String.eqb a b)
          | |- context [link_menu _ _] => list_links
          | |- context [match rest with _ => _ end] =>
              destruct rest as [|[l'|] rest']
          | |- context [py_int ?a] => destruct (py_int a)
          | |- context [(1 <=? ?a) && (?a <=? ?b)] =>
              destruct ((1 <=? a) && (a <=? b))
          | |- context [?a <? ?b] => destruct (a <? b)
          end); rewrite ?again_result; try done;
        first [ by left; left | by left; right | by right
              | apply IH; simpl in Hl; lia ]. }
  apply (H (length con)). lia.
Qed.

(** The menu after a link lists every link on [l]: no exception but the
    console's comes out of it when every link can be listed. *)
Lemma safe_get_post_scrape_action links cur :
  listing_failure links = None ->
  safe anything (get_post_scrape_action links cur).
Proof.
  intros Hlist. apply safe_on_console. intros con.
  assert (H := post_scrape_loop_raises links cur con).
  destruct (fst (fst (post_scrape_loop links cur con))); try done.
  destruct H as [H|H]; [done|congruence].
Qed.

Lemma safe_main_turn w links cur link :
  py_index links cur = Some link -> text_or_no_url link ->
  listing_failure links = None ->
  safe anything (main_turn w links cur).
Proof.
  intros Hl Hu Hlist. unfold main_turn. rewrite Hl.
  eapply safe_bind; [by apply safe_process_link|intros _ _].
  by apply safe_get_post_scrape_action.
Qed.

(** ** Failures of the sink and of the AI parser *)

Lemma init_convex_client_ready w st :
  is_Some (client st) -> init_convex_client w st = (Ok tt, st).
Proof. intros [c Hc]. unfold init_convex_client. by rewrite Hc. Qed.

Lemma save_fails w link v n e st :
  is_Some (client st) ->
  py_len v = Some n ->
  convex_mutation w (payload_of link v n) = Fails e ->
  save_procurement_data_to_convex w link v st =
  (Ok PNone, after_round st (console st) (failed_save_trace link v n e)).
Proof.
  intros Hc Hn Hm. unfold save_procurement_data_to_convex.
  unfold bind at 1. rewrite (init_convex_client_ready w st Hc).
  unfold py_len_of. rewrite Hn.
  run. fold (payload_of link v n). rewrite Hm. simpl. rewrite is_Exception_lib.
  unfold after_round, failed_save_trace. simpl. by rewrite <- !app_assoc.
Qed.

Lemma ai_call_fails w html url e st :
  is_Some (client st) ->
  convex_action w html (url_value url) = Fails e ->
  parse_with_ai_agent w html url st =
  (Ok PNone, after_round st (console st) (failed_ai_trace html url e)).
Proof.
  intros Hc Ha. unfold parse_with_ai_agent.
  unfold bind at 1. rewrite (init_convex_client_ready w st Hc).
  run. rewrite Ha. simpl. rewrite is_Exception_lib.
  unfold after_round, failed_ai_trace. simpl. by rewrite <- !app_assoc.
Qed.


(** ** The hotkey with nothing highlighted *)


(** C9. In the hotkey variant, while the selector is active and no element
    is highlighted, Ctrl+Alt+S does not call the host hook: the banner turns
    to the warning and a timer is left that puts it back; the selector
    stays active with both listeners installed and nothing highlighted, so
    the capture future is as it was; and once an element is hovered, the
    next Ctrl+Alt+S sends its table to the hook. *)
Theorem hotkey_without_highlight_keeps_waiting
    (d : Hotkey.Dom) (p : Hotkey.Page) (ev : Hotkey.KeyEvent) :
  Hotkey.isActive p = true ->
  Hotkey.keydown_installed p = true ->
  Hotkey.mouseover_installed p = true ->
  Hotkey.lastElement p = None ->
  Hotkey.is_trigger ev = true ->
  let p' := Hotkey.keydown d ev p in
  Hotkey.sent p' = Hotkey.sent p /\
  (forall fut, deliver (Hotkey.sent p') fut = deliver (Hotkey.sent p) fut) /\
  Hotkey.isActive p' = true /\
  Hotkey.keydown_installed p' = true /\
  Hotkey.mouseover_installed p' = true /\
  Hotkey.lastElement p' = None /\
  Hotkey.banner p' =
    Hotkey.mkBanner Hotkey.Red Hotkey.NoElementWarning
                    (Hotkey.attached (Hotkey.banner p)) /\
  Hotkey.timers p' = Hotkey.timers p ++ [Hotkey.RevertBanner] /\
  Hotkey.banner (Hotkey.fire Hotkey.RevertBanner p') =
    Hotkey.mkBanner Hotkey.Purple Hotkey.HoverHint
                    (Hotkey.attached (Hotkey.banner p)) /\
  (forall target,
     Hotkey.in_banner d target = false ->
     Hotkey.sent (Hotkey.keydown d ev (Hotkey.mouseover d target p')) =
     Hotkey.sent p ++
     [Hotkey.outerHTML d (default target (Hotkey.closest_table d target))]).
Proof.
  intros Ha Hk Hm Hl Ht p'. subst p'.
  unfold Hotkey.keydown, Hotkey.keydownHandler. rewrite Hk, Ha, Ht, Hl. simpl.
  repeat split; try done.
  intros target Hb.
  unfold Hotkey.mouseover, Hotkey.mouseOverHandler. simpl.
  rewrite Hm, Hb. reflexivity.
Qed.

(** ** What the tiers yield *)

Lemma normalize_rows df : rows (normalize df) = map (map norm_cell) (rows df).
Proof.
  unfold normalize, astype_str, fillna. simpl. rewrite map_map.
  apply map_ext. intros r. by rewrite map_map.
Qed.

Lemma dict_set_strings k v d :
  is_str v = true ->
  forallb (fun kv => is_str (snd kv)) d = true ->
  forallb (fun kv => is_str (snd kv)) (dict_set k v d) = true.
Proof.
  intros Hv. induction d as [|[k' v'] r IH]; simpl; [by rewrite Hv|].
  intros [H1 H2]%andb_true_iff.
  destruct (String.eqb k k'); simpl; [by rewrite Hv|]. by rewrite H1, IH.
Qed.

Lemma dict_of_items_strings items :
  forallb (fun kv => is_str (snd kv)) items = true ->
  forallb (fun kv => is_str (snd kv)) (dict_of_items items) = true.
Proof.
  unfold dict_of_items.
  assert (H : forall d, forallb (fun kv => is_str (snd kv)) d = true ->
    forallb (fun kv => is_str (snd kv)) items = true ->
    forallb (fun kv : string * PyVal => is_str (snd kv))
      (fold_left (fun d kv => dict_set (fst kv) (snd kv) d) items d) = true).
  { induction items as [|[k v] r IH]; intros d Hd Hi; simpl in *; [done|].
    apply andb_true_iff in Hi as [H1 H2]. apply IH; [|done].
    by apply dict_set_strings. }
  by apply H.
Qed.

Lemma combine_strings (cols : list string) (r : list Cell) :
  forallb (fun kv => is_str (snd kv)) (combine cols (map cell_value (map norm_cell r)))
  = true.
Proof.
  revert r. induction cols as [|c cs IH]; intros [|x r]; simpl; done.
Qed.

(** After the normalisation every cell of every record is a text. *)
Lemma normalized_records_are_strings df :
  string_records (to_dict_records (normalize df)) = true.
Proof.
  unfold to_dict_records, string_records. rewrite normalize_rows.
  apply forallb_forall. intros v Hv. apply in_map_iff in Hv as [r [<- Hr]].
  apply in_map_iff in Hr as [r0 [<- Hr0]].
  apply dict_of_items_strings, combine_strings.
Qed.

Lemma clean_records_truthy df :
  df_empty df = false -> truthy (to_dict_records (normalize df)) = true.
Proof.
  unfold df_empty, to_dict_records. rewrite normalize_rows. simpl.
  destruct (columns df); [done|]. by destruct (rows df).
Qed.

Lemma structured_yield_strings w html :
  truthy (structured_yield w html) = true ->
  string_records (structured_yield w html) = true.
Proof.
  unfold structured_yield.
  destruct (read_html w html) as [[|first rest]|e]; try done.
  destruct (df_empty (clean first)); [done|].
  intros _. apply normalized_records_are_strings.
Qed.

Lemma parse_with_ai_agent_value w html url st :
  is_Some (client st) ->
  fst (parse_with_ai_agent w html url st) = Ok (ai_yield w html url).
Proof.
  intros Hc. unfold parse_with_ai_agent, ai_yield.
  unfold bind at 1. rewrite (init_convex_client_ready w st Hc).
  unfold py_get, py_get_or, py_len_of. run.
  destruct (convex_action w html (url_value url)) as [v|e]; simpl;
    [|by rewrite is_Exception_lib].
  destruct v as [| | | | | |kvs]; try done. simpl.
  destruct (truthy (default PNone (assoc "success" kvs)) &&
            truthy (default PNone (assoc "data" kvs))); simpl; [|done].
  destruct (py_len (default PNone (assoc "data" kvs))); simpl; [|done].
  by destruct (truthy (default PNone (assoc "notes" kvs))).
Qed.

Lemma save_debug_html_run w html url st :
  exists o,
    save_debug_html w html url st =
    (Ok o, after_round st (console st) (debug_trace w html url)).
Proof.
  unfold save_debug_html, debug_trace. fold (debug_path w url). run.
  destruct (file_write w (debug_path w url)) as [[]|e]; simpl.
  - eexists. unfold after_round. simpl. by rewrite <- !app_assoc.
  - rewrite is_Exception_lib. eexists. reflexivity.
Qed.

Lemma fall_back_value w html url st :
  is_Some (client st) ->
  fst ((save_debug_html w html url;; parse_with_ai_agent w html url) st) =
  Ok (ai_yield w html url).
Proof.
  intros Hc. unfold bind.
  destruct (save_debug_html_run w html url st) as [o ->].
  by apply parse_with_ai_agent_value.
Qed.

Lemma structured_yield_falsy w html :
  truthy (structured_yield w html) = false -> structured_yield w html = PNone.
Proof.
  unfold structured_yield.
  destruct (read_html w html) as [[|first rest]|e]; try done.
  destruct (df_empty (clean first)) eqn:He; [done|].
  by rewrite clean_records_truthy.
Qed.

Ltac run_debug w html url :=
  match goal with
  | |- context [save_debug_html w html url ?s] =>
      let o := fresh "o" in
      destruct (save_debug_html_run w html url s) as [o ->]; simpl
  end.

Ltac run_ai w html url Hc :=
  match goal with
  | |- context [parse_with_ai_agent w html url ?s] =>
      let H := fresh "Hai" in
      assert (H := parse_with_ai_agent_value w html url s Hc);
      destruct (parse_with_ai_agent w html url s) as [[?|?|] ?];
      simpl in H; simplify_eq; simpl
  end.

Lemma parse_html_to_records_value w html url st :
  is_Some (client st) ->
  fst (parse_html_to_records w html url st) = Ok (auto_yield w html url).
Proof.
  intros Hc. unfold auto_yield.
  destruct (truthy (structured_yield w html)) eqn:Ht.
  - revert Ht. unfold parse_html_to_records, structured_yield. run.
    destruct (read_html w html) as [[|first rest]|e]; try done; simpl.
    by destruct (df_empty (clean first)).
  - assert (Hs := structured_yield_falsy w html Ht). clear Ht. revert Hs.
    unfold parse_html_to_records, structured_yield. run.
    destruct (read_html w html) as [[|first rest]|e]; simpl.
    + intros _. run_debug w html url. by run_ai w html url Hc.
    + destruct (df_empty (clean first)) eqn:He; simpl; [|done].
      intros _. run_debug w html url. by run_ai w html url Hc.
    + intros _. destruct e as [m|m]; simpl; run_debug w html url;
        by run_ai w html url Hc.
Qed.

Lemma parse_structured_ok w html url st :
  truthy (structured_yield w html) = true ->
  parse_html_to_records w html url st =
  (Ok (structured_yield w html),
   after_round st (console st) (structured_trace w html)).
Proof.
  unfold parse_html_to_records, structured_yield, structured_trace. run.
  destruct (read_html w html) as [[|first rest]|e]; try done; simpl.
  destruct (df_empty (clean first)); [done|]. intros _.
  unfold after_round. simpl. by rewrite <- !app_assoc.
Qed.

Lemma ai_after_read e : ai_events e = true -> after_read_events e = true.
Proof. unfold after_read_events. by intros ->. Qed.

Lemma debug_after_read e : debug_events e = true -> after_read_events e = true.
Proof. unfold after_read_events. intros ->. by rewrite orb_true_r. Qed.

Lemma debug_trace_events w html url :
  Forall (fun e => debug_events e = true) (debug_trace w html url).
Proof.
  unfold debug_trace. destruct (file_write w (debug_path w url));
    repeat constructor.
Qed.

Ltac run_ai_frame w html url :=
  match goal with
  | |- context [parse_with_ai_agent w html url ?s] =>
      let F := fresh "F" in
      let t := fresh "t" in
      let Ho := fresh "Ho" in
      let Ft := fresh "Ft" in
      assert (F := parse_with_ai_agent_keeps eq w html url s);
      destruct (parse_with_ai_agent w html url s) as [[?|?|] ?];
      destruct F as ([t [Ho Ft]] & _); simpl in Ho |- *
  end.

Ltac norm_trace H :=
  repeat first [ rewrite <- app_assoc in H | progress simpl in H ].

Ltac forall_events :=
  repeat first
    [ assumption
    | apply Forall_nil_2
    | apply Forall_app; split
    | eapply Forall_impl; [eassumption | exact ai_after_read]
    | apply Forall_cons_2; [reflexivity|] ].

(** When the structured tier finds nothing, the debug artifact is saved
    right after its report and before anything else happens. *)
Lemma parse_structured_fails_trace w html url st :
  truthy (structured_yield w html) = false ->
  exists t1 t2,
    out (snd (parse_html_to_records w html url st)) =
    out st ++
    (Print (ParsingDebug (Z.of_nat (String.length html)))
     :: PandasRead Structured html :: t1) ++
    debug_trace w html url ++ t2 /\
    Forall (fun e => report_events e = true) t1 /\
    Forall (fun e => after_read_events e = true) t2.
Proof.
  intros Ht. assert (Hs := structured_yield_falsy w html Ht). clear Ht.
  revert Hs. unfold parse_html_to_records, structured_yield. run.
  assert (Hd := Forall_impl _ _ _ (debug_trace_events w html url) debug_after_read).
  assert (Hfin : forall (why : list Event) s t2,
    Forall (fun e => report_events e = true) why ->
    Forall (fun e => after_read_events e = true) t2 ->
    out s =
      out st ++
      Print (ParsingDebug (Z.of_nat (String.length html)))
      :: PandasRead Structured html :: why ++ debug_trace w html url ++ t2 ->
    exists t1 t2,
      out s =
      out st ++
      (Print (ParsingDebug (Z.of_nat (String.length html)))
       :: PandasRead Structured html :: t1) ++
      debug_trace w html url ++ t2 /\
      Forall (fun e => report_events e = true) t1 /\
      Forall (fun e => after_read_events e = true) t2).
  { intros why s t2 Hw H2 ->. by exists why, t2. }
  destruct (read_html w html) as [[|first rest]|e]; simpl; intros Hs.
  - run_debug w html url. run_ai_frame w html url;
      norm_trace Ho.
    1,3: by apply (Hfin [Print NoTablesPandas] _ t); [forall_events..|].
    destruct (is_ValueError e) eqn:Hv; [|destruct (is_Exception e) eqn:Hx]; simpl.
    3: by apply (Hfin [Print NoTablesPandas] _ t); [forall_events..|].
    all: run_debug w html url; rewrite Ho; run_ai_frame w html url;
      norm_trace Ho0;
      (eapply (Hfin [Print NoTablesPandas]); [| |exact Ho0]); forall_events.
  - destruct (df_empty (clean first)) eqn:He; simpl; [|done].
    run_debug w html url. run_ai_frame w html url;
      norm_trace Ho.
    1,3: (eapply (Hfin [Print _; Print EmptyTable] _ t); [| |exact Ho]);
      forall_events.
    destruct (is_ValueError e) eqn:Hv; [|destruct (is_Exception e) eqn:Hx]; simpl.
    3: (eapply (Hfin [Print _; Print EmptyTable] _ t); [| |exact Ho]);
      forall_events.
    all: run_debug w html url; rewrite Ho; run_ai_frame w html url;
      norm_trace Ho0;
      (eapply (Hfin [Print _; Print EmptyTable]); [| |exact Ho0]); forall_events.
  - destruct e as [m|m]; simpl; run_debug w html url;
      run_ai_frame w html url; norm_trace Ho;
      (eapply (Hfin [Print _] _ t); [| |exact Ho]); forall_events.
Qed.

(** ** What reaches the sink *)

Lemma ai_yield_is_data w html url :
  truthy (ai_yield w html url) = true ->
  exists kvs,
    convex_action w html (url_value url) = Returns (PDict kvs) /\
    assoc "data" kvs = Some (ai_yield w html url).
Proof.
  unfold ai_yield.
  destruct (convex_action w html (url_value url)) as [[| | | | | |kvs]|e];
    try done.
  simpl. destruct (assoc "data" kvs) as [found|] eqn:Hd; simpl.
  - destruct (truthy (default PNone (assoc "success" kvs)) && truthy found);
      [|done].
    destruct (py_len found); [|done]. intros _. by exists kvs.
  - by rewrite andb_false_r.
Qed.

Lemma safe_parse_with_ai_agent_exact w html url :
  safe (fun v => v = ai_yield w html url) (parse_with_ai_agent w html url).
Proof.
  intros st Hc. destruct (safe_parse_with_ai_agent w html url st Hc) as [H1 _].
  split; [done|]. by rewrite parse_with_ai_agent_value.
Qed.

Lemma from_tier_None w url : from_tier w url PNone.
Proof. intros H. discriminate H. Qed.

Lemma from_tier_records w url df : from_tier w url (to_dict_records (normalize df)).
Proof. intros _. left. apply normalized_records_are_strings. Qed.

Lemma safe_manual_attempt_from_tier w url attempt max_retries :
  safe (fun c => match c with Return v => from_tier w url v | _ => True end)
       (manual_attempt w url attempt max_retries).
Proof.
  unfold manual_attempt, manual_turn.
  repeat first
    [ apply safe_get_manual_html_input
    | apply safe_sound, safe_parse_with_ai_agent_exact
    | apply safe_ask_retry; done
    | apply safe_sound, safe_ask_retry; done
    | apply from_tier_None
    | apply from_tier_records
    | match goal with
      | |- safe _ (bind (try_except (bind (parse_with_ai_agent _ ?h _) _) _) _) =>
          eapply (safe_bind
                    (fun o => match o with
                              | Some r => r = ai_yield w h url
                              | None => True
                              end));
          [|intros ? ?]
      end
    | safe_step ].
  all: try done.
  all: simpl in *; subst; intros _; right; eauto.
Qed.

Lemma safe_manual_summary_None : safe (fun v => v = PNone) manual_summary.
Proof. unfold manual_summary. repeat safe_step. reflexivity. Qed.

Lemma safe_manual_loop_from_tier w url max_retries remaining attempt :
  safe (from_tier w url) (manual_loop w url max_retries remaining attempt).
Proof.
  assert (Hs : safe (from_tier w url) manual_summary).
  { eapply safe_weaken; [|apply safe_manual_summary_None].
    intros v ->. apply from_tier_None. }
  revert attempt. induction remaining as [|r IH]; intros attempt; simpl; [done|].
  eapply safe_bind; [apply safe_manual_attempt_from_tier|].
  intros [| |v] Hv; [apply IH | done | by apply safe_ret].
Qed.

Lemma safe_manual_html_fallback_from_tier w url max_retries :
  safe (from_tier w url) (manual_html_fallback w url max_retries).
Proof.
  unfold manual_html_fallback.
  eapply (safe_bind anything); [by intros st Hc|intros _ _].
  apply safe_manual_loop_from_tier.
Qed.

(** ** What reaches the sink, over a whole link *)

Lemma mutations_concat tr tr' :
  mutations (tr ++ tr') = mutations tr ++ mutations tr'.
Proof. apply omap_app. Qed.

Lemma no_mutations foot tr :
  (forall p, foot (ConvexMutation p) = false) ->
  Forall (fun e => foot e = true) tr -> mutations tr = [].
Proof.
  intros Hf. induction 1 as [|e tr He _ IH]; [done|].
  change (e :: tr) with ([e] ++ tr). rewrite mutations_concat, IH, app_nil_r.
  destruct e; try done. by rewrite Hf in He.
Qed.

Lemma hands_over_quiet w link {A} (Q : A -> Prop) foot E (m : Py A) :
  (forall p, foot (ConvexMutation p) = false) ->
  sound Q m -> keeps foot E m -> hands_over w link Q m.
Proof.
  intros Hf Hs Hk st Hc. destruct (Hs st Hc) as [H1 H2].
  split; [done|]. split; [done|].
  destruct (Hk st) as ((tr & Ho & Ht) & _).
  exists tr. split; [done|]. by rewrite (no_mutations foot tr Hf Ht).
Qed.

Lemma hands_over_weaken w link {A} (Q Q' : A -> Prop) m :
  (forall a, Q a -> Q' a) -> hands_over w link Q m -> hands_over w link Q' m.
Proof.
  intros HQ Hm st Hc. destruct (Hm st Hc) as (H1 & H2 & H3).
  split; [done|]. split; [|done]. destruct (fst (m st)); auto.
Qed.

Lemma hands_over_bind w link {A B} (Q : A -> Prop) (Q' : B -> Prop) m k :
  hands_over w link Q m -> (forall a, Q a -> hands_over w link Q' (k a)) ->
  hands_over w link Q' (bind m k).
Proof.
  intros Hm Hk st Hc. unfold bind.
  destruct (Hm st Hc) as (H1 & H2 & t1 & Ho1 & Ht1).
  destruct (m st) as [[a|e|] st1]; simpl in *; [|by eauto..].
  destruct (Hk a H2 st1 H1) as (H3 & H4 & t2 & Ho2 & Ht2).
  split; [done|]. split; [done|].
  exists (t1 ++ t2). split; [by rewrite Ho2, Ho1, app_assoc|].
  rewrite mutations_concat. by apply Forall_app.
Qed.

Lemma hands_over_try_except w link {A} (Q : A -> Prop) body handler :
  hands_over w link Q body ->
  (forall e h, handler e = Some h -> hands_over w link Q h) ->
  hands_over w link Q (try_except body handler).
Proof.
  intros Hb Hh st Hc. unfold try_except.
  destruct (Hb st Hc) as (H1 & H2 & t1 & Ho1 & Ht1).
  destruct (body st) as [[a|e|] st1]; simpl in *; [by eauto| |by eauto].
  destruct (handler e) as [h|] eqn:He; [|by eauto].
  destruct (Hh e h He st1 H1) as (H3 & H4 & t2 & Ho2 & Ht2).
  split; [done|]. split; [done|].
  exists (t1 ++ t2). split; [by rewrite Ho2, Ho1, app_assoc|].
  rewrite mutations_concat. by apply Forall_app.
Qed.

Lemma hands_over_except_Exception w link {A} (Q : A -> Prop) (h : Exn -> Py A) e h' :
  (forall e, hands_over w link Q (h e)) ->
  except_Exception h e = Some h' -> hands_over w link Q h'.
Proof.
  unfold except_Exception. intros Hh H.
  destruct (is_Exception e); [|done]. injection H as <-. apply Hh.
Qed.

(** A value a tier yielded for the link and that is not empty. *)
Lemma auto_yield_from_tier w h url :
  truthy (auto_yield w h url) = true ->
  string_records (auto_yield w h url) = true \/
  exists html, auto_yield w h url = ai_yield w html url.
Proof.
  unfold auto_yield. destruct (truthy (structured_yield w h)) eqn:Hs.
  - intros _. left. by apply structured_yield_strings.
  - intros _. right. by exists h.
Qed.

Lemma hands_over_store_and_close w link v :
  truthy v = true ->
  (string_records v = true \/
   exists html,
     v = ai_yield w html (Some (url_text (link_get link "procurementLink")))) ->
  hands_over w link anything (store_and_close w link v).
Proof.
  intros Hv Hfrom st Hc.
  destruct (safe_store_and_close w link v st Hc) as [H1 _].
  split; [done|]. split; [by destruct (fst (store_and_close w link v st))|].
  clear H1. unfold store_and_close, save_procurement_data_to_convex, py_len_of.
  unfold bind at 1. unfold bind at 1. rewrite (init_convex_client_ready w st Hc).
  run. destruct (py_len v) as [n|] eqn:Hn; simpl.
  - fold (payload_of link v n).
    destruct (convex_mutation w (payload_of link v n)) as [r|e]; simpl;
      rewrite ?is_Exception_lib; simpl;
      (eexists; split; [by rewrite <- ?app_assoc|]);
      simpl; (apply Forall_cons_2; [|apply Forall_nil_2]);
      unfold tier_batch; simpl; auto.
  - eexists; split; [by rewrite <- ?app_assoc|]. simpl. constructor.
Qed.

Lemma hands_over_sound w link {A} (Q : A -> Prop) E `{!PreOrder E} (m : Py A) :
  sound Q m -> keeps no_write E m -> hands_over w link Q m.
Proof. intros Hs Hk. by eapply (hands_over_quiet _ _ _ no_write E). Qed.

Lemma hands_over_ret w link {A} (Q : A -> Prop) a : Q a -> hands_over w link Q (ret a).
Proof.
  intros Ha. apply (hands_over_sound _ _ _ eq); [by apply sound_ret|kapply keeps_ret].
Qed.

Lemma hands_over_raise w link {A} (Q : A -> Prop) e : hands_over w link Q (raise e).
Proof.
  apply (hands_over_sound _ _ _ eq); [apply sound_raise|kapply keeps_raise].
Qed.

Lemma hands_over_emit w link e :
  no_write e = true -> hands_over w link anything (emit e).
Proof.
  intros He. apply (hands_over_sound _ _ _ eq);
    [apply safe_sound, safe_emit|by kapply keeps_emit].
Qed.

Lemma hands_over_print w link m : hands_over w link anything (print m).
Proof. by apply hands_over_emit. Qed.

Lemma hands_over_input w link p : hands_over w link anything (input p).
Proof.
  apply (hands_over_sound _ _ _ eq);
    [apply safe_sound, safe_input|by kapply keeps_input].
Qed.

Lemma hands_over_call w link {A} (o : Outcome A) : hands_over w link anything (call o).
Proof.
  apply (hands_over_sound _ _ _ eq); [apply sound_call|kapply keeps_call].
Qed.

Lemma hands_over_py_len_of w link v :
  hands_over w link (fun n => py_len v = Some n) (py_len_of v).
Proof.
  apply (hands_over_sound _ _ _ eq); [apply sound_py_len_of|kapply py_len_of_keeps].
Qed.

Lemma hands_over_await w link fut : hands_over w link anything (await fut).
Proof.
  apply (hands_over_sound _ _ _ eq); [|kapply await_keeps].
  intros st Hc. by destruct fut.
Qed.

Ltac hands_step :=
  match goal with
  | H : except_Exception _ _ = Some ?h |- hands_over _ _ _ ?h =>
      eapply hands_over_except_Exception; [|exact H]; clear H; intros ?; cbv beta
  | |- hands_over _ _ _ (bind _ _) =>
      eapply hands_over_bind; [|intros ? ?; cbv beta in *]
  | |- hands_over _ _ _ (ret _) => apply hands_over_ret
  | |- hands_over _ _ _ (raise _) => apply hands_over_raise
  | |- hands_over _ _ _ (try_except _ _) =>
      eapply hands_over_try_except; [|intros ? ? ?; cbv beta in *]
  | |- hands_over _ _ _ (print _) => apply hands_over_print
  | |- hands_over _ _ _ (emit _) => apply hands_over_emit; reflexivity
  | |- hands_over _ _ _ (input _) => apply hands_over_input
  | |- hands_over _ _ _ (call _) => apply hands_over_call
  | |- hands_over _ _ _ (py_len_of _) => apply hands_over_py_len_of
  | |- hands_over _ _ _ (await _) => apply hands_over_await
  | |- hands_over _ _ _ (match ?x with _ => _ end) => destruct x eqn:?
  | |- hands_over _ _ _ (if ?x then _ else _) => destruct x eqn:?
  | |- anything _ => exact I
  end.

Lemma hands_over_manual_html_fallback w link url max_retries :
  hands_over w link (from_tier w url) (manual_html_fallback w url max_retries).
Proof.
  eapply (hands_over_quiet _ _ _ manual_events any_errors).
  - done.
  - apply safe_sound, safe_manual_html_fallback_from_tier.
  - apply manual_html_fallback_keeps.
Qed.

Lemma hands_over_offer_manual w link u :
  u = url_text (link_get link "procurementLink") ->
  hands_over w link anything (offer_manual w link u).
Proof.
  intros ->. unfold offer_manual.
  repeat first
    [ apply hands_over_manual_html_fallback
    | match goal with
      | Hf : from_tier _ _ ?v, Ht : truthy ?v = true
        |- hands_over _ _ _ (store_and_close _ _ ?v) =>
          apply hands_over_store_and_close; [exact Ht|exact (Hf Ht)]
      end
    | hands_step ].
Qed.

Lemma hands_over_parse_html_to_records w link h url :
  hands_over w link (fun v => v = auto_yield w h url)
             (parse_html_to_records w h url).
Proof.
  eapply (hands_over_quiet _ _ _ auto_events any_errors).
  - done.
  - intros st Hc. destruct (safe_parse_html_to_records w h url st Hc) as [H1 _].
    split; [done|]. by rewrite parse_html_to_records_value.
  - apply parse_html_to_records_keeps. exact _.
Qed.

Lemma hands_over_capture_and_extract w link u :
  u = url_text (link_get link "procurementLink") ->
  hands_over w link anything (capture_and_extract w link u).
Proof.
  intros Hu. unfold capture_and_extract.
  repeat first
    [ by apply hands_over_offer_manual
    | apply hands_over_parse_html_to_records
    | match goal with
      | Hy : ?v = auto_yield _ _ _, Ht : truthy ?v = true
        |- hands_over _ _ _ (store_and_close _ _ ?v) =>
          apply hands_over_store_and_close; [exact Ht|];
          rewrite Hy in Ht |- *; rewrite Hu; rewrite Hu in Ht;
          exact (auto_yield_from_tier _ _ _ Ht)
      end
    | hands_step ].
Qed.

Lemma hands_over_open_session w link u wait :
  hands_over w link anything (open_session w u wait).
Proof.
  eapply (hands_over_quiet _ _ _ session_events any_errors).
  - done.
  - apply safe_sound, safe_open_session.
  - apply open_session_keeps. exact _.
Qed.

Lemma hands_over_get_wait_strategy w link url :
  hands_over w link anything (get_wait_strategy url).
Proof. unfold get_wait_strategy. destruct url; by repeat hands_step. Qed.

Lemma hands_over_process_link w link index total :
  hands_over w link anything (process_link w link index total).
Proof.
  unfold process_link.
  destruct (truthy (link_get link "procurementLink")) eqn:Ht; simpl;
    [|repeat hands_step].
  repeat first
    [ apply hands_over_get_wait_strategy
    | apply hands_over_open_session
    | by apply hands_over_capture_and_extract
    | hands_step ].
Qed.




(** ** The debug artifact *)

Lemma structured_trace_no_debug w html :
  Forall (fun e => debug_events e = false) (structured_trace w html).
Proof.
  unfold structured_trace. destruct (read_html w html) as [[|first rest]|e];
    repeat constructor.
Qed.




(** ** The statements at work on the concrete session *)


Lemma capture_hook_witness :
  (forall u : string,
     head ((fun _ => [table_html; div_html]) u) =
     head ((fun _ : string => [table_html]) u)) /\
  process_link (with_hook_calls sample_world (fun _ => [table_html; div_html]))
               texas_link 0 3 =
  process_link (with_hook_calls sample_world (fun _ => [table_html]))
               texas_link 0 3.
Proof.
  destruct capture_hook_resolves_once as (_ & _ & _ & H & _).
  split; [reflexivity|]. apply H. reflexivity.
Defined.

Lemma link_without_url_witness :
  has_no_url bare_link /\
  process_link sample_world bare_link 2 3 (ready_state [Line "q"]) =
  (Ok false, after_round (ready_state [Line "q"]) [Line "q"] [Print NoUrl]).
Proof.
  assert (H : has_no_url bare_link) by reflexivity.
  split; [exact H|].
  destruct (link_without_url_is_skipped sample_world bare_link H) as [H1 _].
  apply H1.
Defined.

Lemma navigation_failure_witness :
  link_get texas_link "procurementLink" = PStr "https://tx.example/bids" /\
  "https://tx.example/bids" <> "" /\
  page_goto failing_world "https://tx.example/bids"
            (wait_until "https://tx.example/bids") =
  Fails (LibError "Timeout 60000ms exceeded") /\
  main_turn failing_world sample_links 0 (ready_state [Line "n"]) =
  get_post_scrape_action sample_links 0
    (after_round (ready_state [Line "n"]) [Line "n"]
       (failed_navigation_trace failing_world 0 (len sample_links)
          "https://tx.example/bids" (LibError "Timeout 60000ms exceeded"))).
Proof.
  assert (H1 : link_get texas_link "procurementLink" =
               PStr "https://tx.example/bids") by reflexivity.
  assert (H2 : "https://tx.example/bids" <> "") by discriminate.
  assert (H3 : page_goto failing_world "https://tx.example/bids"
                 (wait_until "https://tx.example/bids") =
               Fails (LibError "Timeout 60000ms exceeded")) by reflexivity.
  split; [exact H1|]. split; [exact H2|]. split; [exact H3|].
  destruct (navigation_failure_skips_link failing_world texas_link _ _ H1 H2 H3)
    as [_ H].
  apply H. reflexivity.
Defined.


Lemma hotkey_witness :
  Hotkey.isActive Hotkey.injected = true /\
  Hotkey.keydown_installed Hotkey.injected = true /\
  Hotkey.mouseover_installed Hotkey.injected = true /\
  Hotkey.lastElement Hotkey.injected = None /\
  Hotkey.is_trigger ctrl_alt_s = true /\
  Hotkey.sent (Hotkey.keydown sample_dom ctrl_alt_s Hotkey.injected) = [] /\
  Hotkey.sent
    (Hotkey.keydown sample_dom ctrl_alt_s
       (Hotkey.mouseover sample_dom 7
          (Hotkey.keydown sample_dom ctrl_alt_s Hotkey.injected))) =
  [table_html].
Proof.
  destruct (hotkey_without_highlight_keeps_waiting sample_dom Hotkey.injected
              ctrl_alt_s eq_refl eq_refl eq_refl eq_refl eq_refl)
    as (H1 & _ & _ & _ & _ & _ & _ & _ & _ & H2).
  do 5 (split; [reflexivity|]). split.
  - exact H1.
  - apply (H2 7%nat). reflexivity.
Defined.

(** ** The manual tier *)

Lemma manual_input_loop_returns lines n con :
  exists o, fst (fst (manual_input_loop lines n con)) = Ok o.
Proof.
  revert lines n. induction con as [|[l|] rest IH]; intros lines n; simpl; eauto.
  repeat (match goal with
          | |- context [if ?c then _ else _] => destruct c
          end); simpl; eauto.
Qed.

Lemma get_manual_html_input_run st :
  exists o st1,
    get_manual_html_input st = (Ok o, st1) /\
    errors st1 = errors st /\ client st1 = client st.
Proof.
  unfold get_manual_html_input, on_console. run.
  destruct (manual_input_loop_returns [] 0 (console st)) as [o Ho].
  destruct (manual_input_loop [] 0 (console st)) as [[r con] tr].
  simpl in Ho. subst r. simpl.
  destruct o as [lines|]; simpl; [|by eauto].
  destruct (String.eqb (strip (String.concat newline lines)) ""); simpl; eauto.
Qed.

Lemma is_ready_Some st : is_ready st = true -> is_Some (client st).
Proof. unfold is_ready. destruct (client st); [by eexists | done]. Qed.

Ltac turn_leaf :=
  simpl; rewrite ?last_snoc; unfold turn_errors;
  first
    [ done
    | by left; eexists
    | by split; [left; eexists|]
    | by right
    | by auto ].

Section ManualTier.
#[local] Arguments to_dict_records : simpl never.
#[local] Arguments normalize : simpl never.
#[local] Arguments clean : simpl never.
#[local] Arguments len : simpl never.
#[local] Arguments first_rows : simpl never.

Ltac run_case :=
  match goal with
  | |- context [match console ?s with _ => _ end] =>
      let l := fresh "l" in
      let rest := fresh "rest" in
      destruct (console s) as [|[l|] rest]; simpl
  | |- context [(?k <? ?m)%nat] =>
      let H := fresh "Hlt" in
      destruct (Nat.ltb_spec k m) as [H|H]; simpl
  | |- context [if ?c then _ else _] => destruct c eqn:?; simpl
  end.

(** A failure inside the [try] of a turn, whatever raised it: the read of
    the paste, or the preview of the records. *)
Ltac turn_failure w html url e st1 :=
  rewrite ?is_Exception_lib;
  destruct (is_ValueError (exn_of_lib e));
    [|repeat run_case; intros [= <- <-]; turn_leaf];
  let Hes := fresh "Hes" in
  let Hv := fresh "Hv" in
  let ra := fresh "ra" in
  let sa := fresh "sa" in
  match goal with
  | |- context [parse_with_ai_agent w html url ?s] =>
      pose proof (parse_with_ai_agent_keeps eq w html url s) as (_ & _ & _ & Hes);
      pose proof (parse_with_ai_agent_value w html url s) as Hv;
      destruct (parse_with_ai_agent w html url s) as [ra sa]
  end;
  simpl in Hes, Hv;
  destruct ra as [?|?|]; simpl;
  [ repeat run_case; intros [= <- <-]; simpl; rewrite <- ?Hes; try turn_leaf
  | let Hn := fresh "Hn" in
    let Hrd := fresh "Hrd" in
    assert (Hn : is_ready st1 = false)
      by (destruct (is_ready st1) eqn:Hrd; [|done];
          apply is_ready_Some in Hrd; by specialize (Hv Hrd));
    rewrite Hn; clear Hv Hn;
    repeat run_case; intros [= <- <-]; simpl; rewrite <- ?Hes; rewrite ?last_snoc;
      unfold turn_errors; rewrite <- ?app_assoc; simpl;
      first [ done
            | by right; split; [|eexists _, _]
            | by split; [right; split; [|eexists _, _]|] ]
  | by intros [= <- <-] ].

Lemma manual_turn_spec w url k max_retries st r st' :
  manual_turn w url k max_retries st = (r, st') ->
  turn_ok k max_retries st r st'.
Proof.
  unfold manual_turn. unfold bind at 1.
  destruct (get_manual_html_input_run st) as (o & st1 & -> & He & Hc).
  assert (Hr : is_ready st1 = is_ready st) by (unfold is_ready; by rewrite Hc).
  unfold turn_ok. rewrite <- He, <- Hr. clear He Hc Hr.
  destruct o as [html|]; [|run; intros [= <- <-]; turn_leaf].
  unfold ask_retry, input, record_error. run.
  destruct (read_html w html) as [[|first rest]|e]; simpl.
  - repeat run_case; intros [= <- <-]; try turn_leaf.
  - destruct (df_empty (clean first)) eqn:Hempty; simpl.
    { repeat run_case; intros [= <- <-]; try turn_leaf. }
    destruct (pd_DataFrame w _) as [[]|e]; simpl;
      [|turn_failure w html url e st1].
    destruct (to_markdown w _) as [[]|e]; simpl;
      [|turn_failure w html url e st1].
    repeat run_case; intros [= <- <-]; try turn_leaf;
      try (right; by apply clean_records_truthy).
  - turn_failure w html url e st1.
Qed.

Lemma turn_events_quiet e :
  turn_events e = true -> banner_of e = None /\ summary_of e = None.
Proof. destruct e as [m| | | | | | | | | | | | | | | |]; try done. by destruct m. Qed.

Lemma turn_trace_quiet tr :
  Forall (fun e => turn_events e = true) tr ->
  banners tr = [] /\ summaries tr = [].
Proof.
  unfold banners, summaries.
  induction 1 as [|e tr He _ [IHb IHs]]; [done|].
  destruct (turn_events_quiet e He) as [Hb Hs]. simpl.
  by rewrite Hb, Hs.
Qed.

Lemma itemised_mono ai ai' first n errs :
  (ai = true -> ai' = true) ->
  itemised ai first n errs = true -> itemised ai' first n errs = true.
Proof.
  intros Hai. revert first errs.
  induction n as [|n IH]; intros first [|[k why|k msg] rest]; simpl; try done.
  rewrite !andb_true_iff, !orb_true_iff. intros [Hk [H|H]].
  - split; [done|]. left. by apply IH.
  - split; [done|]. right. destruct rest as [|[|k' msg'] rest']; try done.
    revert H. rewrite !andb_true_iff. intros [[Ha Hk'] H].
    repeat split; auto.
Qed.

Lemma itemised_app ai first n m errs errs' :
  itemised ai first n errs = true ->
  itemised ai (first + n) m errs' = true ->
  itemised ai first (n + m) (errs ++ errs') = true.
Proof.
  revert first errs.
  induction n as [|n IH]; intros first [|[k why|k msg] rest]; simpl; try done.
  - by rewrite Nat.add_0_r.
  - rewrite <- Nat.add_succ_comm.
    rewrite !andb_true_iff, !orb_true_iff. intros [Hk [H|H]] H'.
    + split; [done|]. left. by apply IH.
    + split; [done|]. right. destruct rest as [|[|k' msg'] rest']; try done.
      revert H. simpl. rewrite !andb_true_iff. intros [[Ha Hk'] H].
      repeat split; auto.
Qed.

Lemma turn_errors_itemised ai k ready es es' :
  (ai = false -> ready = true) ->
  turn_errors k ready es es' ->
  exists reasons, es' = es ++ reasons /\ itemised ai k 1 reasons = true.
Proof.
  intros Hai [[why ->]|[Hr (why & msg & ->)]].
  - eexists. split; [done|]. simpl. by rewrite Nat.eqb_refl.
  - eexists. split; [done|]. simpl. rewrite Nat.eqb_refl.
    destruct ai; [done|]. by rewrite Hai in Hr.
Qed.

Lemma banners_app tr tr' : banners (tr ++ tr') = banners tr ++ banners tr'.
Proof. apply omap_app. Qed.

Lemma summaries_app tr tr' :
  summaries (tr ++ tr') = summaries tr ++ summaries tr'.
Proof. apply omap_app. Qed.

Lemma manual_summary_run st :
  manual_summary st =
  (Ok PNone, after_round st (console st) [Print (ErrorSummary (errors st))]).
Proof. reflexivity. Qed.

Lemma manual_attempt_run w url k max_retries st :
  manual_attempt w url k max_retries st =
  manual_turn w url k max_retries
    (after_round st (console st) [Print (AttemptBanner k max_retries)]).
Proof. reflexivity. Qed.

Lemma manual_loop_spec w url max_retries ai remaining :
  forall k st r st',
    manual_loop w url max_retries remaining k st = (r, st') ->
    (k + remaining = S max_retries)%nat ->
    (ai = false -> is_ready st = true) ->
    exists tr n,
      out st' = out st ++ tr /\ banners tr = seq k n /\ (n <= remaining)%nat /\
      fallback_outcome ai k remaining n (errors st) tr r.
Proof.
  induction remaining as [|rem IH]; intros k st r st' Hrun Hk Hai.
  - simpl in Hrun. rewrite manual_summary_run in Hrun.
    injection Hrun as <- <-.
    exists [Print (ErrorSummary (errors st))], 0%nat.
    repeat split; [lia|]. simpl. right; right. split; [done|].
    exists [], []. rewrite app_nil_r. repeat split; auto.
  - cbn [manual_loop] in Hrun. unfold bind at 1 in Hrun.
    rewrite manual_attempt_run in Hrun.
    set (s0 := after_round st (console st) [Print (AttemptBanner k max_retries)]) in *.
    destruct (manual_turn_keeps w url k max_retries s0)
      as ((trt & Hout & Htr) & _ & Hcl & _).
    pose proof (manual_turn_spec w url k max_retries s0) as Hturn.
    destruct (manual_turn w url k max_retries s0) as [c s1].
    specialize (Hturn _ _ eq_refl). simpl in Hout, Hcl.
    destruct (turn_trace_quiet trt Htr) as [Hb Hs].
    rewrite <- app_assoc in Hout. simpl in Hout.
    set (B := Print (AttemptBanner k max_retries) :: trt) in *.
    assert (HbB : banners B = [k]).
    { unfold B. change (banners ([Print (AttemptBanner k max_retries)] ++ trt) = [k]).
      by rewrite banners_app, Hb. }
    assert (HsB : summaries B = []).
    { unfold B. change (summaries ([Print (AttemptBanner k max_retries)] ++ trt) = []).
      by rewrite summaries_app, Hs. }
    assert (Hready : ai = false -> is_ready s1 = true).
    { intros Ha. specialize (Hai Ha). unfold is_ready in *.
      destruct Hcl as [->|Hn]; [done|]. by rewrite Hn in Hai. }
    assert (HlB : forall x, last (out s1) = Some x -> last B = Some x).
    { intros x. rewrite Hout. unfold B. by rewrite last_app_cons. }
    subst s0. clearbody B.
    destruct c as [[| |v]|e|]; simpl in Hturn.
    + destruct (turn_errors_itemised ai k _ _ _ Hai Hturn) as (new & He & Hi).
      destruct (IH _ _ _ _ Hrun ltac:(lia) Hready)
        as (tr' & n' & Hout' & Hb' & Hn' & Hfo).
      exists (B ++ tr'), (S n').
      split; [by rewrite Hout', Hout, <- app_assoc|].
      split; [by rewrite banners_app, HbB, Hb'|].
      split; [lia|].
      destruct r as [v| |]; [|done|done]. simpl in *.
      destruct Hfo as [[Hv Hs']|[(-> & Hl & Hs')|(-> & new' & pre' & -> & Hsp & Hi' & Hend)]].
      * left. by rewrite summaries_app, HsB, Hs'.
      * right; left. by rewrite last_app, Hl, summaries_app, HsB, Hs'.
      * right; right. split; [done|]. exists (new ++ new'), (B ++ pre').
        split; [by rewrite He, <- !app_assoc|].
        split; [by rewrite summaries_app, HsB, Hsp|].
        split; [apply (itemised_app ai k 1 n'); [done|by rewrite Nat.add_1_r]|].
        destruct Hend as [->|Hl]; [by left|right]. by rewrite last_app, Hl.
    + rewrite manual_summary_run in Hrun. injection Hrun as <- <-.
      destruct Hturn as (Hturn & Hlt & Hl).
      destruct (turn_errors_itemised ai k _ _ _ Hai Hturn) as (new & He & Hi).
      exists (B ++ [Print (ErrorSummary (errors s1))]), 1%nat. simpl.
      split; [by rewrite Hout, <- app_assoc|].
      split; [by rewrite banners_app, HbB|].
      split; [lia|]. right; right. split; [done|].
      exists new, B. rewrite He. repeat split; auto.
    + injection Hrun as <- <-. exists B, 1%nat.
      split; [done|]. split; [done|]. split; [lia|]. simpl.
      destruct Hturn as [(-> & Hl & _)|Hv]; [right; left|by left].
      repeat split; auto.
    + injection Hrun as <- <-. exists B, 1%nat.
      split; [done|]. split; [done|]. split; [lia|done].
    + injection Hrun as <- <-. exists B, 1%nat.
      split; [done|]. split; [done|]. split; [lia|done].
Qed.

Lemma manual_html_fallback_spec w url max_retries st r st' :
  manual_html_fallback w url max_retries st = (r, st') ->
  exists tr n,
    out st' = out st ++ tr /\ banners tr = seq 1 n /\ (n <= max_retries)%nat /\
    fallback_outcome (negb (is_ready st)) 1 max_retries n [] tr r.
Proof.
  intros Hrun.
  apply (manual_loop_spec w url max_retries (negb (is_ready st))) in Hrun;
    [done|lia|].
  unfold is_ready. simpl. by destruct (client st).
Qed.

Lemma itemised_length first n errs :
  itemised false first n errs = true -> length errs = n.
Proof.
  revert first errs.
  induction n as [|n IH]; intros first [|[k why|k msg] rest]; simpl; try done.
  rewrite andb_true_iff, orb_true_iff. intros [_ [H|H]].
  - f_equal. by apply (IH (S first)).
  - by destruct rest as [|[|] ?].
Qed.
End ManualTier.




(** ** The order of the tiers *)

Section TierOrder.
#[local] Arguments to_dict_records : simpl never.
#[local] Arguments normalize : simpl never.
#[local] Arguments clean : simpl never.
#[local] Arguments len : simpl never.
#[local] Arguments structured_yield : simpl never.
#[local] Arguments ai_yield : simpl never.
#[local] Arguments auto_yield : simpl never.
#[local] Arguments parse_html_to_records : simpl never.
#[local] Arguments parse_with_ai_agent : simpl never.
#[local] Arguments save_debug_html : simpl never.
#[local] Arguments offer_manual : simpl never.
#[local] Arguments store_and_close : simpl never.
#[local] Arguments save_procurement_data_to_convex : simpl never.
#[local] Arguments open_session : simpl never.
#[local] Arguments capture_and_extract : simpl never.

Lemma ai_calls_app tr tr' : ai_calls (tr ++ tr') = ai_calls tr ++ ai_calls tr'.
Proof. apply omap_app. Qed.

Lemma structured_reads_app tr tr' :
  structured_reads (tr ++ tr') = structured_reads tr ++ structured_reads tr'.
Proof. apply omap_app. Qed.

Ltac same_state :=
  unfold after_round; simpl; rewrite <- ?app_assoc; simpl; reflexivity.

(** The AI tier with the client there: one call, on the markup given. *)
Lemma parse_with_ai_agent_run w html url st :
  is_Some (client st) ->
  exists t,
    parse_with_ai_agent w html url st =
    (Ok (ai_yield w html url), after_round st (console st) t) /\
    Forall (fun e => ai_events e = true) t /\
    ai_calls t = [(html, url_value url)].
Proof.
  intros Hc. unfold parse_with_ai_agent, ai_yield.
  unfold bind at 1. rewrite (init_convex_client_ready w st Hc).
  unfold py_get, py_get_or, py_len_of. run.
  destruct (convex_action w html (url_value url)) as [v|e]; simpl.
  2: { rewrite is_Exception_lib. eexists. split; [same_state|].
       split; [repeat constructor|done]. }
  destruct v as [| | | | | |kvs]; simpl;
    try (eexists; split; [same_state|]; split; [repeat constructor|done]).
  destruct (truthy (default PNone (assoc "success" kvs)) &&
            truthy (default PNone (assoc "data" kvs))); simpl.
  2: { eexists; split; [same_state|]; split; [repeat constructor|done]. }
  destruct (py_len (default PNone (assoc "data" kvs))); simpl.
  2: { eexists; split; [same_state|]; split; [repeat constructor|done]. }
  destruct (truthy (default PNone (assoc "notes" kvs))); simpl;
    eexists; (split; [same_state|]); split; by repeat constructor.
Qed.

Lemma debug_trace_no_calls w html url : ai_calls (debug_trace w html url) = [].
Proof. unfold debug_trace. by destruct (file_write w (debug_path w url)). Qed.

Ltac step_ai w html url Hc :=
  match goal with
  | |- context [parse_with_ai_agent w html url ?s] =>
      let t := fresh "t" in
      let Ht := fresh "Ht" in
      let Hcalls := fresh "Hcalls" in
      destruct (parse_with_ai_agent_run w html url s Hc) as (t & -> & Ht & Hcalls);
      simpl
  end.

Ltac calls_leaf :=
  unfold ai_calls in *; simpl; rewrite ?omap_app;
  repeat match goal with H : omap _ _ = _ |- _ => rewrite H end;
  reflexivity.

(** The two automatic tiers with the client there: the structured read comes
    first and once; the AI parser is called after it, once, exactly when the
    structured tier yielded nothing. *)
Lemma parse_html_to_records_run w html url st :
  is_Some (client st) ->
  exists t,
    parse_html_to_records w html url st =
    (Ok (auto_yield w html url),
     after_round st (console st)
       (Print (ParsingDebug (Z.of_nat (String.length html)))
        :: PandasRead Structured html :: t)) /\
    Forall (fun e => after_read_events e = true) t /\
    ai_calls t =
      (if truthy (structured_yield w html) then [] else [(html, url_value url)]).
Proof.
  intros Hc.
  assert (Hd := Forall_impl _ _ _ (debug_trace_events w html url) debug_after_read).
  assert (Hn := debug_trace_no_calls w html url). unfold ai_calls in Hn.
  unfold parse_html_to_records, auto_yield, structured_yield. run.
  destruct (read_html w html) as [[|first rest]|e]; simpl.
  - run_debug w html url. step_ai w html url Hc.
    eexists. split; [same_state|]. split; [forall_events|calls_leaf].
  - destruct (df_empty (clean first)) eqn:He; simpl.
    + run_debug w html url. step_ai w html url Hc.
      eexists. split; [same_state|]. split; [forall_events|calls_leaf].
    + pose proof (clean_records_truthy _ He) as Hx. simpl in Hx. rewrite Hx.
      eexists. split; [same_state|]. split; [forall_events|calls_leaf].
  - destruct e as [m|m]; simpl; run_debug w html url; step_ai w html url Hc;
      (eexists; split; [same_state|]; split; [forall_events|calls_leaf]).
Qed.

(** Storing a batch with the client there: it returns, whatever the sink
    does. *)
Lemma store_and_close_run w link v st :
  is_Some (client st) ->
  exists t,
    store_and_close w link v st = (Ok true, after_round st (console st) t) /\
    Forall (fun e => sink_events e = true) t.
Proof.
  intros Hc. unfold store_and_close, save_procurement_data_to_convex, py_len_of.
  run. rewrite (init_convex_client_ready w st Hc). simpl.
  destruct (py_len v) as [n|]; simpl.
  - fold (payload_of link v n).
    destruct (convex_mutation w (payload_of link v n)) as [r|e]; simpl;
      rewrite ?is_Exception_lib;
      (eexists; split; [same_state|repeat constructor]).
  - eexists; split; [same_state|repeat constructor].
Qed.

Lemma auto_yield_sized w html url :
  truthy (auto_yield w html url) = true ->
  is_Some (py_len (auto_yield w html url)).
Proof.
  unfold auto_yield.
  destruct (truthy (structured_yield w html)) eqn:Hs.
  - intros _. revert Hs. unfold structured_yield.
    destruct (read_html w html) as [[|first rest]|e]; try done.
    destruct (df_empty (clean first)) eqn:He; [done|]. intros _. apply sized_records.
    by apply clean_records_truthy.
  - unfold ai_yield.
    destruct (convex_action w html (url_value url)) as [[| | | | | |kvs]|e];
      try done.
    destruct (truthy (default PNone (assoc "success" kvs)) &&
              truthy (default PNone (assoc "data" kvs))); [|done].
    destruct (py_len (default PNone (assoc "data" kvs))) eqn:Hl; simpl; [|done].
    intros _. rewrite ?Hl. by eexists.
Qed.

Lemma sink_is_late e : sink_events e = true -> late_events e = true.
Proof. revert e. foot_incl. Qed.

Lemma sink_is_not_manual e : sink_events e = true -> manual_tier_event e = false.
Proof. revert e. foot_incl. Qed.

Lemma structured_reads_none tr :
  Forall (fun e => after_read_events e || late_events e = true) tr ->
  structured_reads tr = [].
Proof.
  induction 1 as [|e tr He _ IH]; [done|].
  change (e :: tr) with ([e] ++ tr). rewrite structured_reads_app, IH, app_nil_r.
  by destruct e as [| | | | | | | | | | | | |[] ?| | |].
Qed.

Lemma after_capture_no_reads t post :
  Forall (fun e => after_read_events e = true) t ->
  Forall (fun e => late_events e = true) post ->
  structured_reads (t ++ post) = [].
Proof.
  intros Ht Hp. apply structured_reads_none, Forall_app. split.
  - eapply Forall_impl; [exact Ht|]. by intros e ->.
  - eapply Forall_impl; [exact Hp|]. intros e ->. apply orb_true_r.
Qed.

Ltac step_offer w link u :=
  match goal with
  | |- context [offer_manual w link u ?s] =>
      let F := fresh "F" in
      let t := fresh "t" in
      let Ho := fresh "Ho" in
      let Ft := fresh "Ft" in
      let r := fresh "r" in
      let s' := fresh "s" in
      assert (F := offer_manual_keeps w link u s);
      destruct (offer_manual w link u s) as [r s'];
      destruct F as ([t [Ho Ft]] & _); simpl in Ho |- *
  end.

Ltac late_forall :=
  repeat first
    [ assumption
    | apply Forall_nil_2
    | apply Forall_app; split
    | eapply Forall_impl; [eassumption | exact sink_is_late]
    | apply Forall_cons_2; [reflexivity|] ].

Ltac order_leaf h t post :=
  exists (capture_round h t post); split;
  [ unfold capture_round;
    repeat match goal with H : out _ = _ |- _ => rewrite H end;
    rewrite <- ?app_assoc; simpl; rewrite <- ?app_assoc; reflexivity
  | exists t, post;
    assert (Forall (fun e => late_events e = true) post) by late_forall;
    split; [reflexivity|]; split; [assumption|]; split; [assumption|];
    split; [assumption|]; split; [by apply after_capture_no_reads|] ].

Lemma capture_and_extract_order w link u st :
  is_Some (client st) ->
  exists rest,
    out (snd (capture_and_extract w link u st)) = out st ++ rest /\
    tier_order w u rest.
Proof.
  intros Hc. unfold capture_and_extract, tier_order. rewrite deliver_first.
  destruct (head (page_hook_calls w u)) as [h|]; unfold await, py_len_of; run.
  2: { by exists [AwaitCapture]. }
  match goal with
  | |- context [parse_html_to_records w h (Some u) ?s] =>
      destruct (parse_html_to_records_run w h (Some u) s Hc) as (t & -> & Ht & Hcalls)
  end.
  simpl.
  destruct (truthy (auto_yield w h (Some u))) eqn:Hy; simpl.
  - destruct (auto_yield_sized _ _ _ Hy) as [n Hn]. rewrite Hn. simpl.
    set (v := auto_yield w h (Some u)) in *.
    destruct (pd_DataFrame w v) as [[]|e1] eqn:Hdf; simpl.
    + destruct (to_markdown w v) as [[]|e2] eqn:Hmd; simpl.
      * match goal with
        | |- context [store_and_close w link ?v ?s] =>
            destruct (store_and_close_run w link v s Hc) as (ts & -> & Hts)
        end.
        simpl.
        order_leaf h t ([Print (ParsedRows n); Print SampleHeader;
                         Print (DataSample v)] ++ ts).
        intros _ _. repeat (apply Forall_cons_2; [reflexivity|]).
        eapply Forall_impl; [exact Hts|exact sink_is_not_manual].
      * rewrite is_Exception_lib. simpl. step_offer w link u.
        set (failed := [Print (ParsedRows n); Print SampleHeader;
                        Print (SelectionError (exn_text (exn_of_lib e2)));
                        Print CaptureErrorOccurred]).
        destruct r as [[b|]|e'|]; simpl.
        -- order_leaf h t (failed ++ t0). intros _ [_ Hp]. congruence.
        -- order_leaf h t (failed ++ t0 ++ [PageClose]). intros _ [_ Hp]. congruence.
        -- order_leaf h t (failed ++ t0). intros _ [_ Hp]. congruence.
        -- order_leaf h t (failed ++ t0). intros _ [_ Hp]. congruence.
    + rewrite is_Exception_lib. simpl. step_offer w link u.
      set (failed := [Print (ParsedRows n);
                      Print (SelectionError (exn_text (exn_of_lib e1)));
                      Print CaptureErrorOccurred]).
      destruct r as [[b|]|e'|]; simpl.
      * order_leaf h t (failed ++ t0). intros _ [Hp _]. congruence.
      * order_leaf h t (failed ++ t0 ++ [PageClose]). intros _ [Hp _]. congruence.
      * order_leaf h t (failed ++ t0). intros _ [Hp _]. congruence.
      * order_leaf h t (failed ++ t0). intros _ [Hp _]. congruence.
  - step_offer w link u. destruct r as [[b|]|e|]; simpl.
    + order_leaf h t (Print AutoParseFailed :: t0). done.
    + order_leaf h t (Print AutoParseFailed :: t0 ++ [Print NoDataParsed; PageClose]).
      done.
    + destruct (is_Exception e); simpl.
      * step_offer w link u.
        set (again := [Print (SelectionError (exn_text e)); Print CaptureErrorOccurred]).
        destruct r as [[b|]|e'|]; simpl.
        -- order_leaf h t (Print AutoParseFailed :: t0 ++ again ++ t1). done.
        -- order_leaf h t (Print AutoParseFailed :: t0 ++ again ++ t1 ++ [PageClose]).
           done.
        -- order_leaf h t (Print AutoParseFailed :: t0 ++ again ++ t1). done.
        -- order_leaf h t (Print AutoParseFailed :: t0 ++ again ++ t1). done.
      * order_leaf h t (Print AutoParseFailed :: t0). done.
    + order_leaf h t (Print AutoParseFailed :: t0). done.
Qed.

Lemma session_no_reads pre :
  Forall (fun e => session_events e = true) pre -> structured_reads pre = [].
Proof.
  induction 1 as [|e tr He _ IH]; [done|].
  change (e :: tr) with ([e] ++ tr). rewrite structured_reads_app, IH, app_nil_r.
  by destruct e as [| | | | | | | | | | | | |[] ?| | |].
Qed.

Lemma tier_order_reads w u rest :
  tier_order w u rest -> (length (structured_reads rest) <= 1)%nat.
Proof.
  unfold tier_order. destruct (head (page_hook_calls w u)) as [h|].
  - intros (t & post & -> & _ & _ & _ & Hr & _). unfold capture_round.
    rewrite structured_reads_app, Hr. simpl. lia.
  - intros ->. simpl. lia.
Qed.

Lemma process_link_order w link index total st :
  is_Some (client st) ->
  exists pre rest,
    out (snd (process_link w link index total st)) = out st ++ pre ++ rest /\
    Forall (fun e => session_events e = true) pre /\
    (rest = [] \/
     tier_order w (url_text (link_get link "procurementLink")) rest).
Proof.
  intros Hc. unfold process_link.
  destruct (truthy (link_get link "procurementLink")); simpl.
  2: { exists [Print NoUrl], []. split; [done|]. split; [by repeat constructor|by left]. }
  unfold get_wait_strategy.
  destruct (link_get link "procurementLink") as [| | | |u| |]; simpl;
    try (run; exists [Print (Processing index total "")], [];
         split; [done|]; split; [by repeat constructor|by left]).
  run.
  destruct (contains "opengov" (lower u)); simpl;
    match goal with
    | |- context [open_session w u ?ws ?s] =>
        assert (F := open_session_keeps eq w u ws s);
        destruct (open_session w u ws s) as [r s2];
        destruct F as ((t2 & Ho2 & Ft2) & _ & Hcl & _); simpl in Ho2, Hcl
    end;
    (assert (Hc2 : is_Some (client s2))
       by (destruct Hcl as [->|Hn]; [done|]; rewrite Hn in Hc; by destruct Hc));
    (assert (Hpre : exists pre,
               out s2 = out st ++ pre /\
               Forall (fun e => session_events e = true) pre)
       by (eexists; split;
           [ rewrite Ho2, <- ?app_assoc; reflexivity
           | repeat first [ assumption
                          | apply Forall_app; split
                          | apply Forall_cons_2; [reflexivity|]
                          | apply Forall_nil_2 ] ]));
    destruct Hpre as (pre & Hpre & Fpre);
    (destruct r as [[|]|e|]; simpl;
       [ destruct (capture_and_extract_order w link u s2 Hc2) as (rest & -> & Hord);
         rewrite Hpre; exists pre, rest; split; [by rewrite app_assoc|];
         split; [done|by right]
       | rewrite Hpre; exists pre, []; split; [by rewrite app_nil_r|];
         split; [done|by left] ..]).
Qed.
End TierOrder.

(** [main] fetches the links before it processes any of them, and fetching
    them connects the client: every capture happens with the client there. *)
Lemma fetching_links_connects_client w st links st' :
  get_links_from_convex w st = (Ok links, st') -> is_Some (client st').
Proof.
  unfold get_links_from_convex, init_convex_client. run.
  destruct (client st) as [c|] eqn:Hc; simpl.
  - destruct (convex_query w); simpl; intros [= <- <-]; simpl.
    rewrite Hc. by eexists.
  - destruct (env_convex_url w) as [[|a r]|]; simpl; try done.
    destruct (convex_query w); simpl; intros [= <- <-]; simpl. by eexists.
Qed.




(** * Further properties *)

(** ** Pages and uploads of one link *)

Lemma tally_app p tr tr' : tally p (tr ++ tr') = (tally p tr + tally p tr')%nat.
Proof. unfold tally. by rewrite List.filter_app, length_app. Qed.

Lemma mutations_app tr tr' : mutations (tr ++ tr') = mutations tr ++ mutations tr'.
Proof. apply omap_app. Qed.

Lemma quiet_trace tr :
  Forall (fun e => quiet_event e = true) tr ->
  opened tr = 0%nat /\ closed tr = 0%nat /\ mutations tr = [].
Proof.
  induction 1 as [|e tr He _ (IHo & IHc & IHm)]; [done|].
  change (e :: tr) with ([e] ++ tr).
  unfold opened, closed in *. rewrite !tally_app, mutations_app, IHo, IHc, IHm.
  by destruct e.
Qed.

Lemma stealth_trace_quiet w : Forall (fun e => quiet_event e = true) (stealth_trace w).
Proof.
  unfold stealth_trace. destruct (stealth_available w); [|constructor].
  destruct (stealth_async w) as [[]|[m|m]]; repeat constructor.
Qed.

Lemma stealth_trace_ledger w :
  tally is_new_page (stealth_trace w) = 0%nat /\
  tally is_page_close (stealth_trace w) = 0%nat /\
  mutations (stealth_trace w) = [].
Proof. apply quiet_trace, stealth_trace_quiet. Qed.

Ltac ledger_counts w :=
  unfold opened, closed;
  destruct (stealth_trace_ledger w) as (? & ? & ?);
  rewrite ?tally_app, ?mutations_app;
  repeat match goal with
         | H : tally _ _ = _ |- _ => rewrite H
         | H : mutations _ = _ |- _ => rewrite H
         end;
  simpl; try done; try lia.

Ltac ledger_leaf w :=
  intros [= <- <-]; eexists;
  split; [simpl; rewrite <- ?app_assoc; reflexivity|];
  ledger_counts w.

Ltac world_case :=
  match goal with
  | |- context [match console ?s with _ => _ end] =>
      let l := fresh "l" in
      let rest := fresh "rest" in
      destruct (console s) as [|[l|] rest]; simpl
  | |- context [match ?o with Returns _ => _ | Fails _ => _ end] =>
      let e := fresh "e" in
      destruct o as [?|e]; simpl; rewrite ?is_Exception_lib; simpl
  | |- context [if String.eqb ?a ?b then _ else _] =>
      destruct (String.eqb a b); simpl
  | |- context [match page_verification ?w ?u with _ => _ end] =>
      destruct (page_verification w u); simpl
  end.

(** What [open_session] does to the page: it opens one, and closes it
    exactly when it answers [False]. *)
Lemma open_session_ledger w u ws st r st' :
  open_session w u ws st = (r, st') ->
  exists tr,
    out st' = out st ++ tr /\
    opened tr = 1%nat /\
    closed tr = match r with Ok false => 1%nat | _ => 0%nat end /\
    mutations tr = [].
Proof.
  unfold open_session, check_for_verification, diagnose_detection, input.
  run. rewrite apply_stealth_run. simpl.
  repeat world_case; ledger_leaf w.
Qed.


Lemma manual_is_quiet e : manual_events e = true -> quiet_event e = true.
Proof. revert e. foot_incl. Qed.

Lemma auto_is_quiet e : auto_events e = true -> quiet_event e = true.
Proof. revert e. foot_incl. Qed.


Lemma silent_nil : silent [].
Proof. done. Qed.

Lemma silent_app tr tr' : silent tr -> silent tr' -> silent (tr ++ tr').
Proof.
  unfold silent, opened, closed. intros (Ho & Hc & Hm) (Ho' & Hc' & Hm').
  by rewrite !tally_app, mutations_app, Ho, Hc, Hm, Ho', Hc', Hm'.
Qed.

Lemma silent_cons e tr : quiet_event e = true -> silent tr -> silent (e :: tr).
Proof.
  intros He Ht. apply (silent_app [e] tr); [|done].
  apply quiet_trace. by constructor.
Qed.

Lemma ledger_frame {A} stored closes link (r : Res A) pre tr post :
  silent pre -> silent post ->
  ledger stored closes link r tr ->
  ledger stored closes link r (pre ++ tr ++ post).
Proof.
  unfold silent, ledger, uploads_batch, opened, closed.
  intros (_ & Hc & Hm) (_ & Hc' & Hm').
  rewrite !tally_app, !mutations_app, Hc, Hc', Hm, Hm', app_nil_r. simpl.
  rewrite Nat.add_0_r. done.
Qed.

Lemma opened_frame pre tr post :
  silent pre -> silent post -> opened (pre ++ tr ++ post) = opened tr.
Proof.
  unfold silent, opened. intros (Ho & _) (Ho' & _).
  rewrite !tally_app, Ho, Ho'. lia.
Qed.

Ltac silence :=
  repeat first
    [ assumption
    | apply silent_nil
    | apply silent_app
    | apply silent_cons; [reflexivity|]
    | apply quiet_trace; assumption
    | apply quiet_trace; eapply Forall_impl;
        [eassumption | first [exact manual_is_quiet | exact auto_is_quiet]] ].

Section Ledger.
#[local] Arguments parse_html_to_records : simpl never.
#[local] Arguments manual_html_fallback : simpl never.
#[local] Arguments store_and_close : simpl never.
#[local] Arguments offer_manual : simpl never.
#[local] Arguments open_session : simpl never.
#[local] Arguments capture_and_extract : simpl never.
#[local] Arguments payload_of : simpl never.
#[local] Arguments truthy : simpl never.
#[local] Arguments py_len : simpl never.

(** Storing a batch whose length is known: the batch is written and the
    page closed, unless the client cannot be built. *)
Lemma store_and_close_ledger w link v n st r st' :
  py_len v = Some n -> truthy v = true ->
  store_and_close w link v st = (r, st') ->
  exists tr,
    out st' = out st ++ tr /\ opened tr = 0%nat /\
    ledger (fun b : bool => b) (fun _ => 0%nat) link r tr /\
    r <> Ok false.
Proof.
  intros Hn Hv.
  unfold store_and_close, save_procurement_data_to_convex, py_len_of,
    init_convex_client, set_client, ledger, uploads_batch.
  rewrite Hn. fold (payload_of link v n). run.
  destruct (client st); [|destruct (env_convex_url w) as [[|c u]|]]; simpl.
  all: repeat world_case; intros [= <- <-]; eexists;
    (split; [simpl; rewrite <- ?app_assoc; reflexivity|]);
    (split; [done|]); simpl; (split; [|done]); try done;
    (split; [done|]); by exists v, n.
Qed.

Lemma offer_manual_ledger w link u st r st' :
  offer_manual w link u st = (r, st') ->
  exists tr,
    out st' = out st ++ tr /\ opened tr = 0%nat /\
    ledger stored_by_offer (fun _ => 0%nat) link r tr /\
    r <> Ok (Some false).
Proof.
  unfold offer_manual, input, py_len_of. run.
  destruct (console st) as [|[l|] rest]; simpl.
  1,3: intros [= <- <-]; exists [Prompt PasteManually]; by rewrite <- ?app_assoc.
  destruct (String.eqb (lower (strip l)) "y"); simpl.
  2: { intros [= <- <-]. by exists [Prompt PasteManually]. }
  match goal with
  | |- context [manual_html_fallback w (Some u) 3 ?s] =>
      assert (F := manual_html_fallback_keeps w (Some u) 3 s);
      destruct (manual_html_fallback w (Some u) 3 s) as [r1 s1];
      destruct F as ([t [Ho Ft]] & _); simpl in Ho |- *
  end.
  destruct r1 as [v|e|]; simpl.
  2,3: intros [= <- <-]; exists (Prompt PasteManually :: t);
    (split; [by rewrite Ho, <- app_assoc|]);
    (assert (Hs : silent (Prompt PasteManually :: t)) by silence);
    destruct Hs as (? & ? & ?); done.
  assert (Hs : silent (Prompt PasteManually :: t)) by silence.
  destruct (truthy v) eqn:Hv; simpl.
  2: { intros [= <- <-]. exists (Prompt PasteManually :: t).
       split; [by rewrite Ho, <- app_assoc|]. by destruct Hs as (? & ? & ?). }
  destruct (py_len v) as [n|] eqn:Hn; simpl.
  2: { intros [= <- <-]. exists (Prompt PasteManually :: t).
       split; [by rewrite Ho, <- app_assoc|]. by destruct Hs as (? & ? & ?). }
  match goal with
  | |- context [store_and_close w link v ?s] =>
      destruct (store_and_close w link v s) as [r2 s2] eqn:Hst;
      apply (store_and_close_ledger w link v n) in Hst as (ts & Hos & Hop & Hl & Hb);
      [|done..]
  end.
  simpl in Hos.
  assert (Hout : out s2 =
            out st ++ (Prompt PasteManually :: t ++ [Print (ParsedRowsManual n)])
                   ++ ts ++ []).
  { rewrite Hos, Ho, app_nil_r. simpl. by rewrite <- !app_assoc. }
  assert (Hpre : silent (Prompt PasteManually :: t ++ [Print (ParsedRowsManual n)]))
    by silence.
  destruct r2 as [b|e|]; intros [= <- <-]; eexists; (split; [exact Hout|]);
    (split; [rewrite opened_frame; [done|silence..]|]);
    (split; [apply (ledger_frame _ _ _ _ _ ts []); try silence; try done|]);
    congruence.
Qed.

Ltac step_offer_ledger w link u :=
  match goal with
  | |- context [offer_manual w link u ?s] =>
      let r := fresh "r" in
      let s' := fresh "s" in
      let H := fresh "Hof" in
      let tr := fresh "to" in
      let Ho := fresh "Hout" in
      let Hop := fresh "Hop" in
      let Hl := fresh "Hled" in
      let Hn := fresh "Hne" in
      destruct (offer_manual w link u s) as [r s'] eqn:H;
      apply offer_manual_ledger in H as (tr & Ho & Hop & Hl & Hn);
      simpl in Ho |- *
  end.

Lemma tally_cons p e tr :
  tally p (e :: tr) = ((if p e then 1 else 0) + tally p tr)%nat.
Proof. unfold tally. simpl. by destruct (p e). Qed.

Lemma tally_nil p : tally p [] = 0%nat.
Proof. done. Qed.

Lemma mutations_cons e tr :
  mutations (e :: tr) =
  match e with ConvexMutation p => [p] | _ => [] end ++ mutations tr.
Proof. by destruct e. Qed.

Lemma mutations_nil : mutations [] = [].
Proof. done. Qed.

Ltac ledger_facts :=
  unfold silent, ledger, uploads_batch, opened, closed, stored_by_offer in *;
  repeat match goal with
         | b : bool |- _ => destruct b
         | o : option bool |- _ => destruct o
         end;
  simpl in * |-; cbn beta iota;
  repeat match goal with
         | H : _ /\ _ |- _ => destruct H
         | H : exists _, _ |- _ => destruct H
         end.

Ltac ledger_close :=
  eexists;
  split;
  [ simpl;
    repeat match goal with H : out _ = _ |- _ => rewrite H end;
    rewrite <- ?app_assoc; reflexivity
  | ledger_facts;
    repeat rewrite ?tally_app, ?tally_cons, ?tally_nil,
                   ?mutations_app, ?mutations_cons, ?mutations_nil;
    repeat match goal with
           | H : tally _ _ = _ |- _ => rewrite H
           | H : mutations _ = _ |- _ => rewrite H
           end;
    simpl;
    repeat split; try done; try lia; try congruence; eauto ].

Ltac finish_offer w link u :=
  step_offer_ledger w link u;
  match goal with
  | |- match ?x with _ => _ end = _ -> _ => destruct x as [[?|]|?|]; simpl
  end;
  intros [= <- <-]; ledger_close.

Lemma capture_and_extract_ledger w link u st r st' :
  capture_and_extract w link u st = (r, st') ->
  exists tr,
    out st' = out st ++ tr /\ opened tr = 0%nat /\
    ledger (fun b : bool => b) (fun _ => 1%nat) link r tr.
Proof.
  unfold capture_and_extract. rewrite deliver_first.
  destruct (head (page_hook_calls w u)) as [h|]; unfold await, py_len_of; run.
  2: { intros [= <- <-]. by exists [AwaitCapture]. }
  match goal with
  | |- context [parse_html_to_records w h (Some u) ?s] =>
      assert (F := parse_html_to_records_keeps eq w h (Some u) s);
      destruct (parse_html_to_records w h (Some u) s) as [r0 s0];
      destruct F as ([t [Ho Ft]] & _); simpl in Ho |- *
  end.
  assert (Hsil : silent t) by silence. clear Ft.
  destruct r0 as [v|e|]; simpl.
  - destruct (truthy v) eqn:Hv; simpl.
    + destruct (py_len v) as [n|] eqn:Hn; simpl; [|finish_offer w link u].
      destruct (pd_DataFrame w v) as [[]|e1]; simpl;
        [|rewrite is_Exception_lib; simpl; finish_offer w link u].
      destruct (to_markdown w v) as [[]|e2]; simpl;
        [|rewrite is_Exception_lib; simpl; finish_offer w link u].
      match goal with
      | |- context [store_and_close w link v ?s] =>
          destruct (store_and_close w link v s) as [r2 s2] eqn:Hst;
          apply (store_and_close_ledger w link v n) in Hst
            as (ts & Hos & Hop & Hl & Hb); [|done..]
      end.
      simpl in Hos.
      destruct r2 as [b|e|]; simpl.
      * intros [= <- <-]. ledger_close.
      * destruct (is_Exception e); simpl;
          [finish_offer w link u | intros [= <- <-]; ledger_close].
      * intros [= <- <-]. ledger_close.
    + step_offer_ledger w link u.
      destruct r0 as [[b|]|e|]; simpl;
        [intros [= <- <-]; ledger_close..| |intros [= <- <-]; ledger_close].
      destruct (is_Exception e); simpl;
        [finish_offer w link u | intros [= <- <-]; ledger_close].
  - destruct (is_Exception e); simpl;
      [finish_offer w link u | intros [= <- <-]; ledger_close].
  - intros [= <- <-]. ledger_close.
Qed.

Lemma process_link_ledger w link index total st r st' :
  process_link w link index total st = (r, st') ->
  exists tr,
    out st' = out st ++ tr /\
    (opened tr <= 1)%nat /\ (closed tr <= opened tr)%nat /\
    match r with
    | Ok true => closed tr = opened tr /\ uploads_batch link tr
    | Ok false => closed tr = opened tr /\ mutations tr = []
    | Raise _ | Hang => mutations tr = []
    end.
Proof.
  unfold process_link.
  destruct (truthy (link_get link "procurementLink")); simpl.
  2: { run. intros [= <- <-]. ledger_close. }
  unfold get_wait_strategy.
  destruct (link_get link "procurementLink") as [| | | |u| |]; simpl;
    try (run; intros [= <- <-]; ledger_close).
  run.
  destruct (contains "opengov" (lower u)); simpl;
    match goal with
    | |- context [open_session w u ?ws ?s] =>
        destruct (open_session w u ws s) as [r1 s1] eqn:Hos;
        apply open_session_ledger in Hos as (t1 & Ho1 & Hop1 & Hcl1 & Hm1);
        simpl in Ho1
    end;
    (destruct r1 as [[|]|e|]; simpl;
       [ destruct (capture_and_extract w link u s1) as [r2 s2] eqn:Hce;
         apply capture_and_extract_ledger in Hce as (t2 & Ho2 & Hop2 & Hl2);
         intros [= <- <-]; destruct r2 as [[|]|?|]
       | intros [= <- <-] ..]);
    ledger_close.
Qed.
End Ledger.

(** X1. Whenever [process_link] returns, every page it opened has been
    closed, and exactly once: it opens at most one page, never closes more
    pages than it opened, and on [True] or [False] as many. *)
Theorem pages_are_closed_on_return w link index total st r st' :
  process_link w link index total st = (r, st') ->
  exists tr,
    out st' = out st ++ tr /\
    (closed tr <= opened tr <= 1)%nat /\
    (forall b, r = Ok b -> closed tr = opened tr).
Proof.
  intros Hrun.
  destruct (process_link_ledger _ _ _ _ _ _ _ Hrun) as (tr & Hout & Ho & Hc & Hr).
  exists tr. split; [done|]. split; [lia|].
  intros b ->. by destruct b, Hr.
Qed.

Lemma pages_are_closed_witness :
  let st := ready_state [Line ""] in
  let run := process_link sample_world texas_link 0 3 st in
  fst run = Ok true /\
  exists tr,
    out (snd run) = out st ++ tr /\
    (closed tr <= opened tr <= 1)%nat /\
    (forall b, fst run = Ok b -> closed tr = opened tr).
Proof.
  intros st run. split; [vm_compute; reflexivity|].
  apply (pages_are_closed_on_return sample_world texas_link 0 3 st (fst run) (snd run)).
  vm_compute. reflexivity.
Defined.

(** X2. The answer of [process_link] tells whether a write to the sink was
    attempted. On [True] the trace holds exactly one write: a batch that is
    not empty, filed under the link's own id, state and URL, whose
    [rowCount] is the length of its data. On [False], on an exception and
    while the capture is awaited, nothing was written. *)
Theorem answer_tells_what_was_uploaded w link index total st r st' :
  process_link w link index total st = (r, st') ->
  exists tr,
    out st' = out st ++ tr /\
    match r with
    | Ok true => uploads_batch link tr
    | Ok false | Raise _ | Hang => mutations tr = []
    end.
Proof.
  intros Hrun.
  destruct (process_link_ledger _ _ _ _ _ _ _ Hrun) as (tr & Hout & _ & _ & Hr).
  exists tr. split; [done|]. by destruct r as [[|]|e|], Hr.
Qed.

Lemma answer_tells_what_was_uploaded_witness :
  let st := ready_state [Line ""] in
  let run := process_link sample_world texas_link 0 3 st in
  exists tr,
    out (snd run) = out st ++ tr /\
    match fst run with
    | Ok true => uploads_batch texas_link tr
    | Ok false | Raise _ | Hang => mutations tr = []
    end.
Proof.
  intros st run.
  apply (answer_tells_what_was_uploaded sample_world texas_link 0 3 st
           (fst run) (snd run)).
  vm_compute. reflexivity.
Defined.

(** ** The main loop *)

Lemma main_unfold w :
  main w =
  (fetched <- fetch_links w;;
   match fetched with
   | inl code => ret (Some code)
   | inr links => run_session w links
   end).
Proof. reflexivity. Qed.

(** Links whose URL is a text or absent can all be listed. *)
Lemma listing_of_text_urls links :
  Forall url_absent_or_text links -> listing_failure links = None.
Proof.
  unfold listing_failure.
  induction 1 as [|link links Hl _ IH]; [done|]. simpl.
  assert (Hd : display_url_error
                 (link_get_or link "procurementLink" (PStr "N/A")) = None).
  { unfold url_absent_or_text, link_get, link_get_or in *.
    destruct Hl as [->|Hs]; [done|].
    by destruct (link !! "procurementLink") as [[]|]. }
  rewrite Hd. destruct (listed_rows links) as [k r]. simpl in *. done.
Qed.

Lemma safe_display_link_menu links cur :
  listing_failure links = None -> safe anything (display_link_menu links cur).
Proof.
  intros Hl st Hc. unfold display_link_menu.
  pose proof (link_menu_failure links cur) as Hf. rewrite Hl in Hf.
  destruct (link_menu links cur) as [shown failure]. simpl in *. by subst.
Qed.

Lemma safe_get_user_selection_range links cur :
  1 <= len links -> valid_position links cur ->
  listing_failure links = None ->
  safe (in_queue links) (get_user_selection links cur).
Proof.
  intros Hn Hcur Hlist. apply safe_on_console. intros con.
  assert (H := user_selection_loop_range links cur con Hn Hcur).
  destruct (fst (fst (user_selection_loop links cur con))) as [[|k]|e|]; try done.
  simpl in H. unfold console_exn. destruct H as [H|[H|H]]; auto. congruence.
Qed.

Lemma safe_get_post_scrape_action_range links cur :
  1 <= len links -> 0 <= cur < len links ->
  listing_failure links = None ->
  safe (in_queue links) (get_post_scrape_action links cur).
Proof.
  intros Hn Hcur Hlist. apply safe_on_console. intros con.
  assert (H := post_scrape_loop_range links cur Hn Hcur con).
  destruct (fst (fst (post_scrape_loop links cur con))) as [[|k]|e|]; try done.
  simpl in H. unfold console_exn. destruct H as [H|[H|H]]; auto. congruence.
Qed.

Lemma py_index_valid (links : list Link) k :
  0 <= k < len links ->
  exists link, py_index links k = Some link /\ elem_of link links.
Proof.
  intros Hk. unfold py_index.
  destruct (Z.leb_spec 0 k) as [_|]; [|lia].
  destruct (lookup_lt_is_Some_2 links (Z.to_nat k)) as [link Hl].
  { unfold len in Hk. lia. }
  exists link. split; [done|]. by eapply list_elem_of_lookup_2.
Qed.

Lemma safe_main_loop w links turns :
  1 <= len links -> Forall text_or_no_url links ->
  listing_failure links = None ->
  forall cur, 0 <= cur < len links ->
  safe anything (main_loop w links turns cur).
Proof.
  intros Hn Hu Hlist. induction turns as [|n IH]; intros cur Hcur; cbn [main_loop].
  - by apply safe_ret.
  - destruct (py_index_valid links cur Hcur) as (link & Hl & Hin).
    apply (safe_bind (in_queue links)).
    + unfold main_turn. rewrite Hl.
      eapply safe_bind; [|intros _ _; by apply safe_get_post_scrape_action_range].
      apply safe_process_link. rewrite Forall_forall in Hu. by apply Hu.
    + intros [|k] Hk; [repeat safe_step|]. by apply IH.
Qed.

(** The first [try] of [main] never raises: it gives an exit code, or links
    that are not empty together with a client that is connected. *)
Lemma fetch_links_spec w st :
  match fetch_links w st with
  | (Ok (inl code), st1) =>
      console st1 = console st /\
      ((code = 0 /\ fst (get_links_from_convex w st) = Ok []) \/
       (code = 1 /\ exists e, fst (get_links_from_convex w st) = Raise e))
  | (Ok (inr links), st1) =>
      is_Some (client st1) /\ convex_query w = Returns links /\ 1 <= len links /\
      fst (get_links_from_convex w st) = Ok links
  | _ => False
  end.
Proof.
  unfold fetch_links, get_links_from_convex, init_convex_client, set_client. run.
  destruct (client st) as [c|] eqn:Hc; simpl.
  - destruct (convex_query w) as [[|link links]|e]; simpl;
      rewrite ?is_Exception_lib; simpl; rewrite ?Hc;
      first [ by split; [done|]; left
            | by split; [done|]; right; split; [|eexists]
            | repeat split; [by eexists | unfold len; simpl; lia] ].
  - destruct (env_convex_url w) as [[|a r]|]; simpl;
      try (by split; [done|]; right; split; [|eexists]).
    destruct (convex_query w) as [[|link links]|e]; simpl;
      rewrite ?is_Exception_lib; simpl;
      first [ by split; [done|]; left
            | by split; [done|]; right; split; [|eexists]
            | repeat split; [by eexists | unfold len; simpl; lia] ].
Qed.

Lemma safe_run_session w links :
  1 <= len links -> Forall text_or_no_url links ->
  listing_failure links = None ->
  safe (fun code => code = Some 0 \/ code = None) (run_session w links).
Proof.
  intros Hn Hu Hlist. unfold run_session.
  eapply safe_bind; [by apply safe_display_link_menu|intros _ _].
  eapply safe_bind; [by apply safe_get_user_selection_range|].
  intros [|k] Hk.
  - eapply safe_bind; [apply safe_print|intros _ _]. apply safe_ret. by left.
  - eapply safe_bind; [apply safe_emit|intros _ _].
    eapply (safe_bind anything);
      [destruct (browser_has_page w); [apply safe_apply_stealth|by apply safe_ret]|].
    intros _ _. eapply (safe_bind anything).
    + intros st Hc. by apply safe_main_loop.
    + intros [[]|] _; [|apply safe_ret; by right].
      eapply safe_bind; [apply safe_emit|intros _ _]. apply safe_ret. by left.
Qed.

Lemma get_links_outcome w st :
  match get_links_from_convex w st with
  | (Ok _, s) => console s = console st
  | (Raise e, s) => is_Exception e = true /\ console s = console st
  | (Hang, _) => False
  end.
Proof.
  unfold get_links_from_convex, init_convex_client, set_client. run.
  destruct (client st) as [c|]; [|destruct (env_convex_url w) as [[|a r]|]];
    simpl; try done;
    destruct (convex_query w) as [links|e]; simpl; try done;
    by rewrite is_Exception_lib.
Qed.

Lemma fetch_links_run w st :
  match get_links_from_convex w st with
  | (Ok [], s) =>
      fetch_links w st =
      (Ok (inl 0),
       after_round s (console st) [Print (LoadedLinks 0); Print NoApprovedLinks])
  | (Ok links, s) =>
      fetch_links w st =
      (Ok (inr links), after_round s (console st) [Print (LoadedLinks (len links))])
  | (Raise e, s) =>
      fetch_links w st =
      (Ok (inl 1), after_round s (console st) [Print (FetchError (exn_text e))])
  | (Hang, _) => False
  end.
Proof.
  assert (H := get_links_outcome w st).
  unfold fetch_links, try_except, bind.
  destruct (get_links_from_convex w st) as [[[|link links]|e|] s]; simpl in *.
  - unfold after_round. rewrite <- H, <- app_assoc. done.
  - unfold after_round. by rewrite <- H.
  - destruct H as [Hx H]. unfold except_Exception. rewrite Hx. simpl.
    unfold after_round. by rewrite <- H.
  - done.
Qed.

Lemma run_session_code w links st code :
  fst (run_session w links st) = Ok code -> code = Some 0 \/ code = None.
Proof.
  unfold run_session, bind.
  destruct (display_link_menu links None st) as [[[]|e|] s1]; simpl; try done.
  destruct (get_user_selection links None s1) as [[[|k]|e|] s2]; simpl; try done.
  { intros [= ?]; subst. by left. }
  destruct ((if browser_has_page w then apply_stealth w else ret tt) _)
    as [[?|?|] s3]; simpl; try done.
  destruct (main_loop w links (S (length (console s3))) k s3)
    as [[[[]|]|e|] s4]; simpl; try done;
    intros [= ?]; subst; auto.
Qed.

Lemma url_absent_or_text_ok link : url_absent_or_text link -> text_or_no_url link.
Proof.
  intros [H|H]; [left|by right].
  unfold has_no_url, link_get. by rewrite H.
Qed.


Lemma sample_queue_of_text_urls : queue_of_text_urls sample_world.
Proof.
  intros links [= <-]. unfold sample_links.
  apply Forall_cons_2; [right; vm_compute; reflexivity|].
  apply Forall_cons_2; [right; vm_compute; reflexivity|].
  apply Forall_cons_2; [left; vm_compute; reflexivity|].
  apply Forall_nil_2.
Qed.


Lemma main_loop_S w links n cur :
  main_loop w links (S n) cur =
  (action <- main_turn w links cur;;
   match action with
   | Quit => print Goodbye;; ret (Some tt)
   | Goto new_index => main_loop w links n new_index
   end).
Proof. reflexivity. Qed.

(** X4. Every turn of the loop of [main] that comes to its end has read at
    least one line from the operator; so the loop makes at most as many
    turns as there are lines to read, and any bound above that number gives
    the same run. *)
Theorem every_turn_reads_the_console w links :
  (forall cur st a st',
     main_turn w links cur st = (Ok a, st') ->
     (length (console st') < length (console st))%nat) /\
  (forall n m cur st,
     (length (console st) < n)%nat -> (length (console st) < m)%nat ->
     main_loop w links n cur st = main_loop w links m cur st).
Proof.
  assert (Hturn : forall cur st a st',
     main_turn w links cur st = (Ok a, st') ->
     (length (console st') < length (console st))%nat).
  { intros cur st a st' Hrun.
    assert (H := main_turn_consumes w links cur st a).
    rewrite Hrun in H. by apply H. }
  split; [exact Hturn|].
  induction n as [|n IH]; intros m cur st Hn Hm; [lia|].
  destruct m as [|m]; [lia|]. rewrite !main_loop_S. unfold bind.
  destruct (main_turn w links cur st) as [[[|k]|e|] st1] eqn:Hrun; try done.
  apply Hturn in Hrun. apply IH; lia.
Qed.

Lemma every_turn_reads_the_console_witness :
  let st := ready_state [Line ""; Line "q"] in
  (length (console (snd (main_turn sample_world sample_links 0 st)))
   < length (console st))%nat /\
  main_loop sample_world sample_links 3 0 st =
  main_loop sample_world sample_links 7 0 st.
Proof.
  intros st.
  destruct (every_turn_reads_the_console sample_world sample_links) as [H1 H2].
  split.
  - apply (H1 0 st Quit). vm_compute. reflexivity.
  - apply H2; simpl; lia.
Defined.

(** X5. The exit code of [main] tells whether the links came. When fetching
    them raises, for want of a configured URL or because the query fails,
    [main] reports it and returns 1; when the queue is empty it says so and
    returns 0; in both cases nothing is read from the console, no menu is
    shown and no browser is launched. Once links came, [main] never returns
    1. *)
Theorem exit_code_tells_whether_links_came w st :
  match get_links_from_convex w st with
  | (Raise e, s) =>
      main w st =
      (Ok (Some 1), after_round s (console st) [Print (FetchError (exn_text e))])
  | (Ok [], s) =>
      main w st =
      (Ok (Some 0),
       after_round s (console st) [Print (LoadedLinks 0); Print NoApprovedLinks])
  | (Ok (_ :: _), _) => fst (main w st) <> Ok (Some 1)
  | (Hang, _) => False
  end.
Proof.
  assert (H := fetch_links_run w st). rewrite main_unfold. unfold bind.
  destruct (get_links_from_convex w st) as [[[|link links]|e|] s];
    try (by rewrite H); try done.
  rewrite H. intros Hcode. apply run_session_code in Hcode.
  by destruct Hcode.
Qed.

(** ** Edges of the backend and of the queue *)

Lemma init_convex_client_gives_up w st :
  client st = None -> unconfigured w -> init_convex_client w st = gave_up st.
Proof.
  intros Hc Hu. unfold init_convex_client, gave_up. rewrite Hc.
  by destruct Hu as [-> | ->].
Qed.

(** X6. Without a client and without a configured URL, each of the three
    functions that talk to the backend raises [ValueError] before it makes
    any remote call: the client is built outside their [try], so the
    [except] clauses that absorb remote failures do not apply. *)
Theorem unconfigured_backend_raises w st :
  client st = None -> unconfigured w ->
  get_links_from_convex w st =
    (Raise (ValueError "CONVEX_URL not configured"),
     after_round st (console st) [Print ConvexUrlMissing]) /\
  (forall html url,
     parse_with_ai_agent w html url st =
     (Raise (ValueError "CONVEX_URL not configured"),
      after_round st (console st) [Print ConvexUrlMissing])) /\
  (forall link v,
     save_procurement_data_to_convex w link v st =
     (Raise (ValueError "CONVEX_URL not configured"),
      after_round st (console st) [Print ConvexUrlMissing])).
Proof.
  intros Hc Hu.
  assert (H := init_convex_client_gives_up w st Hc Hu). unfold gave_up in H.
  unfold get_links_from_convex, parse_with_ai_agent,
    save_procurement_data_to_convex.
  repeat split; intros; unfold bind at 1; by rewrite H.
Qed.

Lemma unconfigured_backend_witness :
  let st := fresh_state [] in
  client st = None /\ unconfigured offline_world /\
  parse_with_ai_agent offline_world div_html None st =
  (Raise (ValueError "CONVEX_URL not configured"),
   after_round st (console st) [Print ConvexUrlMissing]).
Proof.
  intros st.
  assert (Hc : client st = None) by reflexivity.
  assert (Hu : unconfigured offline_world) by (by left).
  split; [exact Hc|]. split; [exact Hu|].
  destruct (unconfigured_backend_raises offline_world st Hc Hu) as (_ & H & _).
  apply H.
Defined.

(** X7. A link whose [procurementLink] is neither missing, empty nor a text
    is not skipped: [process_link] raises [AttributeError] when it asks for
    the wait strategy, before it opens a page or reads the console, and the
    turn of the main loop, which has no [try] around it, raises with it. *)
Theorem non_text_url_raises w link index total st :
  truthy (link_get link "procurementLink") = true ->
  is_str (link_get link "procurementLink") = false ->
  fst (process_link w link index total st) =
    Raise (AttributeError "object has no attribute 'lower'") /\
  console (snd (process_link w link index total st)) = console st /\
  opened (out (snd (process_link w link index total st))) = opened (out st) /\
  (forall links cur,
     py_index links cur = Some link ->
     len links = total -> cur = index ->
     fst (main_turn w links cur st) =
     Raise (AttributeError "object has no attribute 'lower'")).
Proof.
  intros Ht Hs.
  assert (H : process_link w link index total st =
              (Raise (AttributeError "object has no attribute 'lower'"),
               after_round st (console st) [Print (Processing index total "")])).
  { unfold process_link. rewrite Ht. simpl.
    by destruct (link_get link "procurementLink"). }
  rewrite H. simpl. repeat split.
  - unfold opened. by rewrite tally_app, Nat.add_0_r.
  - intros links cur Hl <- ->. unfold main_turn. rewrite Hl.
    unfold bind. by rewrite H.
Qed.

Lemma non_text_url_witness :
  let link : Link := {[ "_id" := PStr "k20"; "procurementLink" := PInt 7 ]} in
  fst (process_link sample_world link 0 1 (ready_state [])) =
  Raise (AttributeError "object has no attribute 'lower'").
Proof.
  intros link.
  apply (non_text_url_raises sample_world link 0 1 (ready_state []));
    vm_compute; reflexivity.
Defined.

(** ** The pasted text *)

Lemma append_cons c s t : (String c s +:+ t = String c (s +:+ t))%string.
Proof. reflexivity. Qed.

Lemma append_nil_l t : ("" +:+ t = t)%string.
Proof. reflexivity. Qed.

Lemma append_nil_r s : (s +:+ "")%string = s.
Proof. induction s as [|c s IH]; [done|]. by rewrite append_cons, IH. Qed.

Lemma append_assoc s1 s2 s3 :
  ((s1 +:+ s2) +:+ s3 = s1 +:+ (s2 +:+ s3))%string.
Proof. induction s1 as [|c s IH]; [done|]. by rewrite !append_cons, IH. Qed.

Lemma rev_app_spec s1 s2 : String.rev_app s1 s2 = (String.rev s1 +:+ s2)%string.
Proof.
  unfold String.rev. revert s2.
  induction s1 as [|c s IH]; intros s2; [done|]. simpl.
  rewrite (IH (String c s2)), (IH (String c "")), append_assoc. done.
Qed.

Lemma rev_cons c s : String.rev (String c s) = (String.rev s +:+ String c "")%string.
Proof. unfold String.rev at 1. simpl. by rewrite rev_app_spec. Qed.

Lemma rev_append s1 s2 :
  String.rev (s1 +:+ s2) = (String.rev s2 +:+ String.rev s1)%string.
Proof.
  induction s1 as [|c s IH]; [by rewrite append_nil_l, append_nil_r|].
  rewrite append_cons, !rev_cons, IH, append_assoc. done.
Qed.

Lemma rev_involutive s : String.rev (String.rev s) = s.
Proof.
  induction s as [|c s IH]; [done|]. rewrite rev_cons, rev_append, IH. done.
Qed.

Lemma lstrip_clean s : clean_head (lstrip s).
Proof.
  induction s as [|c s IH]; [done|]. simpl.
  destruct (is_space c) eqn:Hc; [done|]. simpl. exact Hc.
Qed.

Lemma lstrip_of_clean s : clean_head s -> lstrip s = s.
Proof. destruct s as [|c s]; [done|]. simpl. by intros ->. Qed.

Lemma lstrip_keeps_last x c :
  is_space c = false ->
  exists y, lstrip (x +:+ String c "") = (y +:+ String c "")%string.
Proof.
  intros Hc. induction x as [|a x IH].
  - exists ""%string. rewrite !append_nil_l. simpl. by rewrite Hc.
  - rewrite append_cons. simpl. destruct (is_space a); [exact IH|].
    exists (String a x). by rewrite append_cons.
Qed.

Lemma rstrip_clean_head s : clean_head s -> clean_head (rstrip s).
Proof.
  destruct s as [|c s]; [done|]. simpl. intros Hc. unfold rstrip.
  rewrite rev_cons.
  destruct (lstrip_keeps_last (String.rev s) c Hc) as [y ->].
  rewrite rev_append. simpl. exact Hc.
Qed.

Lemma rstrip_idempotent s : rstrip (rstrip s) = rstrip s.
Proof.
  unfold rstrip. rewrite rev_involutive.
  by rewrite (lstrip_of_clean _ (lstrip_clean _)).
Qed.

Lemma strip_idempotent s : strip (strip s) = strip s.
Proof.
  unfold strip.
  rewrite (lstrip_of_clean (rstrip (lstrip s))).
  - apply rstrip_idempotent.
  - apply rstrip_clean_head, lstrip_clean.
Qed.

Lemma strip_clean s :
  clean_head (strip s) /\ clean_head (String.rev (strip s)).
Proof.
  split.
  - apply rstrip_clean_head, lstrip_clean.
  - unfold strip, rstrip. rewrite rev_involutive. apply lstrip_clean.
Qed.

Lemma all_chars_app f s t :
  all_chars f (s +:+ t) = all_chars f s && all_chars f t.
Proof.
  induction s as [|c s IH]; [done|]. rewrite append_cons. simpl.
  by rewrite IH, andb_assoc.
Qed.

Lemma all_chars_rev f s : all_chars f (String.rev s) = all_chars f s.
Proof.
  induction s as [|c s IH]; [done|]. rewrite rev_cons, all_chars_app, IH.
  simpl. rewrite andb_true_r. apply andb_comm.
Qed.

Lemma all_chars_lstrip f s :
  all_chars f s = true -> all_chars f (lstrip s) = true.
Proof.
  induction s as [|c s IH]; [done|]. intros H. simpl.
  destruct (is_space c); [|exact H].
  simpl in H. apply andb_prop in H as [_ H]. by apply IH.
Qed.

Lemma all_chars_strip f s :
  all_chars f s = true -> all_chars f (strip s) = true.
Proof.
  intros H. unfold strip, rstrip. rewrite all_chars_rev.
  apply all_chars_lstrip. rewrite all_chars_rev. by apply all_chars_lstrip.
Qed.

Lemma all_chars_concat f sep ls :
  all_chars f sep = true ->
  Forall (fun l => all_chars f l = true) ls ->
  all_chars f (String.concat sep ls) = true.
Proof.
  intros Hs. induction 1 as [|l ls Hl Hls IH]; [done|].
  destruct ls as [|l' ls]; [exact Hl|].
  change (String.concat sep (l :: l' :: ls))
    with (l +:+ sep +:+ String.concat sep (l' :: ls))%string.
  by rewrite !all_chars_app, Hl, Hs, IH.
Qed.

Lemma manual_input_loop_ascii con :
  forall lines n ls,
    Forall (fun l => ascii_text l = true) lines ->
    ascii_console con = true ->
    fst (fst (manual_input_loop lines n con)) = Ok (Some ls) ->
    Forall (fun l => ascii_text l = true) ls.
Proof.
  induction con as [|[l|] rest IH]; intros lines n ls Hl Hc; simpl.
  - by intros [= <-].
  - simpl in Hc. apply andb_prop in Hc as [Hk Hc].
    assert (Forall (fun l => ascii_text l = true) (lines ++ [l])).
    { apply Forall_app. split; [done|]. by apply Forall_cons_2. }
    repeat (match goal with
            | |- context [if ?c then _ else _] => destruct c
            end); simpl; first [done | by intros [= <-] | by apply IH].
  - done.
Qed.

(** X8. On a console of ASCII lines, [get_manual_html_input] never raises,
    whatever the operator does: a closed console ends the paste and Ctrl-C
    cancels it. It only reads the console, and it returns [None] or an
    ASCII text that is not empty and is already stripped: it has no white
    space at either end. *)
Theorem pasted_html_is_trimmed st :
  ascii_console (console st) = true ->
  exists o st',
    get_manual_html_input st = (Ok o, st') /\
    client st' = client st /\ errors st' = errors st /\
    console st' `suffix_of` console st /\
    match o with
    | Some html =>
        html <> "" /\ ascii_text html = true /\ strip html = html /\
        clean_head html /\ clean_head (String.rev html)
    | None => True
    end.
Proof.
  intros Hascii.
  unfold get_manual_html_input, on_console. run.
  destruct (manual_input_loop_returns [] 0 (console st)) as [o Ho].
  destruct (manual_input_loop_reads [] 0 (console st)) as [Hs _].
  pose proof (manual_input_loop_ascii (console st) [] 0) as Ha.
  destruct (manual_input_loop [] 0 (console st)) as [[r con] tr].
  simpl in Ho, Hs, Ha. subst r. simpl.
  destruct o as [lines|]; simpl; [|by eexists _, _].
  specialize (Ha lines (Forall_nil_2 _) Hascii eq_refl).
  destruct (String.eqb_spec (strip (String.concat newline lines)) "") as [He|He];
    simpl; eexists _, _; (split; [reflexivity|]); simpl; repeat split; try done.
  - by apply all_chars_strip, all_chars_concat.
  - apply strip_idempotent.
  - apply strip_clean.
  - apply strip_clean.
Qed.

Lemma pasted_html_witness :
  let st := ready_state [Line "  <table>"; Line "</table> "; Line ""; Line "";
                         Line "y"] in
  ascii_console (console st) = true /\
  exists o st',
    get_manual_html_input st = (Ok o, st') /\
    client st' = client st /\ errors st' = errors st /\
    console st' `suffix_of` console st /\
    match o with
    | Some html =>
        html <> "" /\ ascii_text html = true /\ strip html = html /\
        clean_head html /\ clean_head (String.rev html)
    | None => True
    end.
Proof.
  intros st. split; [reflexivity|].
  apply (pasted_html_is_trimmed st). reflexivity.
Defined.

Lemma manual_input_loop_paste ls :
  forall lines n rest,
    Forall (fun l => l <> ""%string) ls ->
    (lines = [] -> starts_with_content ls) ->
    (ls <> [] \/ n = 0%nat) ->
    manual_input_loop lines n (paste_lines ls ++ rest) =
    (Ok (Some (lines ++ ls ++ [""%string])), rest, []).
Proof.
  unfold paste_lines.
  induction ls as [|l ls IH]; intros lines n rest Hne Hskip Hn.
  - destruct Hn as [?| ->]; [done|]. simpl.
    by rewrite andb_false_r || reflexivity.
  - apply Forall_cons_1 in Hne as [Hl Hne]. simpl.
    assert (Hk : String.eqb (lower (strip l)) "skip" && (length lines =? 0)%nat = false).
    { destruct lines as [|x lines]; [|by rewrite andb_false_r].
      rewrite andb_true_r. apply String.eqb_neq. by apply Hskip. }
    rewrite Hk. apply String.eqb_neq in Hl. rewrite Hl.
    change (map Line ls ++ [Line ""; Line ""]) with (paste_lines ls).
    unfold paste_lines. rewrite IH; [by rewrite <- app_assoc|done| |].
    + by destruct lines.
    + by right.
Qed.

(** X9. A paste ends at the second of two empty lines in a row. When the
    operator types ASCII lines that are not empty, the first of which is not
    the word [skip], and then two empty lines, [get_manual_html_input] reads
    exactly these and leaves the rest of the console for the prompts that
    follow; the text is the lines joined by newlines and stripped, and the
    function returns it, or [None] when nothing but white space is left. A
    later line may be the word [skip]: it is part of the text. *)
Theorem paste_ends_at_two_empty_lines ls rest st :
  console st = paste_lines ls ++ rest ->
  Forall (fun l => ascii_text l = true) ls ->
  Forall (fun l => l <> ""%string) ls ->
  starts_with_content ls ->
  get_manual_html_input st =
  if String.eqb (pasted_text ls) ""
  then (Ok None, after_round st rest [Print ManualInstructions])
  else (Ok (Some (pasted_text ls)),
        after_round st rest
          [Print ManualInstructions;
           Print (Received (Z.of_nat (String.length (pasted_text ls))))]).
Proof.
  intros Hcon _ Hne Hskip.
  unfold get_manual_html_input, on_console, pasted_text. run. rewrite Hcon.
  rewrite (manual_input_loop_paste ls [] 0 rest Hne (fun _ => Hskip)
             ltac:(by right)).
  simpl.
  destruct (String.eqb (strip (String.concat newline (ls ++ [""%string]))) "");
    simpl; unfold after_round; simpl; by rewrite <- ?app_assoc, ?app_nil_r.
Qed.

Lemma paste_ends_at_two_empty_lines_witness :
  let ls := ["<table>"; "<tr><td>skip</td></tr>"; "</table>"]%string in
  let st := ready_state (paste_lines ls ++ [Line "y"]) in
  fst (get_manual_html_input st) = Ok (Some (pasted_text ls)) /\
  console (snd (get_manual_html_input st)) = [Line "y"].
Proof.
  intros ls st.
  rewrite (paste_ends_at_two_empty_lines ls [Line "y"] st).
  - vm_compute. split; reflexivity.
  - reflexivity.
  - repeat (apply Forall_cons_2; [reflexivity|]). apply Forall_nil_2.
  - repeat (apply Forall_cons_2; [discriminate|]). apply Forall_nil_2.
  - vm_compute. discriminate.
Defined.

(** ** The first click variant *)

Ltac click_case :=
  match goal with
  | |- context [match ?o with Returns _ => _ | Fails _ => _ end] =>
      let e := fresh "e" in
      let H := fresh "Hcall" in
      destruct o as [?|e] eqn:H; simpl; rewrite ?is_Exception_lib; simpl
  | |- context [match head ?l with _ => _ end] => destruct (head l); simpl
  | |- context [match ?dfs with [] => _ | _ :: _ => _ end] =>
      is_var dfs; destruct dfs; simpl
  | |- context [is_ValueError (exn_of_lib ?e)] => destruct e; simpl
  end.

Lemma click_process_link_ledger w link st r st' :
  ScraperTool.process_link w link st = (r, st') ->
  exists tr,
    out st' = out st ++ tr /\
    console st' = console st /\
    (opened tr <= 1)%nat /\ tally is_next_prompt tr = 0%nat /\
    match r with
    | Ok _ => closed tr = opened tr
    | Raise e =>
        opened tr = 1%nat /\ closed tr = 0%nat /\
        selector_failure w (url_text (link_get link "procurementLink")) e
    | Hang => opened tr = 1%nat /\ closed tr = 0%nat
    end.
Proof.
  unfold ScraperTool.process_link, ScraperTool.try_finally,
    ScraperTool.parse_html_generic, selector_failure.
  destruct (truthy (link_get link "procurementLink")); simpl.
  2: { intros [= <- <-]. exists []. rewrite app_nil_r.
       repeat split; try done. unfold opened, tally. simpl. lia. }
  rewrite deliver_first. unfold await.
  destruct (is_str (link_get link "procurementLink")); run;
    repeat click_case; intros [= <- <-]; eexists;
    (split; [simpl; rewrite <- ?app_assoc; reflexivity|]);
    unfold opened, closed; simpl; repeat split; try done; try lia;
    eauto.
Qed.

(** X10. [process_link] of the first click variant opens at most one page
    and never reads the console. When it returns, the page it opened has
    been closed, also when the navigation fails or pandas cannot parse the
    selection; the only exceptions that come out of it are the failures of
    [page.expose_function] and [page.evaluate], which are called outside any
    [try], and then the page is left open. *)
Theorem click_variant_closes_its_page w link st r st' :
  ScraperTool.process_link w link st = (r, st') ->
  exists tr,
    out st' = out st ++ tr /\
    console st' = console st /\
    (opened tr <= 1)%nat /\
    match r with
    | Ok _ => closed tr = opened tr
    | Raise e =>
        opened tr = 1%nat /\ closed tr = 0%nat /\
        selector_failure w (url_text (link_get link "procurementLink")) e
    | Hang => opened tr = 1%nat /\ closed tr = 0%nat
    end.
Proof.
  intros Hrun.
  destruct (click_process_link_ledger _ _ _ _ _ Hrun)
    as (tr & Hout & Hcon & Ho & _ & Hr).
  by exists tr.
Qed.

Lemma click_variant_closes_its_page_witness :
  let st := ready_state [] in
  let run := ScraperTool.process_link failing_world texas_link st in
  fst run = Ok tt /\
  exists tr,
    out (snd run) = out st ++ tr /\
    console (snd run) = console st /\
    (opened tr <= 1)%nat /\
    closed tr = opened tr.
Proof.
  intros st run. split; [vm_compute; reflexivity|].
  apply (click_variant_closes_its_page failing_world texas_link st (Ok tt) (snd run)).
  vm_compute. reflexivity.
Defined.

Ltac tallies :=
  unfold opened, closed in *;
  repeat rewrite ?tally_app, ?tally_cons, ?tally_nil; simpl.

Lemma visit_links_ledger w links :
  forall st r st',
    ScraperTool.visit_links w links st = (r, st') ->
    exists tr,
      out st' = out st ++ tr /\
      console st' `suffix_of` console st /\
      (opened tr <= length links)%nat /\
      (tally is_next_prompt tr <= length links)%nat /\
      (closed tr <= opened tr)%nat /\
      (r = Ok tt -> closed tr = opened tr).
Proof.
  induction links as [|link links IH]; intros st r st'.
  - intros [= <- <-]. exists []. rewrite app_nil_r. repeat split; try done.
  - cbn [ScraperTool.visit_links]. unfold bind at 1.
    destruct (ScraperTool.process_link w link st) as [r1 s1] eqn:Hp.
    apply click_process_link_ledger in Hp as (t1 & Ho1 & Hc1 & Hop1 & Hpr1 & Hr1).
    destruct r1 as [[]|e|].
    2,3: intros [= <- <-]; exists t1; rewrite Hc1; tallies;
      repeat split; try done; lia.
    unfold bind, input.
    assert (Hsuf : forall k rest, console s1 = k :: rest -> rest `suffix_of` console st).
    { intros k rest Hk. rewrite <- Hc1, Hk. by apply suffix_cons_r. }
    assert (Hs0 : console s1 `suffix_of` console st) by (by rewrite Hc1).
    destruct (console s1) as [|[l|] rest] eqn:Hk; simpl.
    + intros [= <- <-]. exists (t1 ++ [Prompt NextSiteOrQuit]).
      rewrite Ho1, <- app_assoc. simpl. tallies.
      repeat split; try done; lia.
    + destruct (String.eqb (lower l) "q"); simpl.
      * intros [= <- <-]. exists (t1 ++ [Prompt NextSiteOrQuit]).
        rewrite Ho1, <- app_assoc. simpl. tallies.
        repeat split; try done; try lia. by eapply Hsuf.
      * intros Hrun.
        apply IH in Hrun as (t2 & Ho2 & Hc2 & Hop2 & Hpr2 & Hcl2 & Hr2).
        simpl in Ho2, Hc2.
        exists (t1 ++ [Prompt NextSiteOrQuit] ++ t2).
        rewrite Ho2, Ho1, <- !app_assoc. tallies.
        repeat split; try done; try lia.
        -- etrans; [exact Hc2|]. by eapply Hsuf.
        -- intros Hr. specialize (Hr2 Hr). lia.
    + intros [= <- <-]. exists (t1 ++ [Prompt NextSiteOrQuit]).
      rewrite Ho1, <- app_assoc. simpl. tallies.
      repeat split; try done; try lia. by eapply Hsuf.
Qed.

(** X11. The loop over the links of the first click variant opens at most
    one page for each link and asks at most once after each link whether to
    go on; it never closes more pages than it opened, and when it ends
    normally, at the end of the queue or at the answer [q], every page it
    opened has been closed. *)
Theorem click_loop_keeps_its_pages_in_order w links st r st' :
  ScraperTool.visit_links w links st = (r, st') ->
  exists tr,
    out st' = out st ++ tr /\
    console st' `suffix_of` console st /\
    (opened tr <= length links)%nat /\
    (tally is_next_prompt tr <= length links)%nat /\
    (closed tr <= opened tr)%nat /\
    (r = Ok tt -> closed tr = opened tr).
Proof. apply visit_links_ledger. Qed.

Lemma click_loop_witness :
  let st := ready_state [Line ""; Line "Q"; Line "never read"] in
  let run := ScraperTool.visit_links failing_world sample_links st in
  fst run = Ok tt /\ console (snd run) = [Line "never read"] /\
  exists tr,
    out (snd run) = out st ++ tr /\
    console (snd run) `suffix_of` console st /\
    (opened tr <= length sample_links)%nat /\
    (tally is_next_prompt tr <= length sample_links)%nat /\
    (closed tr <= opened tr)%nat /\
    (fst run = Ok tt -> closed tr = opened tr).
Proof.
  intros st run. split; [vm_compute; reflexivity|].
  split; [vm_compute; reflexivity|].
  apply (click_loop_keeps_its_pages_in_order failing_world sample_links st
           (fst run) (snd run)).
  vm_compute. reflexivity.
Defined.


(** ** The in-page script of the hotkey variant *)

Lemma remove_class_self e : Hotkey.remove_class e [e] = [].
Proof. unfold Hotkey.remove_class. simpl. by rewrite Nat.eqb_refl. Qed.

Lemma selector_invariant_injected d : selector_invariant d Hotkey.injected.
Proof. split; [done|]. simpl. done. Qed.

Lemma dispatch_invariant d e p :
  selector_invariant d p -> selector_invariant d (dispatch d e p).
Proof.
  intros [Hb Hi]. destruct e as [target|ev|t]; simpl.
  - unfold Hotkey.mouseover, Hotkey.mouseOverHandler.
    destruct (Hotkey.isActive p) eqn:Ha.
    + destruct Hi as (Hm & Hk & Hs & Hh). rewrite Hm. simpl.
      destruct (Hotkey.in_banner d target) eqn:Ht; [by split; [|rewrite Ha]|].
      split; simpl; [by intros ? [= <-]|]. repeat split; try done.
      rewrite Hh. destruct (Hotkey.lastElement p) as [x|]; [|done].
      unfold option_list. by rewrite remove_class_self.
    + pose proof Hi as (Hm & _). rewrite Hm. split; [done|]. by rewrite Ha.
  - unfold Hotkey.keydown, Hotkey.keydownHandler.
    destruct (Hotkey.isActive p) eqn:Ha.
    + destruct Hi as (Hm & Hk & Hs & Hh). rewrite Hk. simpl.
      destruct (Hotkey.is_trigger ev); [|by split; [|rewrite Ha]].
      destruct (Hotkey.lastElement p) as [x|] eqn:Hl; simpl.
      * split; simpl; [exact Hb|]. repeat split; try done.
        -- rewrite Hh. unfold option_list. apply remove_class_self.
        -- exists x. by rewrite Hs.
      * split; simpl; [exact Hb|]. done.
    + pose proof Hi as (_ & Hk & _). rewrite Hk. split; [done|]. by rewrite Ha.
  - destruct (existsb _ _); [|by split].
    unfold Hotkey.fire. split; simpl; [done|]. done.
Qed.

Lemma play_invariant d events :
  forall p, selector_invariant d p -> selector_invariant d (play d events p).
Proof.
  unfold play. induction events as [|e events IH]; intros p Hp; [done|].
  simpl. by apply IH, dispatch_invariant.
Qed.

Lemma dispatch_uninstalled d e p :
  Hotkey.mouseover_installed p = false ->
  Hotkey.keydown_installed p = false ->
  same_selection p (dispatch d e p).
Proof.
  intros Hm Hk. destruct e as [target|ev|t]; simpl.
  - unfold Hotkey.mouseover. by rewrite Hm.
  - unfold Hotkey.keydown. by rewrite Hk.
  - by destruct (existsb _ _).
Qed.

Lemma play_uninstalled d events :
  forall p,
    Hotkey.mouseover_installed p = false ->
    Hotkey.keydown_installed p = false ->
    same_selection p (play d events p).
Proof.
  unfold play. induction events as [|e events IH]; intros p Hm Hk; [done|].
  simpl. destruct (dispatch_uninstalled d e p Hm Hk) as (Ha & Hl & Hm' & Hk' & Hh & Hs & Hp).
  destruct (IH (dispatch d e p)) as (Ha2 & Hl2 & Hm2 & Hk2 & Hh2 & Hs2 & Hp2);
    [congruence|congruence|].
  repeat split; congruence.
Qed.

(** X12. In the hotkey variant, whatever the mouse, the keyboard and the
    timers do after the script ran, the script calls the host hook at most
    once. It has called it exactly when the selector is no longer active;
    then what it sent is the markup of an element outside the banner, or of
    the table around it, both listeners are removed, and no later event
    calls the hook again or changes the selection. *)
Theorem selector_sends_at_most_once (d : Hotkey.Dom) (events more : list DomEvent) :
  let p := play d events Hotkey.injected in
  (length (Hotkey.sent p) <= 1)%nat /\
  (Hotkey.sent p = [] <-> Hotkey.isActive p = true) /\
  (Hotkey.isActive p = false ->
   (exists e,
      Hotkey.lastElement p = Some e /\
      Hotkey.in_banner d e = false /\
      Hotkey.sent p = [Hotkey.outerHTML d (default e (Hotkey.closest_table d e))]) /\
   Hotkey.mouseover_installed p = false /\
   Hotkey.keydown_installed p = false /\
   same_selection p (play d more p)).
Proof.
  intros p.
  destruct (play_invariant d events _ (selector_invariant_injected d)) as [Hb Hi].
  fold p in Hb, Hi. destruct (Hotkey.isActive p) eqn:Ha.
  - destruct Hi as (_ & _ & Hs & _). rewrite Hs. simpl. repeat split; (lia || done).
  - destruct Hi as (Hm & Hk & Hh & e & Hl & Hs). rewrite Hs. simpl.
    split; [lia|]. split; [split; discriminate|]. intros _.
    split; [exists e; repeat split; auto|].
    split; [done|]. split; [done|]. by apply play_uninstalled.
Qed.

(** X13. In the hotkey variant the script marks at most one element at any
    time: an element carries the highlight only while the selector is
    active, and then it is the element the mouse entered last, which is
    never the banner or a part of it. *)
Theorem selector_highlights_one_element (d : Hotkey.Dom) (events : list DomEvent) :
  let p := play d events Hotkey.injected in
  (length (Hotkey.highlighted p) <= 1)%nat /\
  forall e, In e (Hotkey.highlighted p) ->
    Hotkey.isActive p = true /\
    Hotkey.lastElement p = Some e /\
    Hotkey.in_banner d e = false.
Proof.
  intros p.
  destruct (play_invariant d events _ (selector_invariant_injected d)) as [Hb Hi].
  fold p in Hb, Hi. destruct (Hotkey.isActive p) eqn:Ha.
  - destruct Hi as (_ & _ & _ & Hh). rewrite Hh.
    destruct (Hotkey.lastElement p) as [x|] eqn:Hl; simpl.
    + split; [lia|]. intros e [<-|[]]. auto.
    + split; [lia|]. intros e [].
  - destruct Hi as (_ & _ & Hh & _). rewrite Hh. simpl. split; [lia|]. intros e [].
Qed.

Lemma selector_sends_witness :
  Hotkey.isActive
    (play sample_dom [MouseOver 7; KeyDown ctrl_alt_s] Hotkey.injected) = false /\
  Hotkey.sent
    (play sample_dom [MouseOver 7; KeyDown ctrl_alt_s] Hotkey.injected) =
  [table_html] /\
  Hotkey.sent
    (play sample_dom [MouseOver 3; KeyDown ctrl_alt_s]
       (play sample_dom [MouseOver 7; KeyDown ctrl_alt_s] Hotkey.injected)) =
  [table_html].
Proof.
  destruct (selector_sends_at_most_once sample_dom
              [MouseOver 7; KeyDown ctrl_alt_s] [MouseOver 3; KeyDown ctrl_alt_s])
    as (_ & _ & H).
  destruct (H eq_refl) as (_ & _ & _ & (_ & _ & _ & _ & _ & Hs & _)).
  split; [reflexivity|]. split; [reflexivity|]. exact Hs.
Defined.

Lemma selector_highlights_witness :
  In 7%nat
     (Hotkey.highlighted
        (play sample_dom [MouseOver 3; MouseOver 0; MouseOver 7] Hotkey.injected)) /\
  Hotkey.lastElement
    (play sample_dom [MouseOver 3; MouseOver 0; MouseOver 7] Hotkey.injected) =
  Some 7%nat.
Proof.
  assert (Hin : In 7%nat
     (Hotkey.highlighted
        (play sample_dom [MouseOver 3; MouseOver 0; MouseOver 7] Hotkey.injected)))
    by (vm_compute; auto).
  destruct (selector_highlights_one_element sample_dom
              [MouseOver 3; MouseOver 0; MouseOver 7]) as (_ & H).
  split; [exact Hin|]. apply (H 7%nat Hin).
Defined.

(** ** The in-page script of the first click variant *)

Lemma click_play_uninstalled d events :
  forall p,
    ClickScript.mouseover_installed p = false ->
    ClickScript.click_installed p = false ->
    ClickScript.play d events p = p.
Proof.
  unfold ClickScript.play. induction events as [|e events IH]; intros p Hm Hc; [done|].
  simpl. assert (He : ClickScript.dispatch d e p = p).
  { destruct e; simpl; unfold ClickScript.mouseover, ClickScript.click;
      by rewrite ?Hm, ?Hc. }
  rewrite He. by apply IH.
Qed.

Lemma click_play_spec d events :
  forall p,
    ClickScript.mouseover_installed p = true ->
    ClickScript.click_installed p = true ->
    ClickScript.highlighted p = option_list (ClickScript.lastElement p) ->
    ClickScript.play d events p =
    match ClickScript.first_click events with
    | Some target =>
        ClickScript.mkPage
          (ClickScript.hovered events (ClickScript.lastElement p)) false false []
          (ClickScript.sent p ++
             [Hotkey.outerHTML d (default target (Hotkey.closest_table d target))])
          (S (ClickScript.prevented p))
    | None =>
        ClickScript.mkPage
          (ClickScript.hovered events (ClickScript.lastElement p)) true true
          (option_list (ClickScript.hovered events (ClickScript.lastElement p)))
          (ClickScript.sent p) (ClickScript.prevented p)
    end.
Proof.
  induction events as [|e events IH]; intros p Hm Hc Hh.
  - simpl. destruct p; simpl in *. by subst.
  - assert (Hu : ClickScript.unmark_last p = []).
    { unfold ClickScript.unmark_last. rewrite Hh.
      destruct (ClickScript.lastElement p); [apply remove_class_self|done]. }
    destruct e as [target|target].
    + change (ClickScript.play d (ClickScript.MouseOver target :: events) p)
        with (ClickScript.play d events (ClickScript.mouseover target p)).
      unfold ClickScript.mouseover. rewrite Hm.
      rewrite IH; unfold ClickScript.mouseOverHandler; simpl; try done.
      by rewrite Hu.
    + change (ClickScript.play d (ClickScript.Click target :: events) p)
        with (ClickScript.play d events (ClickScript.click d target p)).
      unfold ClickScript.click. rewrite Hc.
      rewrite click_play_uninstalled by done.
      unfold ClickScript.clickHandler. simpl. by rewrite Hu.
Qed.

(** X14. In the first click variant the script calls the host hook for the
    first click and for no other: what it sends is the markup of the table
    around the clicked element, or of the element itself where there is no
    table. That click is the only one whose default action is cancelled;
    after it nothing is highlighted and both listeners are gone. Before any
    click nothing is sent and the one highlighted element is the one the
    mouse entered last. *)
Theorem click_script_sends_first_click (d : Hotkey.Dom)
    (events : list ClickScript.DomEvent) :
  ClickScript.play d events ClickScript.injected =
  match ClickScript.first_click events with
  | Some target =>
      ClickScript.mkPage (ClickScript.hovered events None) false false []
        [Hotkey.outerHTML d (default target (Hotkey.closest_table d target))] 1
  | None =>
      ClickScript.mkPage (ClickScript.hovered events None) true true
        (option_list (ClickScript.hovered events None)) [] 0
  end.
Proof. by rewrite click_play_spec. Qed.

(** ** The cleaning of the first table *)

Lemma forallb_false {A} (f : A -> bool) l :
  forallb f l = false -> exists x, In x l /\ f x = false.
Proof.
  induction l as [|a l IH]; simpl; [discriminate|].
  destruct (f a) eqn:Ha; simpl.
  - intros H. destruct (IH H) as (x & Hx & Hf). eauto.
  - intros _. eauto.
Qed.

Lemma forallb_false_intro {A} (f : A -> bool) l x :
  In x l -> f x = false -> forallb f l = false.
Proof.
  intros Hx Hf. destruct (forallb f l) eqn:H; [|done].
  rewrite forallb_forall in H. rewrite (H x Hx) in Hf. discriminate.
Qed.

Lemma map_nth_seq {A} (l : list A) d :
  map (fun j => List.nth j l d) (seq 0 (length l)) = l.
Proof.
  induction l as [|a l IH]; [done|].
  simpl. f_equal. rewrite <- seq_shift, List.map_map. exact IH.
Qed.

Lemma filter_all {A} (f : A -> bool) l :
  (forall x, In x l -> f x = true) -> List.filter f l = l.
Proof.
  induction l as [|a l IH]; intros H; [done|].
  simpl. rewrite (H a) by (by left). f_equal. apply IH. intros x Hx. apply H. by right.
Qed.

Lemma In_nth_cell (r : list Cell) c :
  In c r -> exists j, (j < length r)%nat /\ cell_at r j = c.
Proof. intros H. destruct (In_nth r c CNaN H) as (j & Hj & He). eauto. Qed.

Section Clean.
Variable df : DataFrame.
Hypothesis Hrect : rectangular df.

Let rows1 := rows (dropna_rows df).
Let keep := kept_columns (dropna_rows df).

Lemma rows1_have_value r :
  In r rows1 -> In r (rows df) /\ blank_row r = false.
Proof.
  unfold rows1, dropna_rows. simpl. rewrite filter_In.
  intros [Hr Hb]. split; [done|]. by apply negb_true_iff.
Qed.

Lemma keep_spec j :
  In j keep <->
  (j < length (columns df))%nat /\ column_all_nan rows1 j = false.
Proof.
  unfold keep, kept_columns. rewrite filter_In, in_seq, negb_true_iff.
  simpl. fold rows1. split; [intros [? ?]|intros [? ?]]; split; (lia || done).
Qed.

Lemma value_is_kept r :
  In r rows1 -> exists j, In j keep /\ is_nan (cell_at r j) = false.
Proof.
  intros Hr. destruct (rows1_have_value r Hr) as [Hin Hb].
  destruct (forallb_false _ _ Hb) as (c & Hc & Hn).
  destruct (In_nth_cell r c Hc) as (j & Hj & He).
  exists j. split; [|by rewrite He].
  apply keep_spec. split.
  - unfold rectangular in Hrect. rewrite List.Forall_forall in Hrect.
    by rewrite <- (Hrect r Hin).
  - unfold column_all_nan. apply forallb_false_intro with r; [done|].
    by rewrite He.
Qed.

Lemma clean_rows :
  rows (clean df) = map (fun r => map (cell_at r) keep) rows1.
Proof. reflexivity. Qed.

Lemma clean_columns :
  columns (clean df) = map (fun j => List.nth j (columns df) EmptyString) keep.
Proof. reflexivity. Qed.

Lemma clean_rectangular : rectangular (clean df).
Proof.
  unfold rectangular. rewrite clean_rows, clean_columns.
  apply List.Forall_forall. intros r' Hr'.
  apply in_map_iff in Hr' as (r & <- & _). by rewrite !length_map.
Qed.

Lemma clean_rows_have_value r' :
  In r' (rows (clean df)) -> blank_row r' = false.
Proof.
  rewrite clean_rows. intros Hr'.
  apply in_map_iff in Hr' as (r & <- & Hr).
  destruct (value_is_kept r Hr) as (j & Hj & Hn).
  apply forallb_false_intro with (cell_at r j); [|done].
  apply in_map_iff. eauto.
Qed.

Lemma clean_columns_have_value k :
  (k < length (columns (clean df)))%nat -> blank_column (clean df) k = false.
Proof.
  rewrite clean_columns, length_map. intros Hk.
  assert (Hj : In (List.nth k keep 0%nat) keep) by (by apply nth_In).
  apply keep_spec in Hj as [_ Hc].
  destruct (forallb_false _ _ Hc) as (r & Hr & Hn).
  unfold blank_column, column_all_nan. rewrite clean_rows.
  apply forallb_false_intro with (map (cell_at r) keep).
  - apply in_map_iff. eauto.
  - unfold cell_at at 1.
    rewrite (nth_indep _ CNaN (cell_at r 0%nat)) by (by rewrite length_map).
    by rewrite map_nth.
Qed.

Lemma clean_idempotent : clean (clean df) = clean df.
Proof.
  assert (H1 : dropna_rows (clean df) = clean df).
  { unfold dropna_rows. rewrite filter_all.
    - by destruct (clean df).
    - intros r Hr. apply negb_true_iff. exact (clean_rows_have_value r Hr). }
  unfold clean at 1. rewrite H1.
  assert (H2 : kept_columns (clean df) = seq 0 (length (columns (clean df)))).
  { unfold kept_columns. apply filter_all. intros j Hj. apply in_seq in Hj.
    apply negb_true_iff. apply clean_columns_have_value. lia. }
  unfold dropna_columns. rewrite H2, map_nth_seq.
  destruct (clean df) as [cols rs] eqn:Hc. simpl. f_equal.
  pose proof clean_rectangular as Hr. rewrite Hc in Hr.
  unfold rectangular in Hr. simpl in Hr. clear Hc H1 H2.
  induction Hr as [|r rs Hl _ IH]; [done|].
  simpl. f_equal; [|exact IH]. rewrite <- Hl. apply map_nth_seq.
Qed.

Lemma clean_empty_iff :
  df_empty (clean df) = true <->
  forall r, In r (rows df) -> blank_row r = true.
Proof.
  split.
  - intros He r Hr. destruct (blank_row r) eqn:Hb; [done|].
    assert (H1 : In r rows1).
    { unfold rows1, dropna_rows. simpl. apply filter_In. split; [done|].
      by apply negb_true_iff. }
    destruct (value_is_kept r H1) as (j & Hj & _).
    unfold df_empty in He. rewrite clean_rows, clean_columns in He.
    destruct keep as [|j0 keep']; [done|].
    destruct rows1 as [|r0 rows1']; [done|]. done.
  - intros Hall. unfold df_empty. rewrite clean_rows.
    assert (H1 : rows1 = []).
    { unfold rows1, dropna_rows. simpl.
      induction (rows df) as [|r rs IH]; [done|].
      pose proof (Hall r (or_introl eq_refl)) as Hb. unfold blank_row in Hb.
      simpl. rewrite Hb. simpl.
      apply IH. intros r' Hr'. apply Hall. by right. }
    rewrite H1. by destruct (columns (clean df)).
Qed.
End Clean.

(** X15. For a frame with one cell per column in every row, the cleaning
    both pandas tiers apply, [dropna(how="all").dropna(axis=1, how="all")],
    leaves a frame in which every row and every column has a cell that is
    not missing, although the columns go after the rows; cleaning it again
    changes nothing. The cleaned frame is empty exactly when every row of
    the table had only missing cells. *)
Theorem cleaning_leaves_no_blank_line (df : DataFrame) :
  rectangular df ->
  rectangular (clean df) /\
  (forall r, In r (rows (clean df)) -> blank_row r = false) /\
  (forall j, (j < length (columns (clean df)))%nat ->
             blank_column (clean df) j = false) /\
  clean (clean df) = clean df /\
  (df_empty (clean df) = true <->
   forall r, In r (rows df) -> blank_row r = true).
Proof.
  intros H. split; [by apply clean_rectangular|].
  split; [by apply clean_rows_have_value|].
  split; [by apply clean_columns_have_value|].
  split; [by apply clean_idempotent|by apply clean_empty_iff].
Qed.

Lemma cleaning_witness :
  rectangular table_frame /\
  clean (clean table_frame) = clean table_frame /\
  df_empty (clean table_frame) = false.
Proof.
  assert (H : rectangular table_frame) by (repeat constructor).
  destruct (cleaning_leaves_no_blank_line table_frame H) as (_ & _ & _ & Hi & _).
  split; [exact H|]. split; [exact Hi|reflexivity].
Defined.

(** ** Numbers typed at the menus *)

Lemma digit_not_space c : is_digit c = true -> is_space c = false.
Proof. destruct c as [[] [] [] [] [] [] [] []]; by vm_compute. Qed.

Lemma digit_lower c : is_digit c = true -> lower_ascii c = c.
Proof. destruct c as [[] [] [] [] [] [] [] []]; by vm_compute. Qed.

Lemma digits_clean_head s : all_chars is_digit s = true -> clean_head s.
Proof.
  destruct s as [|c s]; [done|]. simpl. intros [H _]%andb_true_iff.
  by apply digit_not_space.
Qed.

Lemma digits_lower s : all_chars is_digit s = true -> lower s = s.
Proof.
  induction s as [|c s IH]; [done|]. simpl. intros [Hc Hs]%andb_true_iff.
  by rewrite digit_lower, IH.
Qed.

Lemma lstrip_blank pad s : blank pad = true -> lstrip (pad +:+ s) = lstrip s.
Proof.
  induction pad as [|c pad IH]; [done|]. unfold blank in *. rewrite append_cons.
  simpl. intros [Hc Hp]%andb_true_iff. rewrite Hc. by apply IH.
Qed.

Lemma clean_head_app s t : s <> ""%string -> clean_head s -> clean_head (s +:+ t).
Proof. destruct s as [|c s]; [done|]. intros _ H. exact H. Qed.

Lemma strip_padded before s after :
  blank before = true -> blank after = true ->
  all_chars is_digit s = true ->
  strip (before +:+ s +:+ after) = s.
Proof.
  intros Hb Ha Hs. unfold strip, rstrip.
  rewrite lstrip_blank by done.
  destruct (String.eqb_spec s "") as [->|Hne].
  - rewrite append_nil_l.
    assert (H : forall pad, blank pad = true -> lstrip pad = ""%string).
    { intros pad Hp. rewrite <- (append_nil_r pad). by rewrite lstrip_blank. }
    rewrite (H after Ha). unfold String.rev. simpl. done.
  - rewrite (lstrip_of_clean (s +:+ after))
      by (apply clean_head_app; [done|by apply digits_clean_head]).
    rewrite rev_append, lstrip_blank by (unfold blank; by rewrite all_chars_rev).
    rewrite lstrip_of_clean.
    + apply rev_involutive.
    + apply digits_clean_head. by rewrite all_chars_rev.
Qed.

Lemma uint_digits u : all_chars is_digit (NilEmpty.string_of_uint u) = true.
Proof. induction u; simpl; done. Qed.

Lemma int_digits_uint u :
  forall acc b,
    int_digits (NilEmpty.string_of_uint u) acc b =
    match u with
    | Decimal.Nil => if b then Some acc else None
    | _ => Some (uint_value u acc)
    end.
Proof.
  induction u; intros acc b; [done|..];
    simpl; rewrite IHu; by destruct u.
Qed.

Lemma uint_value_acc u :
  forall acc, uint_value u (Z.pos acc) = Z.pos (Pos.of_uint_acc u acc).
Proof.
  induction u; intros acc; [done|..]; simpl;
    match goal with
    | |- uint_value _ ?z = Z.pos (Pos.of_uint_acc _ ?p) =>
        replace z with (Z.pos p) by lia; apply IHu
    end.
Qed.

Lemma uint_value_0 u : uint_value u 0 = Z.of_N (Pos.of_uint u).
Proof.
  induction u; [done|exact IHu|..]; simpl;
    match goal with
    | |- uint_value _ ?z = Z.pos (Pos.of_uint_acc _ ?p) =>
        replace z with (Z.pos p) by lia; apply uint_value_acc
    end.
Qed.

Lemma str_of_Z_pos n :
  0 < n ->
  exists u, str_of_Z n = NilEmpty.string_of_uint u /\
            u <> Decimal.Nil /\ uint_value u 0 = n.
Proof.
  destruct n as [|p|p]; try lia. intros _.
  exists (Pos.to_uint p).
  pose proof (DecimalPos.Unsigned.of_to p) as Hof.
  assert (Hne : Pos.to_uint p <> Decimal.Nil).
  { intros He. rewrite He in Hof. discriminate. }
  split; [|split; [done|]].
  - unfold str_of_Z. simpl. by destruct (Pos.to_uint p).
  - by rewrite uint_value_0, Hof.
Qed.

Lemma digits_not_letter s k :
  all_chars is_digit s = true -> is_digit k = false ->
  String.eqb s (String k "") = false.
Proof.
  destruct s as [|c s]; [done|]. simpl. intros [Hc _]%andb_true_iff Hk.
  destruct (Ascii.eqb_spec c k) as [->|_]; [congruence|done].
Qed.

Lemma py_int_digits u :
  u <> Decimal.Nil ->
  py_int (NilEmpty.string_of_uint u) = Some (uint_value u 0).
Proof.
  intros Hu. unfold py_int.
  pose proof (strip_padded "" (NilEmpty.string_of_uint u) "" eq_refl eq_refl
                (uint_digits u)) as Hs.
  rewrite append_nil_l, append_nil_r in Hs. rewrite Hs.
  pose proof (int_digits_uint u 0 false) as Hi.
  destruct u; try done; simpl in *; exact Hi.
Qed.

(** What a typed number comes to at either menu. *)
Lemma typed_number_reads before n after :
  0 < n -> blank before = true -> blank after = true ->
  let l := typed_number before n after in
  strip l = str_of_Z n /\
  lower (strip l) = str_of_Z n /\
  py_int (str_of_Z n) = Some n /\
  (forall k, is_digit k = false -> String.eqb (str_of_Z n) (String k "") = false).
Proof.
  intros Hn Hb Ha l. destruct (str_of_Z_pos n Hn) as (u & Hu & Hne & Hv).
  assert (Hs : strip l = str_of_Z n).
  { unfold l, typed_number. rewrite Hu. apply strip_padded; auto using uint_digits. }
  split; [done|]. rewrite Hs, Hu.
  split; [apply digits_lower, uint_digits|].
  split; [by rewrite py_int_digits, Hv|].
  intros k Hk. apply digits_not_letter; auto using uint_digits.
Qed.

(** X16. At either menu of the navigator, typing the number of a link, with
    or without white space around it, selects that link: for a number [n]
    between 1 and the number of links the menu returns position [n - 1]
    after reading that one line and printing no warning. After the choice
    [j] of the second menu the number typed at the next prompt does the
    same. *)
Theorem typed_number_selects_its_link (links : list Link)
    (before after : string) (n : Z) :
  1 <= n <= len links -> blank before = true -> blank after = true ->
  (forall cur st rest,
     console st = Line (typed_number before n after) :: rest ->
     get_user_selection links cur st =
     (Ok (Goto (n - 1)),
      after_round st rest
        [Print (NavigationOptions (len links) cur); Prompt EnterChoice])) /\
  (forall cur st rest,
     console st = Line (typed_number before n after) :: rest ->
     get_post_scrape_action links cur st =
     (Ok (Goto (n - 1)),
      after_round st rest
        [Print (WhatNext (len links) cur); Prompt EnterChoice])) /\
  (forall cur st j rest,
     lower (strip j) = "j"%string ->
     console st = Line j :: Line (typed_number before n after) :: rest ->
     get_post_scrape_action links cur st =
     (Ok (Goto (n - 1)),
      after_round st rest
        [Print (WhatNext (len links) cur); Prompt EnterChoice;
         Prompt EnterLinkNumber])).
Proof.
  intros Hn Hb Ha.
  destruct (typed_number_reads before n after ltac:(lia) Hb Ha)
    as (Hs & Hl & Hi & Hk).
  assert (Hr : (1 <=? n) && (n <=? len links) = true)
    by (apply andb_true_iff; split; lia).
  split; [|split].
  - intros cur st rest Hc.
    unfold get_user_selection, on_console. rewrite Hc.
    cbn [user_selection_loop]. rewrite Hl, !Hk by done. by rewrite Hi, Hr.
  - intros cur st rest Hc.
    unfold get_post_scrape_action, on_console. rewrite Hc.
    cbn [post_scrape_loop]. rewrite Hl, !Hk by done. by rewrite Hi, Hr.
  - intros cur st j rest Hj Hc.
    unfold get_post_scrape_action, on_console. rewrite Hc.
    cbn [post_scrape_loop]. rewrite Hj. cbn [String.eqb Ascii.eqb Bool.eqb].
    by rewrite Hs, Hi, Hr.
Qed.

Lemma typed_number_witness :
  1 <= 2 <= len [texas_link; bare_link; texas_link] /\
  get_user_selection [texas_link; bare_link; texas_link] None
    (ready_state [Line " 2 "; Line "q"]) =
  (Ok (Goto 1),
   after_round (ready_state [Line " 2 "; Line "q"]) [Line "q"]
     [Print (NavigationOptions 3 None); Prompt EnterChoice]).
Proof.
  assert (H : 1 <= 2 <= len [texas_link; bare_link; texas_link])
    by (vm_compute; split; discriminate).
  split; [exact H|].
  destruct (typed_number_selects_its_link [texas_link; bare_link; texas_link]
              " " " " 2 H eq_refl eq_refl) as (H1 & _).
  apply (H1 None (ready_state [Line " 2 "; Line "q"]) [Line "q"]). reflexivity.
Defined.

(** ** The pages of a whole session *)

Lemma balanced_quiet {A} (m : Py A) :
  keeps quiet_event any_errors m -> balanced m.
Proof.
  intros Hk st r st' Hrun. specialize (Hk st). rewrite Hrun in Hk.
  destruct Hk as ((tr & Ho & Hq) & _). simpl in Ho.
  destruct (quiet_trace tr Hq) as (H1 & H2 & _).
  exists tr. split; [done|]. rewrite H1, H2. split; [lia|done].
Qed.

Lemma balanced_bind {A B} (m : Py A) (k : A -> Py B) :
  balanced m -> (forall a, balanced (k a)) -> balanced (bind m k).
Proof.
  intros Hm Hk st r st'. unfold bind.
  destruct (m st) as [r1 s1] eqn:H1.
  destruct (Hm _ _ _ H1) as (t1 & Ho1 & Hb1 & Hr1).
  destruct r1 as [a|e|].
  - intros H2. destruct (Hk a _ _ _ H2) as (t2 & Ho2 & Hb2 & Hr2).
    specialize (Hr1 a eq_refl).
    exists (t1 ++ t2). rewrite Ho2, Ho1, <- app_assoc.
    unfold opened, closed in *. rewrite !tally_app.
    split; [done|]. split; [lia|].
    intros b Hb. specialize (Hr2 b Hb). lia.
  - intros [= <- <-]. exists t1. repeat split; try done; lia.
  - intros [= <- <-]. exists t1. repeat split; try done; lia.
Qed.

Lemma balanced_process_link w link index total :
  balanced (process_link w link index total).
Proof.
  intros st r st' Hrun.
  destruct (process_link_ledger _ _ _ _ _ _ _ Hrun) as (tr & Ho & H1 & H2 & Hr).
  exists tr. split; [done|]. split; [lia|].
  intros b ->. by destruct b, Hr.
Qed.

Lemma balanced_menus links :
  (forall cur, balanced (get_user_selection links cur)) /\
  (forall cur, balanced (get_post_scrape_action links cur)).
Proof.
  split; intros cur; apply balanced_quiet.
  - keeps_from nav_events (get_user_selection_keeps any_errors links cur).
  - keeps_from nav_events (get_post_scrape_action_keeps any_errors links cur).
Qed.

Lemma balanced_main_loop w links turns :
  forall cur, balanced (main_loop w links turns cur).
Proof.
  induction turns as [|n IH]; intros cur.
  - apply balanced_quiet. simpl. kapply keeps_ret.
  - rewrite main_loop_S. apply balanced_bind.
    + unfold main_turn. destruct (py_index links cur) as [link|].
      * apply balanced_bind; [apply balanced_process_link|].
        intros _. apply balanced_menus.
      * apply balanced_quiet. kapply keeps_raise.
    + intros [|k]; [|apply IH].
      apply balanced_quiet. repeat keeps_step.
Qed.

Lemma balanced_fetch_links w : balanced (fetch_links w).
Proof.
  apply balanced_quiet. unfold fetch_links, get_links_from_convex.
  repeat first
    [ keeps_from connect_events (init_convex_client_keeps any_errors w)
    | keeps_step ].
Qed.

Lemma display_link_menu_keeps links cur :
  keeps nav_events any_errors (display_link_menu links cur).
Proof.
  intros st. unfold display_link_menu.
  pose proof (link_menu_events links cur) as Hm.
  destruct (link_menu links cur) as [shown failure]. simpl in *.
  repeat split; simpl; [by exists shown|done|by left].
Qed.

Lemma balanced_run_session w links : balanced (run_session w links).
Proof.
  unfold run_session.
  apply balanced_bind;
    [apply balanced_quiet;
     keeps_from nav_events (display_link_menu_keeps links None)|intros _].
  apply balanced_bind; [apply balanced_menus|intros [|k]].
  { apply balanced_quiet. repeat keeps_step. }
  apply balanced_bind; [apply balanced_quiet; by kapply keeps_emit|intros _].
  apply balanced_bind.
  { apply balanced_quiet. destruct (browser_has_page w); [|kapply keeps_ret].
    unfold apply_stealth. repeat keeps_step. }
  intros _. apply balanced_bind.
  { intros st r st'. apply balanced_main_loop. }
  intros [?|]; apply balanced_quiet; repeat keeps_step.
Qed.

(** X17. Over a whole session of [main] no page is closed that was not
    opened and at most one page is ever left open; when [main] returns an
    exit code, every page the session opened has been closed. A page stays
    open only when the session ends in an exception or waits for a capture
    that never comes. *)
Theorem session_closes_every_page w st r st' :
  main w st = (r, st') ->
  exists tr,
    out st' = out st ++ tr /\
    (closed tr <= opened tr <= closed tr + 1)%nat /\
    (forall code, r = Ok code -> closed tr = opened tr).
Proof.
  revert st r st'. change (balanced (main w)). rewrite main_unfold.
  apply balanced_bind; [apply balanced_fetch_links|].
  intros [code|links]; [|apply balanced_run_session].
  apply balanced_quiet. kapply keeps_ret.
Qed.

Lemma session_closes_every_page_witness :
  fst (main sample_world (fresh_state [Line "1"; Line ""; Line "q"])) =
  Ok (Some 0) /\
  exists tr,
    out (snd (main sample_world (fresh_state [Line "1"; Line ""; Line "q"]))) =
    out (fresh_state [Line "1"; Line ""; Line "q"]) ++ tr /\
    (closed tr <= opened tr <= closed tr + 1)%nat /\
    (forall code,
       fst (main sample_world (fresh_state [Line "1"; Line ""; Line "q"])) =
       Ok code ->
       closed tr = opened tr).
Proof.
  split; [vm_compute; reflexivity|].
  apply (session_closes_every_page sample_world
           (fresh_state [Line "1"; Line ""; Line "q"])
           (fst (main sample_world (fresh_state [Line "1"; Line ""; Line "q"])))
           (snd (main sample_world (fresh_state [Line "1"; Line ""; Line "q"])))).
  vm_compute. reflexivity.
Defined.

(** ** The client is built once *)

Lemma client_step_refl st : client_step st st [].
Proof. by left. Qed.

Lemma client_step_trans st1 st2 st3 t1 t2 :
  client_step st1 st2 t1 -> client_step st2 st3 t2 ->
  client_step st1 st3 (t1 ++ t2).
Proof.
  unfold client_step, connects. rewrite tally_app.
  intros [[H1 C1]|(H1 & S1 & C1)] [[H2 C2]|(H2 & S2 & C2)].
  - left. split; [congruence|lia].
  - right. repeat split; [congruence|done|lia].
  - right. repeat split; [done|by rewrite H2|lia].
  - rewrite H2 in S1. by destruct S1.
Qed.

Lemma once_here {A} (m : Py A) st :
  snd (m st) = st ->
  exists tr, out (snd (m st)) = out st ++ tr /\ client_step st (snd (m st)) tr.
Proof.
  intros ->. exists []. split; [by rewrite app_nil_r|apply client_step_refl].
Qed.

Lemma once_ret {A} (a : A) : connects_once (ret a).
Proof. intros st. by apply once_here. Qed.

Lemma once_raise {A} e : connects_once (@raise A e).
Proof. intros st. by apply once_here. Qed.

Lemma once_hang {A} : connects_once (@hang A).
Proof. intros st. by apply once_here. Qed.

Lemma once_get_errors : connects_once get_errors.
Proof. intros st. by apply once_here. Qed.

Lemma once_bind {A B} (m : Py A) (k : A -> Py B) :
  connects_once m -> (forall a, connects_once (k a)) -> connects_once (bind m k).
Proof.
  intros Hm Hk st. unfold bind. destruct (Hm st) as (t1 & Ho1 & Hs1).
  destruct (m st) as [[a|e|] st1]; simpl in *; [|by exists t1..].
  destruct (Hk a st1) as (t2 & Ho2 & Hs2).
  exists (t1 ++ t2). split; [by rewrite Ho2, Ho1, app_assoc|].
  by eapply client_step_trans.
Qed.

Lemma once_try_except {A} (body : Py A) handler :
  connects_once body ->
  (forall e h, handler e = Some h -> connects_once h) ->
  connects_once (try_except body handler).
Proof.
  intros Hb Hh st. unfold try_except. destruct (Hb st) as (t1 & Ho1 & Hs1).
  destruct (body st) as [[a|e|] st1]; simpl in *; [by exists t1| |by exists t1].
  destruct (handler e) as [h|] eqn:He; [|by exists t1].
  destruct (Hh e h He st1) as (t2 & Ho2 & Hs2).
  exists (t1 ++ t2). split; [by rewrite Ho2, Ho1, app_assoc|].
  by eapply client_step_trans.
Qed.

Lemma once_except_Exception {A} (h : Exn -> Py A) e h' :
  (forall e, connects_once (h e)) ->
  except_Exception h e = Some h' -> connects_once h'.
Proof.
  unfold except_Exception. intros Hh H.
  destruct (is_Exception e); [|done]. injection H as <-. apply Hh.
Qed.

Lemma once_emit e : is_connect e = false -> connects_once (emit e).
Proof.
  intros He st. exists [e]. split; [done|]. left. split; [done|].
  unfold connects. by rewrite tally_cons, He.
Qed.

Lemma once_print m : connects_once (print m).
Proof. by apply once_emit. Qed.

Lemma once_input p : connects_once (input p).
Proof.
  intros st. unfold input. exists [Prompt p].
  destruct (console st) as [|[l|] rest]; simpl; by (split; [|left]).
Qed.

Lemma once_call {A} (o : Outcome A) : connects_once (call o).
Proof. destruct o; [apply once_ret | apply once_raise]. Qed.

Lemma once_on_console {A} foot (f : list Key -> Res A * list Key * list Event) :
  reads foot f ->
  (forall e, foot e = true -> is_connect e = false) ->
  connects_once (on_console f).
Proof.
  intros Hf Hfoot st. unfold on_console. destruct (Hf (console st)) as [_ Ht].
  destruct (f (console st)) as [[r con] tr]. simpl in *.
  exists tr. split; [done|]. left. split; [done|].
  unfold connects. clear -Ht Hfoot.
  induction Ht as [|e tr He _ IH]; [done|].
  by rewrite tally_cons, (Hfoot e He), IH.
Qed.

Lemma once_record_error entry : connects_once (record_error entry).
Proof. intros st. exists []. simpl. split; [by rewrite app_nil_r|by left]. Qed.

Lemma once_clear_errors : connects_once clear_errors.
Proof. intros st. exists []. simpl. split; [by rewrite app_nil_r|by left]. Qed.

Lemma once_await fut : connects_once (await fut).
Proof. destruct fut; [apply once_hang|apply once_ret|apply once_raise]. Qed.

(** [init_convex_client] is where the client is built: with a client it does
    nothing, without one it connects once or gives up. *)
Lemma once_init_convex_client w : connects_once (init_convex_client w).
Proof.
  intros st. unfold init_convex_client.
  destruct (client st) as [c|] eqn:Hc; [by apply once_here|].
  destruct (env_convex_url w) as [[|a r]|]; simpl.
  - exists [Print ConvexUrlMissing]. split; [done|]. by left.
  - eexists [_; _]. split; [by rewrite <- app_assoc|].
    right. repeat split; [done|by eexists].
  - exists [Print ConvexUrlMissing]. split; [done|]. by left.
Qed.

Ltac once_step :=
  match goal with
  | H : except_Exception _ _ = Some ?h |- connects_once ?h =>
      eapply once_except_Exception; [|exact H]; clear H; intros ?; cbv beta
  | H : (if is_ValueError ?e then _ else _) = Some ?h |- connects_once ?h =>
      destruct (is_ValueError e), (is_Exception e); simplify_eq
  | |- connects_once (init_convex_client _) => apply once_init_convex_client
  | |- connects_once (bind _ _) => apply once_bind; [|intros ?]
  | |- connects_once (ret _) => apply once_ret
  | |- connects_once (raise _) => apply once_raise
  | |- connects_once hang => apply once_hang
  | |- connects_once (try_except _ _) =>
      apply once_try_except; [|intros ? ? ?; cbv beta in *]
  | |- connects_once (print _) => apply once_print
  | |- connects_once (emit _) => apply once_emit; reflexivity
  | |- connects_once (input _) => apply once_input
  | |- connects_once (call _) => apply once_call
  | |- connects_once (await _) => apply once_await
  | |- connects_once get_errors => apply once_get_errors
  | |- connects_once clear_errors => apply once_clear_errors
  | |- connects_once (record_error _) => apply once_record_error
  | |- connects_once (match ?x with _ => _ end) => destruct x
  | |- connects_once (if ?x then _ else _) => destruct x
  end.

Lemma once_menus links :
  (forall cur, connects_once (get_user_selection links cur)) /\
  (forall cur, connects_once (get_post_scrape_action links cur)).
Proof.
  split; intros cur.
  - apply (once_on_console nav_events); [apply user_selection_loop_reads|].
    by intros [].
  - apply (once_on_console nav_events); [apply post_scrape_loop_reads|].
    by intros [].
Qed.

Lemma once_get_manual_html_input : connects_once get_manual_html_input.
Proof.
  unfold get_manual_html_input. repeat once_step.
  apply (once_on_console paste_events); [apply manual_input_loop_reads|].
  by intros [].
Qed.

Lemma once_parse_with_ai_agent w html url :
  connects_once (parse_with_ai_agent w html url).
Proof.
  unfold parse_with_ai_agent, py_get, py_get_or, py_len_of. repeat once_step.
Qed.

Lemma once_save_debug_html w html url :
  connects_once (save_debug_html w html url).
Proof. unfold save_debug_html. repeat once_step. Qed.

Lemma once_parse_html_to_records w html url :
  connects_once (parse_html_to_records w html url).
Proof.
  unfold parse_html_to_records.
  repeat first [ apply once_save_debug_html
               | apply once_parse_with_ai_agent
               | once_step ].
Qed.

Lemma once_store_and_close w link v : connects_once (store_and_close w link v).
Proof.
  unfold store_and_close, save_procurement_data_to_convex, py_len_of.
  repeat once_step.
Qed.

Lemma once_manual_turn w url attempt max_retries :
  connects_once (manual_turn w url attempt max_retries).
Proof.
  unfold manual_turn, ask_retry.
  repeat first [ apply once_get_manual_html_input
               | apply once_parse_with_ai_agent
               | once_step ].
Qed.

Lemma once_manual_summary : connects_once manual_summary.
Proof. unfold manual_summary. repeat once_step. Qed.

Lemma once_manual_loop w url max_retries remaining :
  forall attempt, connects_once (manual_loop w url max_retries remaining attempt).
Proof.
  induction remaining as [|r IH]; intros attempt; simpl.
  - apply once_manual_summary.
  - unfold manual_attempt.
    repeat first [ apply once_manual_turn | apply once_manual_summary
                 | apply IH | once_step ].
Qed.

Lemma once_offer_manual w link u : connects_once (offer_manual w link u).
Proof.
  unfold offer_manual, manual_html_fallback, py_len_of.
  repeat first [ apply once_manual_loop | apply once_store_and_close | once_step ].
Qed.

Lemma once_open_session w u wait : connects_once (open_session w u wait).
Proof.
  unfold open_session, apply_stealth, check_for_verification, diagnose_detection.
  repeat once_step.
Qed.

Lemma once_process_link w link index total :
  connects_once (process_link w link index total).
Proof.
  unfold process_link, capture_and_extract, get_wait_strategy, py_len_of.
  repeat first [ apply once_open_session | apply once_offer_manual
               | apply once_parse_html_to_records | apply once_store_and_close
               | once_step ].
Qed.

Lemma once_main_loop w links turns :
  forall cur, connects_once (main_loop w links turns cur).
Proof.
  induction turns as [|n IH]; intros cur; [apply once_ret|].
  rewrite main_loop_S. unfold main_turn.
  repeat first [ apply once_process_link | apply once_menus | apply IH | once_step ].
Qed.

Lemma once_display_link_menu links cur :
  connects_once (display_link_menu links cur).
Proof.
  intros st. unfold display_link_menu.
  pose proof (link_menu_events links cur) as Hm.
  destruct (link_menu links cur) as [shown failure]. simpl in *.
  exists shown. split; [done|]. left. split; [done|].
  unfold connects. clear -Hm.
  induction Hm as [|e tr He _ IH]; [done|].
  rewrite tally_cons, IH. by destruct e.
Qed.

Lemma once_main w : connects_once (main w).
Proof.
  unfold main, get_links_from_convex, apply_stealth.
  repeat first [ apply once_display_link_menu | apply once_menus | once_step ].
  intros st. apply once_main_loop.
Qed.

Lemma client_step_facts st st' tr :
  client_step st st' tr ->
  (connects tr <= 1)%nat /\
  (is_Some (client st) -> connects tr = 0%nat /\ client st' = client st) /\
  (connects tr = 1%nat -> client st = None /\ is_Some (client st')).
Proof.
  intros [[Hc Hn]|(Hc & Hs & Hn)]; (split; [lia|]); split.
  - done.
  - intros H. lia.
  - rewrite Hc. by intros [? ?].
  - done.
Qed.

(** X18. A session builds the backend client at most once. Over a whole run
    of [main], and over any one call of [process_link], the trace holds at
    most one connection to the backend; a connection is made only when
    there was no client, and it leaves one; and when a client exists at the
    start, no connection is made and the client is left as it is, whatever
    fails in between. *)
Theorem client_is_built_once w st :
  (exists tr,
     out (snd (main w st)) = out st ++ tr /\
     (connects tr <= 1)%nat /\
     (is_Some (client st) ->
      connects tr = 0%nat /\ client (snd (main w st)) = client st) /\
     (connects tr = 1%nat ->
      client st = None /\ is_Some (client (snd (main w st))))) /\
  (forall link index total,
     exists tr,
       out (snd (process_link w link index total st)) = out st ++ tr /\
       (connects tr <= 1)%nat /\
       (is_Some (client st) ->
        connects tr = 0%nat /\
        client (snd (process_link w link index total st)) = client st) /\
       (connects tr = 1%nat ->
        client st = None /\
        is_Some (client (snd (process_link w link index total st))))).
Proof.
  split.
  - destruct (once_main w st) as (tr & Ho & Hs).
    exists tr. split; [done|]. by apply client_step_facts.
  - intros link index total.
    destruct (once_process_link w link index total st) as (tr & Ho & Hs).
    exists tr. split; [done|]. by apply client_step_facts.
Qed.

Lemma client_is_built_once_witness :
  is_Some (client (ready_state [Line "1"; Line ""; Line "q"])) /\
  exists tr,
    out (snd (main sample_world (ready_state [Line "1"; Line ""; Line "q"]))) =
    out (ready_state [Line "1"; Line ""; Line "q"]) ++ tr /\
    connects tr = 0%nat /\
    client (snd (main sample_world (ready_state [Line "1"; Line ""; Line "q"]))) =
    client (ready_state [Line "1"; Line ""; Line "q"]).
Proof.
  assert (Hc : is_Some (client (ready_state [Line "1"; Line ""; Line "q"])))
    by (vm_compute; by eexists).
  split; [exact Hc|].
  destruct (client_is_built_once sample_world
              (ready_state [Line "1"; Line ""; Line "q"]))
    as [(tr & Ho & _ & H & _) _].
  exists tr. split; [exact Ho|]. exact (H Hc).
Defined.

(** ** The session of the first click variant *)

Lemma visit_links_escapes w links :
  forall st e st',
    ScraperTool.visit_links w links st = (Raise e, st') ->
    click_loop_failure w links e.
Proof.
  induction links as [|link links IH]; intros st e st'; [done|].
  cbn [ScraperTool.visit_links]. unfold bind at 1.
  destruct (ScraperTool.process_link w link st) as [r1 s1] eqn:Hp.
  apply click_process_link_ledger in Hp as (t1 & _ & _ & _ & _ & Hr1).
  destruct r1 as [[]|e1|]; [| |done].
  - unfold bind, input.
    destruct (console s1) as [|[l|] rest]; simpl.
    + intros [= <- <-]. left. by left.
    + destruct (String.eqb (lower l) "q"); simpl; [done|].
      intros Hrun. destruct (IH _ _ _ Hrun) as [H|(l' & Hin & Hf)]; [by left|].
      right. exists l'. split; [by right|done].
    + intros [= <- <-]. left. by right.
  - intros [= <- <-]. right. exists link. split; [by left|]. by destruct Hr1 as (_ & _ & ?).
Qed.

Lemma click_fetch_spec w st :
  exists fetched s,
    try_except
      (links <- ScraperToolMain.get_links_from_convex w;;
       print (LoadedLinks (len links));;
       match links with
       | [] => print NoApprovedLinks;; ret (inl None)
       | _ => ret (inr links)
       end)
      (except_Exception (fun e =>
         print (FetchError (exn_text e));;
         ret (inl (Some 1)))) st = (Ok fetched, s) /\
    (exists tr, out s = out st ++ tr /\ Forall (fun e => quiet_event e = true) tr) /\
    match fetched with
    | inl None => fst (ScraperToolMain.get_links_from_convex w st) = Ok []
    | inl (Some code) =>
        code = 1 /\ exists e, fst (ScraperToolMain.get_links_from_convex w st) = Raise e
    | inr links =>
        links <> [] /\ fst (ScraperToolMain.get_links_from_convex w st) = Ok links
    end.
Proof.
  unfold ScraperToolMain.get_links_from_convex, set_client. run.
  destruct (client st) as [c|]; simpl.
  - destruct (convex_query w) as [[|l ls]|le]; simpl; rewrite ?is_Exception_lib; simpl;
      eexists _, _; (split; [reflexivity|]); simpl;
      (split; [eexists; split; [by rewrite <- ?app_assoc|repeat constructor]|]);
      eauto.
  - destruct (env_convex_url w) as [[|a r]|]; simpl.
    + eexists _, _; (split; [reflexivity|]); simpl;
      (split; [eexists; split; [by rewrite <- ?app_assoc|repeat constructor]|]);
      eauto.
    + destruct (convex_query w) as [[|l ls]|le]; simpl; rewrite ?is_Exception_lib; simpl;
      eexists _, _; (split; [reflexivity|]); simpl;
      (split; [eexists; split; [by rewrite <- ?app_assoc|repeat constructor]|]);
      eauto.
    + eexists _, _; (split; [reflexivity|]); simpl;
      (split; [eexists; split; [by rewrite <- ?app_assoc|repeat constructor]|]);
      eauto.
Qed.

(** X19. [main] of the first click variant ends in one of these ways. It
    returns, and then every page the session opened has been closed and the
    process exits with 0 or 1, with 1 exactly when fetching the links
    raised (a bare [return] on an empty queue exits with 0). Or an
    exception leaves it, and then the links had come and the exception is
    that of a closed or interrupted console at the prompt or the failure to
    set up the selector on the page of one of the links. Or it waits for a
    click that never comes. In no case are more pages closed than were
    opened. *)
Theorem click_session_outcomes w st r st' :
  ScraperToolMain.main w st = (r, st') ->
  exists tr,
    out st' = out st ++ tr /\
    (closed tr <= opened tr)%nat /\
    match r with
    | Ok code =>
        closed tr = opened tr /\
        (ScraperToolMain.exit_status code = 0 \/
         ScraperToolMain.exit_status code = 1) /\
        (ScraperToolMain.exit_status code = 1 <->
         exists e, fst (ScraperToolMain.get_links_from_convex w st) = Raise e)
    | Raise e =>
        exists links,
          fst (ScraperToolMain.get_links_from_convex w st) = Ok links /\
          click_loop_failure w links e
    | Hang => True
    end.
Proof.
  unfold ScraperToolMain.main. unfold bind at 1.
  destruct (click_fetch_spec w st) as (fetched & s & -> & (t0 & Ho0 & Hq0) & Hf).
  destruct (quiet_trace t0 Hq0) as (Hop0 & Hcl0 & _).
  destruct fetched as [[code|]|links].
  - intros [= <- <-]. destruct Hf as (-> & e & He).
    exists t0. rewrite Hop0, Hcl0. repeat split; eauto.
  - intros [= <- <-]. exists t0. rewrite Hop0, Hcl0, Hf.
    repeat split; simpl; auto; try done; try (by intros [e He]).
  - destruct Hf as (Hne & Hf). unfold bind at 1.
    change (emit LaunchBrowser s)
      with (Ok tt, mkState (console s) (out s ++ [LaunchBrowser]) (client s) (errors s)).
    cbv beta iota. unfold bind at 1.
    destruct (ScraperTool.visit_links w links _) as [r1 s1] eqn:Hv.
    pose proof (visit_links_ledger _ _ _ _ _ Hv) as (t1 & Ho1 & _ & _ & _ & Hle & Heq).
    simpl in Ho1.
    destruct r1 as [[]|e|].
    + run. intros [= <- <-]. simpl.
      exists (t0 ++ [LaunchBrowser] ++ t1 ++ [CloseBrowser]).
      rewrite Ho1, Ho0, <- !app_assoc. split; [done|].
      specialize (Heq eq_refl).
      tallies. rewrite Hop0, Hcl0. simpl.
      rewrite Hf. repeat split; try lia; auto; try done; try (by intros [e He]).
    + intros [= <- <-].
      exists (t0 ++ [LaunchBrowser] ++ t1).
      rewrite Ho1, Ho0, <- !app_assoc. split; [done|].
      tallies. rewrite Hop0, Hcl0. simpl.
      split; [lia|]. exists links. split; [done|].
      by eapply visit_links_escapes.
    + intros [= <- <-].
      exists (t0 ++ [LaunchBrowser] ++ t1).
      rewrite Ho1, Ho0, <- !app_assoc. split; [done|].
      tallies. rewrite Hop0, Hcl0. simpl.
      split; [lia|done].
Qed.

Lemma click_session_witness :
  ScraperToolMain.main sample_world (fresh_state [Line "q"]) =
  (Ok (Some 0), snd (ScraperToolMain.main sample_world (fresh_state [Line "q"]))) /\
  exists tr,
    out (snd (ScraperToolMain.main sample_world (fresh_state [Line "q"]))) =
    out (fresh_state [Line "q"]) ++ tr /\
    (closed tr <= opened tr)%nat /\
    closed tr = opened tr.
Proof.
  assert (H : ScraperToolMain.main sample_world (fresh_state [Line "q"]) =
              (Ok (Some 0),
               snd (ScraperToolMain.main sample_world (fresh_state [Line "q"]))))
    by (vm_compute; reflexivity).
  split; [exact H|].
  destruct (click_session_outcomes _ _ _ _ H) as (tr & Ho & Hle & Heq & _).
  exists tr. auto.
Defined.
